(** * The highstate outputter (salt/output/highstate.py)

    A shallow embedding of [_compress_ids], [output], [_format_host],
    [_format_changes] and [_format_terse], and the properties of the
    renderer stated over it.

    Python values are a tree of JSON-like data whose mappings are
    insertion-ordered association lists with string keys.  The task records
    of one host are objects that the code updates in place and shares
    between the input and the compressed report: they live in a store
    indexed by their position in the host mapping, and the functions that
    write to them return the store they leave behind. *)

From Stdlib Require Import ZArith QArith Qround Ascii String DecimalString.
From Stdlib Require Import Sorted DecimalPos.
From stdpp Require Import base list strings.

Set Warnings "-register-all".
Local Open Scope string_scope.
Local Open Scope list_scope.
Local Open Scope Z_scope.

(** ** Values *)

Inductive value : Type :=
| VNone
| VBool (b : bool)
| VInt (n : Z)
| VFloat (q : Q)
| VStr (s : string)
| VList (l : list value)
| VDict (d : list (string * value)).

Abbreviation dict := (list (string * value)).

(** Outcomes of a call: a value, a Python exception, recursion cut off by
    the fuel of the embedding, or an operand the embedding does not cover
    (a mapping key that is not a string, an ordering between lists). *)
Inductive exn : Type :=
| KeyError | TypeError | AttributeError | ValueError | IndexError
| ZeroDivisionError.

Inductive res (A : Type) : Type :=
| Ok (a : A)
| Raise (e : exn)
| OutOfFuel
| Uncovered.
Arguments Ok {A} a.
Arguments Raise {A} e.
Arguments OutOfFuel {A}.
Arguments Uncovered {A}.

Definition rbind {A B} (m : res A) (k : A -> res B) : res B :=
  match m with
  | Ok a => k a
  | Raise e => Raise e
  | OutOfFuel => OutOfFuel
  | Uncovered => Uncovered
  end.

Notation "'do' x <- m ; k" := (rbind m (fun x => k))
  (at level 10, x name, m at level 100, k at level 200).
Notation "'do' ' p <- m ; k" := (rbind m (fun x => let 'p := x in k))
  (at level 10, p pattern, m at level 100, k at level 200).

Definition of_option {A} (e : exn) (o : option A) : res A :=
  match o with Some a => Ok a | None => Raise e end.

(** ** Strings *)

Module Str.

Fixpoint join (sep : string) (l : list string) : string :=
  match l with
  | [] => ""
  | [s] => s
  | s :: l' => s +:+ sep +:+ join sep l'
  end.

Fixpoint repeat (s : string) (n : nat) : string :=
  match n with O => "" | S n' => s +:+ repeat s n' end.

Definition startswith (s p : string) : bool := String.prefix p s.

Fixpoint drop (n : nat) (s : string) : string :=
  match n, s with
  | O, _ => s
  | S n', String _ s' => drop n' s'
  | S _, EmptyString => ""
  end.

Definition endswith (s p : string) : bool :=
  (String.length p <=? String.length s)%nat
  && String.eqb (drop (String.length s - String.length p) s) p.

(** [sub in s] *)
Fixpoint contains (s sub : string) : bool :=
  String.prefix sub s ||
  match s with
  | EmptyString => false
  | String _ s' => contains s' sub
  end.

(** [s.split(sep)] for a separator that is not empty: scanned from the
    left, without overlap.  [cur] is the current field, reversed. *)
Fixpoint split_go (sep : string) (cur : string) (s : string) (fuel : nat)
  : list string :=
  match fuel with
  | O => [String.rev cur]
  | S fuel' =>
      match s with
      | EmptyString => [String.rev cur]
      | String c s' =>
          if String.prefix sep s
          then String.rev cur :: split_go sep "" (drop (String.length sep) s) fuel'
          else split_go sep (String c cur) s' fuel'
      end
  end.

Definition split (sep s : string) : list string :=
  split_go sep "" s (String.length s).

Fixpoint replace_go (old new : string) (s : string) (fuel : nat) : string :=
  match fuel with
  | O => s
  | S fuel' =>
      match s with
      | EmptyString => ""
      | String c s' =>
          if String.prefix old s
          then new +:+ replace_go old new (drop (String.length old) s) fuel'
          else String c (replace_go old new s' fuel')
      end
  end.

(** [s.replace(old, new)], [old] not empty *)
Definition replace (old new s : string) : string :=
  replace_go old new s (String.length s).

Definition lower_ascii (c : Ascii.ascii) : Ascii.ascii :=
  let n := Ascii.nat_of_ascii c in
  if ((65 <=? n) && (n <=? 90))%nat then Ascii.ascii_of_nat (n + 32) else c.

Fixpoint lower (s : string) : string :=
  match s with
  | EmptyString => ""
  | String c s' => String (lower_ascii c) (lower s')
  end.

Definition is_space (c : Ascii.ascii) : bool :=
  let n := Ascii.nat_of_ascii c in
  ((9 <=? n) && (n <=? 13) || (28 <=? n) && (n <=? 32))%nat.

Fixpoint lstrip (s : string) : string :=
  match s with
  | String c s' => if is_space c then lstrip s' else s
  | EmptyString => ""
  end.

Definition rstrip (s : string) : string := String.rev (lstrip (String.rev s)).
Definition strip (s : string) : string := rstrip (lstrip s).

Definition nl : string := String (Ascii.ascii_of_nat 10) "".

Definition is_linebreak (c : Ascii.ascii) : bool :=
  let n := Ascii.nat_of_ascii c in
  ((10 <=? n) && (n <=? 13) || (28 <=? n) && (n <=? 30))%nat.

(** [s.splitlines()]: a carriage return followed by a line feed is one
    break, and a final break opens no empty line. *)
Fixpoint splitlines_go (cur : string) (s : string) : list string :=
  match s with
  | EmptyString => if String.eqb cur "" then [] else [String.rev cur]
  | String c s' =>
      if is_linebreak c then
        match Ascii.nat_of_ascii c, s' with
        | 13%nat, String c' s'' =>
            if Ascii.eqb c' (Ascii.ascii_of_nat 10)
            then String.rev cur :: splitlines_go "" s''
            else String.rev cur :: splitlines_go "" s'
        | _, _ => String.rev cur :: splitlines_go "" s'
        end
      else splitlines_go (String c cur) s'
  end.

Definition splitlines (s : string) : list string := splitlines_go "" s.

(** [str(n)] and [int(s)] on decimal digits *)
Definition of_Z (n : Z) : string := NilZero.string_of_int (Z.to_int n).

Definition is_digit (c : Ascii.ascii) : bool :=
  let n := Ascii.nat_of_ascii c in ((48 <=? n) && (n <=? 57))%nat.

Fixpoint digits_value (acc : Z) (s : string) : Z :=
  match s with
  | EmptyString => acc
  | String c s' => digits_value (10 * acc + (Z.of_nat (Ascii.nat_of_ascii c) - 48)) s'
  end.

(** ["{:>w}"] and ["{:<w}"] *)
Definition rjust (w : Z) (s : string) : string :=
  repeat " " (Z.to_nat w - String.length s) +:+ s.
Definition ljust (w : Z) (s : string) : string :=
  s +:+ repeat " " (Z.to_nat w - String.length s).

(** The digits of [re.search(r"\((\d+)\)$", s)]: the match ends at the end
    of [s], or before a line feed that ends [s]. *)
Fixpoint leading_digits (s : string) : string * string :=
  match s with
  | String c s' =>
      if is_digit c then let '(d, r) := leading_digits s' in (String c d, r)
      else ("", s)
  | EmptyString => ("", "")
  end.

Definition count_suffix (s : string) : option Z :=
  let r := String.rev s in
  let r := match r with
           | String c r' => if Ascii.eqb c (Ascii.ascii_of_nat 10) then r' else r
           | EmptyString => r
           end in
  match r with
  | String ")" r' =>
      match leading_digits r' with
      | (String d ds, String "(" _) => Some (digits_value 0 (String.rev (String d ds)))
      | _ => None
      end
  | _ => None
  end.

End Str.

(** ** Python operations on values *)

Module Py.

Fixpoint dget {A} (k : string) (d : list (string * A)) : option A :=
  match d with
  | [] => None
  | (k', v) :: d' => if String.eqb k k' then Some v else dget k d'
  end.

(** [d[k] = v]: an existing key keeps its position, a new one goes last *)
Fixpoint dset {A} (k : string) (v : A) (d : list (string * A))
  : list (string * A) :=
  match d with
  | [] => [(k, v)]
  | (k', v') :: d' =>
      if String.eqb k k' then (k, v) :: d' else (k', v') :: dset k v d'
  end.

Fixpoint ddel {A} (k : string) (d : list (string * A)) : list (string * A) :=
  match d with
  | [] => []
  | (k', v') :: d' => if String.eqb k k' then d' else (k', v') :: ddel k d'
  end.

Definition dhas {A} (k : string) (d : list (string * A)) : bool :=
  match dget k d with Some _ => true | None => false end.

(** [k in v] for a value known to be a mapping *)
Definition has_key (k : string) (v : value) : bool :=
  match v with VDict d => dhas k d | _ => false end.

(** [v[k]] *)
Definition item (v : value) (k : string) : res value :=
  match v with
  | VDict d => of_option KeyError (dget k d)
  | _ => Raise TypeError
  end.

(** [v.get(k, dflt)] *)
Definition get (v : value) (k : string) (dflt : value) : res value :=
  match v with
  | VDict d => Ok (default dflt (dget k d))
  | _ => Raise AttributeError
  end.

Definition is_dict (v : value) : bool :=
  match v with VDict _ => true | _ => false end.

(** [isinstance(v, int)]: the booleans are integers *)
Definition is_int (v : value) : bool :=
  match v with VInt _ | VBool _ => true | _ => false end.

Definition is_str (v : value) : bool :=
  match v with VStr _ => true | _ => false end.

(** [v is False] and [v is None] *)
Definition is_false (v : value) : bool :=
  match v with VBool false => true | _ => false end.

Definition is_none (v : value) : bool :=
  match v with VNone => true | _ => false end.

(** [bool(v)] *)
Definition truthy (v : value) : bool :=
  match v with
  | VNone => false
  | VBool b => b
  | VInt n => negb (n =? 0)
  | VFloat q => negb (Qeq_bool q 0)
  | VStr s => negb (String.eqb s "")
  | VList l => match l with [] => false | _ => true end
  | VDict d => match d with [] => false | _ => true end
  end.

(** [v == s] for a string [s] *)
Definition eq_str (v : value) (s : string) : bool :=
  match v with VStr s' => String.eqb s' s | _ => false end.

(** [str(v)]; the text of floats, lists and mappings is Python's own and
    is supplied as [repr] *)
Definition str (repr : value -> string) (v : value) : string :=
  match v with
  | VNone => "None"
  | VBool true => "True"
  | VBool false => "False"
  | VInt n => Str.of_Z n
  | VStr s => s
  | _ => repr v
  end.

Definition num (v : value) : option Q :=
  match v with
  | VBool b => Some (inject_Z (if b then 1 else 0))
  | VInt n => Some (inject_Z n)
  | VFloat q => Some q
  | _ => None
  end.

Definition Qltb (x y : Q) : bool :=
  match Qcompare x y with Lt => true | _ => false end.

(** [a < b] on numbers and on strings; between lists Python compares
    element by element, which is not covered; other operands do not
    compare *)
Definition lt (a b : value) : res bool :=
  match num a, num b with
  | Some x, Some y => Ok (Qltb x y)
  | _, _ =>
      match a, b with
      | VStr s, VStr t => Ok (String.ltb s t)
      | VList _, VList _ => Uncovered
      | _, _ => Raise TypeError
      end
  end.

(** [min(a, b)]: [b] only when it is smaller *)
Definition min2 (a b : value) : res value :=
  do c <- lt b a; Ok (if c then b else a).

(** [sorted([a, b])[0]] *)
Definition first_sorted2 (a b : value) : res value :=
  do c <- lt b a; Ok (if c then b else a).

Definition int_of (v : value) : option Z :=
  match v with
  | VBool b => Some (if b then 1 else 0)
  | VInt n => Some n
  | _ => None
  end.

(** [sum([a, b])] *)
Definition sum2 (a b : value) : res value :=
  match int_of a, int_of b with
  | Some x, Some y => Ok (VInt (x + y))
  | _, _ =>
      match num a, num b with
      | Some x, Some y => Ok (VFloat (Qred (x + y)))
      | _, _ => Raise TypeError
      end
  end.

(** Rounding to the nearest integer, ties to the even one *)
Definition round_half_even (q : Q) : Z :=
  let f := Qfloor q in
  match Qcompare (q - inject_Z f) (1 # 2) with
  | Lt => f
  | Gt => f + 1
  | Eq => if Z.even f then f else f + 1
  end.

Definition round_to (digits : positive) (q : Q) : Q :=
  let scale := Pos.pow 10 digits in
  Qred (round_half_even (q * inject_Z (Zpos scale)) # scale).

(** [round(v, 3)]: an integer is returned as it is *)
Definition round3 (v : value) : res value :=
  match v with
  | VBool b => Ok (VInt (if b then 1 else 0))
  | VInt n => Ok (VInt n)
  | VFloat q => Ok (VFloat (round_to 3 q))
  | _ => Raise TypeError
  end.

(** [len(v)] *)
Definition len (v : value) : res Z :=
  match v with
  | VStr s => Ok (Z.of_nat (String.length s))
  | VList l => Ok (Z.of_nat (length l))
  | VDict d => Ok (Z.of_nat (length d))
  | _ => Raise TypeError
  end.

(** [s in v] for a string [s] *)
Definition str_in (s : string) (v : value) : res bool :=
  match v with
  | VList l => Ok (existsb (fun x => eq_str x s) l)
  | VDict d => Ok (dhas s d)
  | VStr t => Ok (Str.contains t s)
  | _ => Raise TypeError
  end.

(** [sorted(l, key=...)]: stable, the keys compared with [<]; an element
    goes behind the ones it is not smaller than *)
Fixpoint insert_by {A} (key : A -> value) (x : A) (l : list A) : res (list A) :=
  match l with
  | [] => Ok [x]
  | y :: l' =>
      do c <- lt (key x) (key y);
      if c then Ok (x :: y :: l')
      else do l'' <- insert_by key x l'; Ok (y :: l'')
  end.

Definition sorted_by {A} (key : A -> value) (l : list A) : res (list A) :=
  foldl (fun acc x => do sl <- acc; insert_by key x sl) (Ok []) l.

(** [l[i]] and [l[i] = x] on a list of strings *)
Definition nth_str (l : list string) (i : nat) : res string :=
  of_option IndexError (l !! i).

Definition set_nth_str (l : list string) (i : nat) (x : string)
  : res (list string) :=
  if (i <? length l)%nat then Ok (<[i := x]> l) else Raise IndexError.

(** ["\n".join(v)] *)
Fixpoint strs_of (l : list value) : option (list string) :=
  match l with
  | [] => Some []
  | VStr s :: l' => option_map (cons s) (strs_of l')
  | _ => None
  end.

Definition join_lines (v : value) : res string :=
  match v with
  | VList l => do ss <- of_option TypeError (strs_of l); Ok (Str.join Str.nl ss)
  | VDict d => Ok (Str.join Str.nl (map fst d))
  | VStr s =>
      Ok (Str.join Str.nl (map (fun c => String c "") (list_ascii_of_string s)))
  | _ => Raise TypeError
  end.

End Py.

(** ** What the module takes from outside

    The palette, the pretty-printers and the decoders are other modules of
    Salt or of the Python library; the renderer is stated for any of them. *)

Record externals : Type := {
  colors : string -> string;
    (* salt.utils.color.get_colors(...)[name] *)
  pformat : value -> string;
    (* pprint.pformat *)
  nested_out : value -> string;
    (* salt.output.out_format(changes, "nested", __opts__, nested_indent=14) *)
  decode : value -> value;
    (* salt.utils.data.decode *)
  strip_esc : value -> value;
    (* salt.output.strip_esc_sequence *)
  wrap_fill : string -> string;
    (* textwrap.TextWrapper(width=80, ...).fill *)
  repr : value -> string;
    (* str() of a float, a list or a mapping *)
  parse_float : string -> option Q;
    (* float(s), None for ValueError *)
  fmt_3f : Q -> string;
    (* "{:.3f}".format *)
  format_template : string -> list value -> res string
    (* str.format of a custom tabular template *)
}.

(** The entries of [__opts__] that the module reads, with the defaults of
    its [get] calls already applied by the caller. *)
Record options : Type := {
  state_tabular : value;
  strip_colors : bool;
  state_compress_ids : bool;
  state_output_diff : bool;
  state_verbose : bool;
  state_output : string;
  arg : list value;
  state_output_exclude : value;
  state_output_terse : value;
  state_output_profile : bool;
  state_output_pct : bool
}.

(** ** [_compress_ids] *)

Module Compress.

(** The three figures that compression aggregates, for a record that has
    them as an integer, a float and a string *)
Definition timing (info : value) : option (Z * Q * string) :=
  match info with
  | VDict f =>
      match Py.dget "__run_num__" f, Py.dget "duration" f, Py.dget "start_time" f with
      | Some (VInt n), Some (VFloat q), Some (VStr s) => Some (n, q, s)
      | _, _, _ => None
      end
  | _ => None
  end.

(** The aggregate of a group, one member after the other: the smaller run
    number, the sum so far plus the duration of the member, rounded to three
    decimals, and the earlier start time. *)
Definition add_member (acc t : Z * Q * string) : Z * Q * string :=
  let '(n, q, s) := acc in
  let '(n', q', s') := t in
  (Z.min n' n, Py.round_to 3 (Qred (q' + q)), if String.ltb s s' then s else s').

Definition aggregate (first : Z * Q * string) (rest : list (Z * Q * string))
  : Z * Q * string :=
  foldl add_member first rest.

Section WithRepr.
Variable repr_ext : value -> string.
Let str := Py.str repr_ext.

(** The compressed mapping of one host: synthesized or original task name
    to the position, in the host's input mapping, of the record object it
    holds. *)
Definition view := list (string * nat).

(** ["_".join(map(str, [tname.split("_|-")[0], info["__id__"],
    info["__sls__"], info["result"]]))] *)
Definition id_key (tname : string) (info : value) : res string :=
  let comps := Str.split "_|-" tname in
  do c0 <- Py.nth_str comps 0;
  do i <- Py.item info "__id__";
  do s <- Py.item info "__sls__";
  do r <- Py.item info "result";
  Ok (Str.join "_" [c0; str i; str s; str r]).

Fixpoint id_keys (d : dict) : res (list string) :=
  match d with
  | [] => Ok []
  | (tname, info) :: d' =>
      do k <- id_key tname info;
      do ks <- id_keys d';
      Ok (k :: ks)
  end.

(** [id_count[_id]] *)
Definition count (ks : list string) (k : string) : Z :=
  Z.of_nat (length (filter (fun k' => k' = k) ks)).

(** The key under which the members of a group are stored. *)
Definition compressed_name (tname : string) (info : value) (n : Z)
  : res string :=
  let comps := Str.split "_|-" tname in
  do s <- Py.item info "__sls__";
  do i <- Py.item info "__id__";
  do r <- Py.item info "result";
  do comps <- Py.set_nth_str comps 2
                (Str.join "_" ["state_compressed"; str s; str i; str r]);
  do i' <- Py.item info "__id__";
  do comps <- Py.set_nth_str comps 1 (str i' +:+ " (" +:+ Str.of_Z n +:+ ")");
  Ok (Str.join "_|-" comps).

(** A key of a new mapping: strings are covered, the other hashable values
    are not, the rest cannot be keys. *)
Definition as_key (v : value) : res string :=
  match v with
  | VStr s => Ok s
  | VList _ | VDict _ => Raise TypeError
  | _ => Uncovered
  end.

(** The update of the stored record [acc] with a later member [info] of its
    group, one assignment after the other: each returns the record it has
    reached and how the next one went. *)
Definition merge_run_num (info acc : dict) : res dict :=
  do a <- of_option KeyError (Py.dget "__run_num__" info);
  do b <- of_option KeyError (Py.dget "__run_num__" acc);
  do m <- Py.min2 a b;
  Ok (Py.dset "__run_num__" m acc).

Definition merge_duration (info acc : dict) : res dict :=
  do a <- of_option KeyError (Py.dget "duration" info);
  do b <- of_option KeyError (Py.dget "duration" acc);
  do s <- Py.sum2 a b;
  do r <- Py.round3 s;
  Ok (Py.dset "duration" r acc).

Definition merge_start_time (info acc : dict) : res dict :=
  do a <- of_option KeyError (Py.dget "start_time" info);
  do b <- of_option KeyError (Py.dget "start_time" acc);
  do m <- Py.first_sorted2 a b;
  Ok (Py.dset "start_time" m acc).

(** The first assignment inside the changes branch, which the exception of
    the second one does not undo. *)
Definition wrap_changes (acc : dict) : res dict :=
  do ch <- of_option KeyError (Py.dget "changes" acc);
  do cc <- Py.get ch "compressed changes" VNone;
  if Py.truthy cc then Ok acc
  else
    do n <- of_option KeyError (Py.dget "name" acc);
    do n <- as_key n;
    Ok (Py.dset "changes" (VDict [("compressed changes", VDict [(n, ch)])]) acc).

Definition add_changes (info acc : dict) : res dict :=
  do ch <- of_option KeyError (Py.dget "changes" acc);
  do cc <- Py.item ch "compressed changes";
  match ch, cc with
  | VDict chd, VDict ccd =>
      do n <- of_option KeyError (Py.dget "name" info);
      do n <- as_key n;
      do ich <- of_option KeyError (Py.dget "changes" info);
      Ok (Py.dset "changes"
            (VDict (Py.dset "compressed changes" (VDict (Py.dset n ich ccd)) chd))
            acc)
  | _, _ => Raise AttributeError
  end.

Definition replace_changes (info acc : dict) : res dict :=
  do n <- of_option KeyError (Py.dget "name" info);
  do n <- as_key n;
  do ich <- of_option KeyError (Py.dget "changes" info);
  Ok (Py.dset "changes" (VDict [("compressed changes", VDict [(n, ich)])]) acc).

(** A sequence of assignments to one object: the object as the last
    assignment that succeeded left it, and the outcome. *)
Fixpoint assign_all (steps : list (dict -> res dict)) (acc : dict)
  : dict * res unit :=
  match steps with
  | [] => (acc, Ok tt)
  | f :: steps' =>
      match f acc with
      | Ok acc' => assign_all steps' acc'
      | Raise e => (acc, Raise e)
      | OutOfFuel => (acc, OutOfFuel)
      | Uncovered => (acc, Uncovered)
      end
  end.

Definition merge (info acc : dict) : dict * res unit :=
  let changes_steps :=
    if Py.truthy (default VNone (Py.dget "changes" acc))
       && Py.truthy (default VNone (Py.dget "changes" info))
    then [wrap_changes; add_changes info]
    else if Py.truthy (default VNone (Py.dget "changes" info))
    then [replace_changes info]
    else [] in
  assign_all
    ([merge_run_num info; merge_duration info; merge_start_time info]
       ++ changes_steps)
    acc.

(** One turn of the inner loop, for the entry at position [i] of the host
    mapping [heap]; [ks] are the keys counted before the loop.  The heap is
    returned as the turn left it, also when it raised. *)
Definition step (ks : list string) (i : nat) (st : view * dict)
  : (view * dict) * res unit :=
  let '(v, heap) := st in
  match heap !! i with
  | None => (st, Raise IndexError)
  | Some (tname, info) =>
      match id_key tname info with
      | Ok _id =>
          if count ks _id =? 1 then ((Py.dset tname i v, heap), Ok tt)
          else
            match compressed_name tname info (count ks _id) with
            | Ok tname' =>
                match Py.dget tname' v with
                | None => ((Py.dset tname' i v, heap), Ok tt)
                | Some j =>
                    match info, heap !! j with
                    | VDict info, Some (tj, VDict acc) =>
                        let '(acc', r) := merge info acc in
                        ((v, <[j := (tj, VDict acc')]> heap), r)
                    | _, _ => (st, Raise TypeError)
                    end
                end
            | Raise e => (st, Raise e)
            | OutOfFuel => (st, OutOfFuel)
            | Uncovered => (st, Uncovered)
            end
      | Raise e => (st, Raise e)
      | OutOfFuel => (st, OutOfFuel)
      | Uncovered => (st, Uncovered)
      end
  end.

Fixpoint steps (ks : list string) (idx : list nat) (st : view * dict)
  : (view * dict) * res unit :=
  match idx with
  | [] => (st, Ok tt)
  | i :: idx' =>
      match step ks i st with
      | (st', Ok _) => steps ks idx' st'
      | other => other
      end
  end.

(** The body of the outer loop for one host. *)
Definition compress_host (hostdata : dict) : (view * dict) * res unit :=
  match id_keys hostdata with
  | Ok ks => steps ks (seq 0 (length hostdata)) ([], hostdata)
  | Raise e => (([], hostdata), Raise e)
  | OutOfFuel => (([], hostdata), OutOfFuel)
  | Uncovered => (([], hostdata), Uncovered)
  end.

Fixpoint compress_hosts (data : dict) : (list (string * view) * dict) * res unit :=
  match data with
  | [] => (([], []), Ok tt)
  | (host, VDict hostdata) :: data' =>
      match compress_host hostdata with
      | ((v, heap), Ok _) =>
          let '((c, rest), r) := compress_hosts data' in
          (((host, v) :: c, (host, VDict heap) :: rest), r)
      | ((v, heap), r) => (([], (host, VDict heap) :: data'), r)
      end
  | _ :: _ => (([], data), Raise AttributeError)
  end.

(** What [_compress_ids] hands back. *)
Inductive compressed : Type :=
| Views (c : list (string * view))   (* the new mapping [compressed] *)
| Original.                          (* [data] itself: not a mapping, or an exception *)

(** [_compress_ids(data)] on a mapping: what it returns, and the input as the
    call leaves it. *)
Definition compress_ids (data : dict) : res (compressed * dict) :=
  match compress_hosts data with
  | ((c, data'), Ok _) => Ok (Views c, data')
  | ((_, data'), Raise _) => Ok (Original, data')
  | (_, OutOfFuel) => OutOfFuel
  | (_, Uncovered) => Uncovered
  end.

(** The name under which the loop stores an entry: its own, or the
    compressed name of its group. *)
Definition stored_name (ks : list string) (e : string * value) : res string :=
  do _id <- id_key e.1 e.2;
  if count ks _id =? 1 then Ok e.1
  else compressed_name e.1 e.2 (count ks _id).

(** The entries of a host that the loop stores under the name [name], in
    the order of the mapping *)
Definition stored_under (ks : list string) (name : string) (d : dict) : dict :=
  List.filter (fun e => match stored_name ks e with
                        | Ok n => String.eqb n name
                        | _ => false
                        end) d.

(** What holds of the loop over the host [d] when its first [m] entries
    are done: the entries that follow are as they were; every name of the
    compressed mapping holds an entry that is stored under it; and the
    record held under [name] carries the aggregate of the entries stored
    under [name] so far, which are assumed to have the three figures. *)
Definition loop_inv (d : dict) (ks : list string) (name : string) (m : nat)
    (st : view * dict) : Prop :=
  length st.2 = length d
  /\ (forall i, (m <= i)%nat -> st.2 !! i = d !! i)
  /\ (forall n j, Py.dget n st.1 = Some j ->
                  (j < m)%nat
                  /\ exists e, d !! j = Some e /\ stored_name ks e = Ok n)
  /\ match stored_under ks name (take m d) with
     | [] => Py.dget name st.1 = None
     | f :: r =>
         exists j acc tf ts,
           Py.dget name st.1 = Some j /\ d !! j = Some f
           /\ st.2 !! j = Some (f.1, VDict acc)
           /\ timing f.2 = Some tf
           /\ Forall2 (fun e t => timing e.2 = Some t) r ts
           /\ timing (VDict acc) = Some (aggregate tf ts)
     end.

End WithRepr.

End Compress.

(** ** [_format_terse], [_format_changes] and [_format_host] *)

Module Render.

(** Keys of [rcounts]: Python's mapping identifies the numbers that are
    equal, so [True], [1] and [1.0] are one key. *)
Inductive ckey : Type :=
| KNone
| KNum (n : Z) (d : positive)
| KStr (s : string).

#[global] Instance ckey_eq_dec : EqDecision ckey.
Proof. solve_decision. Defined.

Definition knum (q : Q) : ckey :=
  let r := Qred q in KNum (Qnum r) (Qden r).

Definition ckey_of (v : value) : res ckey :=
  match v with
  | VNone => Ok KNone
  | VStr s => Ok (KStr s)
  | VList _ | VDict _ => Raise TypeError
  | _ => Ok (default KNone (option_map knum (Py.num v)))
  end.

Definition KTrue : ckey := KNum 1 1.
Definition KFalse : ckey := KNum 0 1.
Definition KWarnings : ckey := KStr "warnings".

Definition counts := list (ckey * Z).

Fixpoint count_get (k : ckey) (rc : counts) : option Z :=
  match rc with
  | [] => None
  | (k', n) :: rc' => if decide (k = k') then Some n else count_get k rc'
  end.

(** [rcounts.get(k, 0)] *)
Definition count_of (k : ckey) (rc : counts) : Z := default 0 (count_get k rc).

(** [rcounts.setdefault(k, 0); rcounts[k] += n] *)
Fixpoint count_add (k : ckey) (n : Z) (rc : counts) : counts :=
  match rc with
  | [] => [(k, 0 + n)]
  | (k', m) :: rc' =>
      if decide (k = k') then (k', m + n) :: rc' else (k', m) :: count_add k n rc'
  end.

(** [sum(rcounts.values())] *)
Definition count_sum (rc : counts) : Z := foldr (fun kn acc => kn.2 + acc) 0 rc.

Definition Qsum (l : list Q) : Q := foldl Qplus 0%Q l.

(** [max(l)] of a list that is not empty *)
Definition Qmax_list (x : Q) (l : list Q) : Q :=
  foldl (fun m y => if Py.Qltb m y then y else m) x l.

Definition Zmax_list (l : list Z) : Z := foldl Z.max 0 l.

Record hstate : Type := {
  rcounts : counts;
  rdurations : list Q;
  pdurations : list Q;
  hcolor : string;
  hstrs : list string;
  nchanges : Z;
  heap : dict
}.

Definition set_rcounts f (st : hstate) : hstate :=
  {| rcounts := f (rcounts st); rdurations := rdurations st;
     pdurations := pdurations st; hcolor := hcolor st; hstrs := hstrs st;
     nchanges := nchanges st; heap := heap st |}.
Definition add_rduration q (st : hstate) : hstate :=
  {| rcounts := rcounts st; rdurations := rdurations st ++ [q];
     pdurations := pdurations st; hcolor := hcolor st; hstrs := hstrs st;
     nchanges := nchanges st; heap := heap st |}.
Definition add_pduration q (st : hstate) : hstate :=
  {| rcounts := rcounts st; rdurations := rdurations st;
     pdurations := pdurations st ++ [q]; hcolor := hcolor st; hstrs := hstrs st;
     nchanges := nchanges st; heap := heap st |}.
Definition set_hcolor c (st : hstate) : hstate :=
  {| rcounts := rcounts st; rdurations := rdurations st;
     pdurations := pdurations st; hcolor := c; hstrs := hstrs st;
     nchanges := nchanges st; heap := heap st |}.
Definition add_hstrs l (st : hstate) : hstate :=
  {| rcounts := rcounts st; rdurations := rdurations st;
     pdurations := pdurations st; hcolor := hcolor st; hstrs := hstrs st ++ l;
     nchanges := nchanges st; heap := heap st |}.
Definition add_nchanges n (st : hstate) : hstate :=
  {| rcounts := rcounts st; rdurations := rdurations st;
     pdurations := pdurations st; hcolor := hcolor st; hstrs := hstrs st;
     nchanges := nchanges st + n; heap := heap st |}.
Definition set_heap h (st : hstate) : hstate :=
  {| rcounts := rcounts st; rdurations := rdurations st;
     pdurations := pdurations st; hcolor := hcolor st; hstrs := hstrs st;
     nchanges := nchanges st; heap := h |}.

(** What the body of the task loop does with a record. *)
Inductive action : Type := Skip | Terse | Full.

Section WithEnv.
Variable E : externals.
Variable opts : options.

Let str := Py.str (repr E).
Let col := colors E.

(** ["{0}{1}{2[ENDC]}".format(color, text, colors)] *)
Definition colorfmt (color text : string) : string :=
  color +:+ text +:+ col "ENDC".

(** Text that is pasted into a format string before [format] is applied
    to it: without braces it stands for itself, with braces it is read as
    fields, which is not covered. *)
Definition literal (s : string) : res string :=
  if Str.contains s "{" || Str.contains s "}" then Uncovered else Ok s.

(** [_format_terse(tcolor, comps, ret, colors, tabular)] *)
Definition outcome_word (ret : dict) : res string :=
  do ch <- of_option KeyError (Py.dget "changes" ret);
  do r <- of_option KeyError (Py.dget "result" ret);
  Ok (match r with
      | VBool false => "Failed"
      | VNone => "Differs"
      | _ => if Py.truthy ch then "Changed" else "Clean"
      end).

Definition terse_warnings (ret : dict) (tail : string) : res string :=
  match Py.dget "warnings" ret with
  | Some w =>
      do c1 <- literal (col "LIGHT_RED");
      do w <- Py.join_lines w;
      do w <- literal w;
      do c2 <- literal (col "ENDC");
      Ok (c1 +:+ "Warnings:" +:+ Str.nl +:+ w +:+ c2 +:+ tail)
  | None => Ok ""
  end.

Definition profiled (ret : dict) : bool :=
  state_output_profile opts && Py.dhas "start_time" ret.

Definition format_terse (tcolor : string) (comps : list string) (ret : dict)
  : res string :=
  do result <- outcome_word ret;
  match state_tabular opts with
  | VBool true =>
      do warn <- terse_warnings ret Str.nl;
      do c2 <- Py.nth_str comps 2;
      do c0 <- Py.nth_str comps 0;
      do cl <- of_option IndexError (last comps);
      do prof <-
        (if profiled ret then
           do st <- of_option KeyError (Py.dget "start_time" ret);
           do du <- of_option KeyError (Py.dget "duration" ret);
           Ok (str st +:+ " [" +:+ Str.rjust 7 (str du) +:+ " ms] ")
         else Ok "");
      Ok (warn +:+ tcolor +:+ prof +:+ Str.rjust 10 c0 +:+ "." +:+ Str.ljust 10 cl
          +:+ " " +:+ Str.ljust 7 result +:+ "   Name: " +:+ c2 +:+ col "ENDC")
  | VStr template =>
      do c2 <- Py.nth_str comps 2;
      do c0 <- Py.nth_str comps 0;
      do cl <- of_option IndexError (last comps);
      format_template E template
        [VStr tcolor; VStr c2; VStr c0; VStr cl; VStr result; VStr (col "ENDC");
         VDict ret]
  | _ =>
      do warn <- terse_warnings ret "";
      do c2 <- Py.nth_str comps 2;
      do c0 <- Py.nth_str comps 0;
      do cl <- of_option IndexError (last comps);
      do prof <-
        (if profiled ret then
           do st <- of_option KeyError (Py.dget "start_time" ret);
           do du <- of_option KeyError (Py.dget "duration" ret);
           Ok (" Started: - " +:+ str st +:+ " Duration: " +:+ str du +:+ " ms")
         else Ok "");
      Ok (warn +:+ " " +:+ tcolor +:+ " Name: " +:+ c2 +:+ " - Function: " +:+ c0
          +:+ "." +:+ cl +:+ " - Result: " +:+ result +:+ prof +:+ col "ENDC")
  end.

(** The calls back into [output] and [_format_host] for an embedded
    report: the text, and the argument as the call leaves it. *)
Variable rec_output : Z -> value -> res (value * value).
Variable rec_format_host : string -> value -> res (string * bool * value).

(** [_nested_changes(changes)] *)
Definition nested_changes (changes : value) : string :=
  Str.nl +:+ nested_out E changes.

Fixpoint format_embedded (hosts : dict) : res (bool * string * dict) :=
  match hosts with
  | [] => Ok (false, "", [])
  | (host, hostdata) :: hosts' =>
      do '(s, c, hostdata') <- rec_format_host host hostdata;
      do '(changed, ctext, rest) <- format_embedded hosts';
      Ok (c || changed,
          Str.nl
            +:+ Str.join Str.nl (map (fun l => Str.repeat " " 14 +:+ l) (Str.splitlines s))
            +:+ ctext,
          (host, hostdata') :: rest)
  end.

(** [_format_changes(changes)], with the payload as the call leaves it *)
Definition format_changes (changes : value) : res (bool * string * value) :=
  if negb (Py.truthy changes) then Ok (false, "", changes)
  else
    match changes with
    | VDict d =>
        let ret := default VNone (Py.dget "ret" d) in
        let out := default VNone (Py.dget "out" d) in
        match ret with
        | VNone => Ok (true, nested_changes changes, changes)
        | _ =>
            if Py.eq_str out "highstate" then
              match ret with
              | VDict hosts =>
                  do '(changed, ctext, hosts') <- format_embedded hosts;
                  Ok (changed, ctext, VDict (Py.dset "ret" (VDict hosts') d))
              | _ => Raise AttributeError
              end
            else Ok (true, nested_changes changes, changes)
        end
    | _ => Ok (true, "Invalid Changes data: " +:+ str changes, changes)
    end.

(** [re.sub("^", prefix, text, flags=re.MULTILINE)] *)
Definition indent_lines (prefix text : string) : string :=
  prefix +:+ Str.replace Str.nl (Str.nl +:+ prefix) text.

(** The member count of a record, from the name that compression gave it *)
Definition compressed_count (tname : string) : res Z :=
  if state_compress_ids opts && Str.contains tname "_|-state_compressed_" then
    match Str.split "_|-" tname with
    | [_; _id; _; _] => Ok (default 1 (Str.count_suffix _id))
    | _ => Raise ValueError
    end
  else Ok 1.

(** [float(d)], and a second attempt on the text before [" ms"] *)
Fixpoint before (sep s : string) (fuel : nat) : string :=
  match fuel, s with
  | S fuel', String c s' =>
      if String.prefix sep s then "" else String c (before sep s' fuel')
  | _, _ => ""
  end.

Definition duration_of (d : value) : res (option Q) :=
  match d with
  | VStr s =>
      match parse_float E s with
      | Some q => Ok (Some q)
      | None => Ok (parse_float E (before " ms" s (String.length s)))
      end
  | _ => of_option TypeError (option_map Some (Py.num d))
  end.

Definition is_orch (ret : dict) : bool :=
  let name := default VNone (Py.dget "name" ret) in
  Py.eq_str name "state.orch" || Py.eq_str name "state.orchestrate"
  || Py.eq_str name "state.sls".

(** The changes of a record: whether it changed, the text, what is added
    to [nchanges], and the record as the nested calls leave it. *)
Definition changes_of (indent_level : Z) (count : Z) (ret : dict)
  : res (bool * string * Z * dict) :=
  do ch <- of_option KeyError (Py.dget "changes" ret);
  if is_orch ret then
    do '(nested, ch') <- rec_output (indent_level + 1) ch;
    match nested with
    | VStr nested =>
        Ok (true,
            indent_lines (Str.repeat " " (Z.to_nat (14 * indent_level)))
                         (Str.nl +:+ nested),
            1, Py.dset "changes" ch' ret)
    | _ => Raise TypeError
    end
  else
    do '(schanged, ctext, ch') <- format_changes ch;
    do n <-
      (if schanged && (1 <? count) then
         do cc <- Py.get ch' "compressed changes" (VDict []);
         do l <- Py.len cc;
         Ok (if l =? 0 then 1 else l)
       else Ok (if schanged then 1 else 0));
    Ok (schanged, ctext, n, Py.dset "changes" ch' ret).

(** The two skips that precede the dispatch on the mode *)
Definition skipped (result : value) (schanged : bool) : bool :=
  (state_output_diff opts && Py.truthy result && negb schanged)
  || (negb (state_verbose opts) && Py.truthy result && negb schanged).

(** The keyword arguments of the command line: the last item of [arg] that
    is a mapping with a [__kwarg__] key *)
Definition clikwargs : dict :=
  foldl (fun acc item =>
           match item with
           | VDict d => if Py.dhas "__kwarg__" d then d else acc
           | _ => acc
           end) [] (arg opts).

Definition split_commas (v : value) : value :=
  match v with
  | VStr s => VList (map VStr (Str.split "," s))
  | _ => v
  end.

Definition exclude_set : value :=
  split_commas (default (state_output_exclude opts) (Py.dget "exclude" clikwargs)).
Definition terse_set : value :=
  split_commas (default (state_output_terse opts) (Py.dget "terse" clikwargs)).

(** The dispatch on the mode, for a record that was not skipped before *)
Definition dispatch (result : value) (schanged : bool) : res action :=
  let state_out := Str.lower (state_output opts) in
  if Str.startswith state_out "filter" then
    do t <- Py.str_in (str result) terse_set;
    if t then Ok Terse
    else
      do x <- Py.str_in (str result) exclude_set;
      Ok (if x then Skip else Full)
  else if Str.startswith state_out "terse"
          || (Str.startswith state_out "mixed"
              && negb (Py.is_false result))
          || (Str.startswith state_out "changes" && Py.truthy result
              && negb schanged)
  then Ok Terse
  else Ok Full.

Definition decide_action (result : value) (schanged : bool) : res action :=
  if skipped result schanged then Ok Skip else dispatch result schanged.

(** [tcolor] and the new [hcolor] *)
Definition task_colors (result : value) (schanged : bool) (hcolor : string)
  : string * string :=
  let tcolor := if schanged then col "CYAN" else col "GREEN" in
  match result with
  | VBool false => (col "RED", col "RED")
  | VNone => (col "LIGHT_YELLOW", col "LIGHT_YELLOW")
  | _ => (tcolor, hcolor)
  end.

(** [comps], with the ID in the place of the name for the [_id] modes *)
Definition comps_of (tname : string) : res (list string) :=
  let comps := Str.split "_|-" tname in
  if Str.endswith (Str.lower (state_output opts)) "_id" then
    do c1 <- Py.nth_str comps 1;
    Py.set_nth_str comps 2 c1
  else Ok comps.

(** The comment of a full block: the assignment to [ret["comment"]], then
    the text *)
Definition comment_text (comment : string) : string :=
  match decode E (VStr comment) with
  | VStr c =>
      Str.replace Str.nl (Str.nl +:+ Str.repeat " " 14) (Str.strip c)
  | _ =>
      (* AttributeError: [ret["comment"].join(" ")] is [" "] *)
      Str.replace Str.nl (Str.nl +:+ Str.repeat " " 13) " "
  end.

Definition append_data (comment : string) (ret : dict) : string :=
  match Py.dget "data" ret with
  | Some (VList items) =>
      foldl (fun c item => c +:+ " " +:+ str item) comment items
  | Some (VDict kvs) =>
      foldl (fun c kv => c +:+ Str.nl +:+ String (Ascii.ascii_of_nat 9)
                           (String (Ascii.ascii_of_nat 9) "")
                           +:+ kv.1 +:+ ": " +:+ str kv.2)
            comment kvs
  | Some other => comment +:+ " " +:+ str other
  | None => comment
  end.

Definition setdefault (k : string) (v : value) (d : dict) : dict :=
  if Py.dhas k d then d else Py.dset k v d.

(** The record as the full block leaves it *)
Definition full_updates (ret : dict) : res dict :=
  do c <- of_option KeyError (Py.dget "comment" ret);
  let ret := if Py.is_str c then ret else Py.dset "comment" (VStr (str c)) ret in
  let ret := setdefault "start_time" (VStr "") ret in
  let ret := setdefault "duration" (VStr "") ret in
  do d <- of_option KeyError (Py.dget "duration" ret);
  Ok (if Py.eq_str d "" then ret
      else Py.dset "duration" (VStr (str d +:+ " ms")) ret).

(** The lines of a full block, without the warnings; [ret0] is the record
    before [full_updates] and [ret] the record after *)
Definition full_lines (tcolor : string) (comps : list string)
    (ret0 ret : dict) (ctext : string) : res (list string) :=
  let endc := col "ENDC" in
  let with_profile := profiled ret0 in
  do c1 <- Py.nth_str comps 1;
  do c2 <- Py.nth_str comps 2;
  do c <- of_option KeyError (Py.dget "comment" ret);
  let comment :=
    match c with VStr c => append_data (comment_text c) ret0 | _ => "" end in
  do c0 <- Py.nth_str comps 0;
  do c3 <- Py.nth_str comps 3;
  do r <- of_option KeyError (Py.dget "result" ret);
  do prof <-
    (if with_profile then
       do st <- of_option KeyError (Py.dget "start_time" ret);
       do du <- of_option KeyError (Py.dget "duration" ret);
       Ok ["    " +:+ tcolor +:+ " Started: " +:+ str st +:+ endc;
           "    " +:+ tcolor +:+ "Duration: " +:+ str du +:+ endc]
     else Ok []);
  Ok ((([tcolor +:+ "----------" +:+ endc;
       "    " +:+ tcolor +:+ "      ID: " +:+ c1 +:+ endc;
       "    " +:+ tcolor +:+ "Function: " +:+ c0 +:+ "." +:+ c3 +:+ endc]
      ++ (if String.eqb c1 c2 then []
          else ["    " +:+ tcolor +:+ "    Name: " +:+ c2 +:+ endc]))
      ++ ["    " +:+ tcolor +:+ "  Result: " +:+ str r +:+ endc;
          "    " +:+ tcolor +:+ " Comment: "
            +:+ str (decode E (VStr comment)) +:+ endc])
      ++ prof
      ++ [tcolor +:+ "     Changes:   " +:+ ctext +:+ endc])%list.

Definition warning_lines (ret : dict) : res (list string) :=
  match Py.dget "warnings" ret with
  | Some w =>
      do w <- Py.join_lines w;
      Ok ["   " +:+ col "LIGHT_RED" +:+ " Warnings: "
            +:+ Str.lstrip (wrap_fill E w) +:+ col "ENDC"]
  | None => Ok []
  end.

(** The counters and the duration pools after the first part of the body *)
Definition tally (key : ckey) (count : Z) (dur : option Q) (ret : dict)
    (st : hstate) : hstate :=
  let st := set_rcounts (count_add key count) st in
  match dur with
  | Some q => if Py.dhas "__parallel__" ret then add_pduration q st
              else add_rduration q st
  | None => st
  end.

(** The state in which the body reaches the two skips: [ret] is the record
    it read and [ret1] the record after the nested calls *)
Definition before_skips (k : string) (i : nat) (key : ckey) (count : Z)
    (dur : option Q) (ret ret1 : dict) (n : Z) (st : hstate) : hstate :=
  let st0 := tally key count dur ret st in
  set_heap (<[i := (k, VDict ret1)]> (heap st0)) (add_nchanges n st0).

(** The last part of the body, after the dispatch *)
Definition emit (act : action) (tcolor : string) (comps : list string)
    (k : string) (i : nat) (ret : dict) (ctext : string) (st : hstate)
  : res hstate :=
  match act with
  | Skip => Ok st
  | Terse =>
      do msg <- format_terse tcolor comps ret;
      Ok (add_hstrs [msg] st)
  | Full =>
      do ret' <- full_updates ret;
      do lines <- full_lines tcolor comps ret ret' ctext;
      let st := set_heap (<[i := (k, VDict ret')]> (heap st)) st in
      let st := add_hstrs lines st in
      do wl <- warning_lines ret';
      Ok (if Py.dhas "warnings" ret'
          then add_hstrs wl (set_rcounts (count_add KWarnings 1) st)
          else st)
  end.

(** The entries that the last part of the body adds, by action: nothing,
    one terse entry, or a full block with the warnings of the record *)
Definition emitted (act : action) (tcolor : string) (comps : list string)
    (ret : dict) (ctext : string) (lines : list string) : Prop :=
  match act with
  | Skip => lines = []
  | Terse => exists msg, format_terse tcolor comps ret = Ok msg /\ lines = [msg]
  | Full =>
      exists ret' block wl,
        full_updates ret = Ok ret'
        /\ full_lines tcolor comps ret ret' ctext = Ok block
        /\ warning_lines ret' = Ok wl
        /\ lines = block ++ (if Py.dhas "warnings" ret' then wl else [])
  end.

(** The body of the task loop for the record at position [i] of the host
    mapping, shown under the name [tname] *)
Definition render_task (indent_level : Z) (tname : string) (i : nat)
    (st : hstate) : res hstate :=
  match heap st !! i with
  | Some (k, VDict ret) =>
      do result <- of_option KeyError (Py.dget "result" ret);
      do key <- ckey_of result;
      do count <- compressed_count tname;
      do dur <- duration_of (default (VInt 0) (Py.dget "duration" ret));
      let st := tally key count dur ret st in
      do '(schanged, ctext, n, ret) <- changes_of indent_level count ret;
      let st := set_heap (<[i := (k, VDict ret)]> (heap st)) (add_nchanges n st) in
      if skipped result schanged then Ok st
      else
        let colours := task_colors result schanged (hcolor st) in
        let st := set_hcolor colours.2 st in
        do comps <- comps_of tname;
        do act <- dispatch result schanged;
        emit act colours.1 comps k i ret ctext st
  | _ => Raise TypeError
  end.

(** The first loop of the mapping branch: the diagnostic of an entry goes
    to the front of [hstrs], and the entries with a [result] are kept *)
Definition diagnosed (tname : string) (info : value) : bool :=
  Py.is_dict info && negb (String.eqb tname "changes") && Py.truthy info
  && negb (Py.has_key "__run_num__" info).

Definition valid (info : value) : bool :=
  Py.is_dict info && Py.has_key "result" info.

Definition order_error : string :=
  "The State execution failed to record the order in which all states were executed. The state return missing data is:".

Definition info_at (heap : dict) (i : nat) : value :=
  match heap !! i with Some (_, info) => info | None => VNone end.

Definition validate (heap : dict) (v : Compress.view)
  : list string * Compress.view :=
  foldl (fun '(hs, tmp) '(tname, i) =>
           let info := info_at heap i in
           (if diagnosed tname info then order_error :: pformat E info :: hs
            else hs,
            if valid info then Py.dset tname i tmp else tmp))
        ([], []) v.

Definition run_num (heap : dict) (e : string * nat) : value :=
  match info_at heap e.2 with
  | VDict d => default (VInt 0) (Py.dget "__run_num__" d)
  | _ => VInt 0
  end.

Fixpoint render_tasks (indent_level : Z) (tasks : Compress.view) (st : hstate)
  : res hstate :=
  match tasks with
  | [] => Ok st
  | (tname, i) :: tasks' =>
      do st' <- render_task indent_level tname i st;
      render_tasks indent_level tasks' st'
  end.

(** The counts at the end of the output *)
Definition line_max_len (rc : counts) : Z :=
  9 + Zmax_list (map (fun kn => Z.of_nat (String.length (Str.of_Z kn.2))) rc) + 2.

Definition counts_line (rc : counts) (label count : string) : string :=
  label +:+ ": "
    +:+ Str.rjust (line_max_len rc - (Z.of_nat (String.length label) + 2)) count.

(** [round(num / den * 100, 2)], nothing on a division by zero *)
Definition percent (num den : Z) : option Q :=
  if den =? 0 then None
  else Some (Py.round_to 2 (inject_Z num / inject_Z den * 100)%Q).

Definition states_run (rc : counts) : Z := count_sum rc - count_of KWarnings rc.

Definition pct_lines (rc : counts) : list string :=
  if state_output_pct opts then
    let failed := count_of KFalse rc in
    match percent (count_of KTrue rc + count_of KNone rc) (states_run rc) with
    | Some q => [colorfmt (col "GREEN") (counts_line rc "Success %" (str (VFloat q)))]
    | None => []
    end ++
    match percent failed (states_run rc) with
    | Some q => [colorfmt (if failed =? 0 then col "CYAN" else col "RED")
                          (counts_line rc "Failure %" (str (VFloat q)))]
    | None => []
    end
  else [].

Definition profile_lines (st : hstate) : list string :=
  if state_output_profile opts then
    let total := Qsum (rdurations st) in
    let total := match pdurations st with
                 | [] => total
                 | p :: ps => (total + Qmax_list p ps)%Q
                 end in
    let '(total, unit) := if Py.Qltb 999 total then ((total / 1000)%Q, "s")
                          else (total, "ms") in
    [colorfmt (col "CYAN")
       ("Total run time: "
          +:+ Str.rjust (line_max_len (rcounts st) - 5) (fmt_3f E total)
          +:+ " " +:+ unit)]
  else [].

Definition summary_lines (host : value) (st : hstate) : list string :=
  let rc := rcounts st in
  let dashes := Str.repeat "-" (Z.to_nat (line_max_len rc)) in
  let unchanged :=
    match count_get KNone rc with
    | Some n => if 0 <? n
                then [colorfmt (col "LIGHT_YELLOW") ("unchanged=" +:+ Str.of_Z n)]
                else []
    | None => []
    end in
  let changed :=
    if 0 <? nchanges st
    then [colorfmt (col "GREEN") ("changed=" +:+ Str.of_Z (nchanges st))]
    else [] in
  let changestats :=
    match unchanged ++ changed with
    | [] => ""
    | l => " (" +:+ Str.join ", " l +:+ ")"
    end in
  let failed := count_of KFalse rc in
  [colorfmt (col "CYAN")
     (Str.nl +:+ "Summary for " +:+ str host +:+ Str.nl +:+ dashes);
   colorfmt (col "GREEN")
     (counts_line rc "Succeeded" (Str.of_Z (count_of KTrue rc + count_of KNone rc)))
     +:+ changestats;
   colorfmt (if failed =? 0 then col "CYAN" else col "RED")
     (counts_line rc "Failed" (Str.of_Z failed))]
  ++ pct_lines rc
  ++ (if count_of KWarnings rc =? 0 then []
      else [colorfmt (col "LIGHT_RED")
              (counts_line rc "Warnings" (Str.of_Z (count_of KWarnings rc)))])
  ++ [colorfmt (col "CYAN")
        (dashes +:+ Str.nl +:+ "Total states run: "
           +:+ Str.rjust (line_max_len rc - 7) (Str.of_Z (states_run rc)))]
  ++ profile_lines st.

Definition initial (diag : list string) (heap : dict) : hstate :=
  {| rcounts := []; rdurations := []; pdurations := []; hcolor := col "GREEN";
     hstrs := diag; nchanges := 0; heap := heap |}.

(** The state when the task loop of the mapping branch ends *)
Definition render_mapping (indent_level : Z) (v : Compress.view) (heap : dict)
  : res hstate :=
  let '(diag, tmp) := validate heap v in
  do tasks <- Py.sorted_by (run_num heap) tmp;
  render_tasks indent_level tasks (initial diag heap).

Definition banner (host : value) (hcolor : string) : string :=
  let host := if strip_colors opts then strip_esc E host else host in
  hcolor +:+ str host +:+ ":" +:+ col "ENDC".

(** The lines of a host whose payload is a mapping, the host line first *)
Definition mapping_lines (host : value) (st : hstate) : list string :=
  banner host (hcolor st) :: hstrs st ++ summary_lines host st.

(** [_format_host(host, data, indent_level)] on the mapping that the view
    [v] denotes over the record objects of [heap] *)
Definition format_host_view (indent_level : Z) (host : string)
    (v : Compress.view) (heap : dict) : res (string * bool * dict) :=
  let host := decode E (VStr host) in
  do st <- render_mapping indent_level v heap;
  Ok (Str.join Str.nl (mapping_lines host st), 0 <? nchanges st, Render.heap st).

(** The view of a mapping on itself *)
Definition own_view (d : dict) : Compress.view :=
  imap (fun i kv => (kv.1, i)) d.

(** [_format_host(host, data, indent_level)] *)
Definition format_host (indent_level : Z) (host : string) (data : value)
  : res (string * bool * value) :=
  let hostv := decode E (VStr host) in
  let green := col "GREEN" in
  let line l := green +:+ "    " +:+ l +:+ col "ENDC" in
  match data with
  | VDict d =>
      do '(text, c, d') <- format_host_view indent_level host (own_view d) d;
      Ok (text, c, VDict d')
  | VInt _ | VBool _ =>
      Ok (Str.join Str.nl [banner hostv (col "CYAN"); line (str data)], true, data)
  | VStr s =>
      Ok (Str.join Str.nl (banner hostv (col "CYAN") :: map line (Str.splitlines s)),
          true, data)
  | VList errs =>
      let red := col "LIGHT_RED" in
      Ok (Str.join Str.nl
            (banner hostv red
               :: ("    " +:+ red +:+ "Data failed to compile:" +:+ col "ENDC")
               :: map (fun err =>
                         let err := if strip_colors opts
                                    then strip_esc E (decode E err) else err in
                         red +:+ "----------" +:+ Str.nl +:+ "    " +:+ str err
                           +:+ col "ENDC") errs),
          false, data)
  | _ => Ok (banner hostv green, false, data)
  end.

End WithEnv.
End Render.

(** ** [output] *)

Module Output.

(** The envelopes that [output] removes before it looks at the data: the
    value that is left, and where it sits in the argument. *)
Definition strip_return (data : value) : value * list string :=
  match data with
  | VDict d => match Py.dget "return" d with
               | Some v => (v, ["return"])
               | None => (data, [])
               end
  | _ => (data, [])
  end.

Definition strip_data (data : value) : value * list string :=
  match data with
  | VDict d => match Py.dget "data" d with
               | Some v => (v, ["data"])
               | None => (data, [])
               end
  | _ => (data, [])
  end.

(** The envelope of [lookup_jid] *)
Definition strip_jid (data : value) : res (value * list string) :=
  match data with
  | VDict [(k, VDict _data)] =>
      if Py.dhas "jid" _data && Py.dhas "fun" _data then
        match default (VDict []) (Py.dget "return" _data) with
        | VDict r =>
            match Py.dget "data" r with
            | Some v => Ok (v, [k; "return"; "data"])
            | None => Ok (data, [])
            end
        | _ => Raise AttributeError
        end
      else Ok (data, [])
  | _ => Ok (data, [])
  end.

Definition normalize_path (data : value) : res (value * list string) :=
  let '(d1, p1) := strip_return data in
  let '(d2, p2) := strip_data d1 in
  do '(d3, p3) <- strip_jid d2;
  Ok (d3, p1 ++ p2 ++ p3).

(** The three steps of §4.1 that remove envelopes *)
Definition normalize (data : value) : res value :=
  do '(d, _) <- normalize_path data; Ok d.

(** The argument, with the object at [path] as the call left it *)
Fixpoint put_path (path : list string) (new : value) (root : value) : value :=
  match path with
  | [] => new
  | k :: path' =>
      match root with
      | VDict d =>
          VDict (Py.dset k (put_path path' new (default VNone (Py.dget k d))) d)
      | _ => root
      end
  end.

(** The deletion of [retcode] from the data of an orchestration *)
Definition orchestrator_output (d : dict) : bool :=
  Py.dhas "retcode" d
  && (length (filter (fun k => Str.endswith k "_master" = true) (map fst d)) =? 1)%nat.

Definition discard_retcode (d : dict) : dict :=
  if orchestrator_output d then Py.ddel "retcode" d else d.

Section WithEnv.
Variable E : externals.
Variable opts : options.
Variable rec_output : Z -> value -> res (value * value).
Variable rec_format_host : string -> value -> res (string * bool * value).

Let format_host := Render.format_host E opts rec_output rec_format_host.
Let format_host_view := Render.format_host_view E opts rec_output rec_format_host.

(** The comprehension over the hosts of the data itself *)
Fixpoint format_hosts (indent_level : Z) (data : dict) : res (list string * dict) :=
  match data with
  | [] => Ok ([], [])
  | (host, hostdata) :: data' =>
      do '(text, _, hostdata') <- format_host indent_level host hostdata;
      do '(texts, rest) <- format_hosts indent_level data';
      Ok (text :: texts, (host, hostdata') :: rest)
  end.

(** The comprehension over the hosts of the compressed mapping, whose
    records are the objects of [data] *)
Fixpoint format_views (indent_level : Z) (c : list (string * Compress.view))
    (data : dict) : res (list string * dict) :=
  match c with
  | [] => Ok ([], data)
  | (host, v) :: c' =>
      match Py.dget host data with
      | Some (VDict heap) =>
          do '(text, _, heap') <- format_host_view indent_level host v heap;
          do '(texts, data') <-
            format_views indent_level c' (Py.dset host (VDict heap') data);
          Ok (text :: texts, data')
      | _ => Raise TypeError
      end
  end.

(** [output(data, indent_level=...)]: what it returns, and its argument as
    the call leaves it *)
Definition output_body (indent_level : Z) (data0 : value)
  : res (value * value) :=
  do '(data, path) <- normalize_path data0;
  if Py.is_int data || Py.is_str data then Ok (data, data0)
  else
    match data with
    | VNone => Ok (VStr "None", data0)
    | VDict d =>
        let d := discard_retcode d in
        do '(texts, d') <-
          (if state_compress_ids opts then
             do '(c, d') <- Compress.compress_ids (repr E) d;
             match c with
             | Compress.Views c => format_views indent_level c d'
             | Compress.Original => format_hosts indent_level d'
             end
           else format_hosts indent_level d);
        Ok (VStr (Str.join Str.nl texts), put_path path (VDict d') data0)
    | _ => Raise AttributeError
    end.

End WithEnv.

(** The recursion of [output] and [_format_host] through embedded reports,
    one unit of fuel for each call *)
Fixpoint output (E : externals) (opts : options) (fuel : nat)
    (indent_level : Z) (data : value) {struct fuel} : res (value * value) :=
  match fuel with
  | 0%nat => OutOfFuel
  | S fuel' =>
      output_body E opts (output E opts fuel') (fun h d => format_host E opts fuel' 1 h d)
        indent_level data
  end
with format_host (E : externals) (opts : options) (fuel : nat)
    (indent_level : Z) (host : string) (data : value) {struct fuel}
  : res (string * bool * value) :=
  match fuel with
  | 0%nat => OutOfFuel
  | S fuel' =>
      Render.format_host E opts (output E opts fuel')
        (fun h d => format_host E opts fuel' 1 h d) indent_level host data
  end.

End Output.

(** ** Measures and predicates used in the statements *)

Fixpoint vsize (v : value) : nat :=
  match v with
  | VList l => S (list_sum (map vsize l))
  | VDict d => S (list_sum (map (fun kv => vsize kv.2) d))
  | _ => 1%nat
  end.

(** The single-entry envelope of a job lookup that the third step opens
    (or on which it raises) *)
Definition jid_envelope (v : value) : bool :=
  match v with
  | VDict [(_, VDict _data)] =>
      Py.dhas "jid" _data && Py.dhas "fun" _data
      && match default (VDict []) (Py.dget "return" _data) with
         | VDict r => Py.dhas "data" r
         | _ => true
         end
  | _ => false
  end.

Definition is_envelope (v : value) : bool :=
  Py.has_key "return" v || Py.has_key "data" v || jid_envelope v.

(** The outcome word of a terse line, in the words of §4.4: Failed if the
    result is false; else Differs if it is none; else Changed if the changes
    are not empty; else Clean. *)
Definition terse_word (result changes : value) : string :=
  if Py.is_false result then "Failed"
  else if Py.is_none result then "Differs"
  else if Py.truthy changes then "Changed"
  else "Clean".

(** What a render call keeps of its argument: a record keeps every field
    but the four that rendering may rewrite, a host mapping keeps its task
    names in their order, a report keeps its hosts in their order. *)
Definition fields_kept (f f' : dict) : Prop :=
  forall k, k <> "changes" -> k <> "comment" -> k <> "start_time" ->
            k <> "duration" -> Py.dget k f' = Py.dget k f.

Definition record_kept (r r' : value) : Prop :=
  match r with
  | VDict f => exists f', r' = VDict f' /\ fields_kept f f'
  | _ => r' = r
  end.

Definition entries_kept (d d' : dict) : Prop :=
  Forall2 (fun e e' => e.1 = e'.1 /\ record_kept e.2 e'.2) d d'.

Definition host_kept (v v' : value) : Prop :=
  match v with
  | VDict d => exists d', v' = VDict d' /\ entries_kept d d'
  | _ => v' = v
  end.

Definition report_kept (d d' : dict) : Prop :=
  Forall2 (fun h h' => h.1 = h'.1 /\ host_kept h.2 h'.2) d d'.

(** The results of §3: true, false or none *)
Definition tri_state (v : value) : bool :=
  match v with VNone | VBool _ => true | _ => false end.

Definition has_tri_state_result (info : value) : Prop :=
  match info with
  | VDict f => match Py.dget "result" f with
               | Some r => tri_state r = true
               | None => True
               end
  | _ => True
  end.

(** The sum of the counts of the three kinds of result *)
Definition kinds_sum (rc : Render.counts) : Z :=
  Render.count_of Render.KTrue rc + Render.count_of Render.KFalse rc
  + Render.count_of Render.KNone rc.

(** A record without an embedded report and without warnings: a result of
    the three kinds, empty changes, a comment, and a duration that is absent
    or a number *)
Definition plain_record (ret : dict) : Prop :=
  (exists r, Py.dget "result" ret = Some r /\ tri_state r = true)
  /\ Py.dget "changes" ret = Some (VDict [])
  /\ Render.is_orch ret = false
  /\ (exists c, Py.dget "comment" ret = Some c)
  /\ Py.dget "warnings" ret = None
  /\ match Py.dget "duration" ret with
     | None | Some (VInt _) | Some (VFloat _) => True
     | _ => False
     end.

(** ** A plain environment and sample reports *)

Module Sample.

(** No colours, and fixed marks for the texts of the printers that are not
    part of this module. *)
Definition plain : externals := {|
  colors := fun _ => "";
  pformat := fun _ => "<pformat>";
  nested_out := fun _ => "<nested>";
  decode := fun v => v;
  strip_esc := fun v => v;
  wrap_fill := fun s => s;
  repr := fun _ => "<repr>";
  parse_float := fun _ => None;
  fmt_3f := fun _ => "<float>";
  format_template := fun _ _ => Uncovered
|}.

Definition with_output (mode : string) (verbose compress : bool) : options := {|
  state_tabular := VBool false;
  strip_colors := true;
  state_compress_ids := compress;
  state_output_diff := false;
  state_verbose := verbose;
  state_output := mode;
  arg := [];
  state_output_exclude := VList [];
  state_output_terse := VList [];
  state_output_profile := false;
  state_output_pct := false
|}.

Definition with_filter (terse exclude : value) (verbose : bool) : options := {|
  state_tabular := VBool false;
  strip_colors := true;
  state_compress_ids := false;
  state_output_diff := false;
  state_verbose := verbose;
  state_output := "filter";
  arg := [];
  state_output_exclude := exclude;
  state_output_terse := terse;
  state_output_profile := false;
  state_output_pct := false
|}.

Definition with_pct : options := {|
  state_tabular := VBool false;
  strip_colors := true;
  state_compress_ids := false;
  state_output_diff := false;
  state_verbose := true;
  state_output := "full";
  arg := [];
  state_output_exclude := VList [];
  state_output_terse := VList [];
  state_output_profile := false;
  state_output_pct := true
|}.

(** The record of the scenarios of §8 *)
Definition vim_record : dict :=
  [("result", VBool true); ("changes", VDict []);
   ("comment", VStr "already installed"); ("__run_num__", VInt 0)].

Definition vim_report : value :=
  VDict [("minionA", VDict [("pkg_|-vim_|-vim_|-installed", VDict vim_record)])].

Definition vim_name : string := "pkg_|-vim_|-vim_|-installed".
Definition vim_host : dict := [(vim_name, VDict vim_record)].

(** Embedded reports are not rendered: the samples have none. *)
Definition no_output : Z -> value -> res (value * value) :=
  fun _ _ => OutOfFuel.
Definition no_format_host : string -> value -> res (string * bool * value) :=
  fun _ _ => OutOfFuel.

(** A record as the state engine returns it *)
Definition task (id sls name : string) (result : value) (run_num : Z)
    (duration : value) (start_time : string) : value :=
  VDict [("__id__", VStr id); ("__sls__", VStr sls); ("name", VStr name);
         ("result", result); ("changes", VDict []); ("comment", VStr "");
         ("__run_num__", VInt run_num); ("duration", duration);
         ("start_time", VStr start_time)].

(** Two records whose identities differ and whose joined keys are the same
    text, [cmd_a_b_c_True] *)
Definition colliding : dict :=
  [("cmd_|-a_b_|-echo 1_|-run",
    task "a_b" "c" "echo 1" (VBool true) 0 (VFloat 1) "10:00:00.000000");
   ("cmd_|-a_|-echo 2_|-run",
    task "a" "b_c" "echo 2" (VBool true) 1 (VFloat 1) "10:00:01.000000")].

(** Three names under one ID, each run taking 0.0002 ms *)
Definition three_names : dict :=
  [("cmd_|-x_|-a_|-run",
    task "x" "s" "a" (VBool true) 3 (VFloat (2 # 10000)) "10:00:03.000000");
   ("cmd_|-x_|-b_|-run",
    task "x" "s" "b" (VBool true) 1 (VFloat (2 # 10000)) "10:00:01.000000");
   ("cmd_|-x_|-c_|-run",
    task "x" "s" "c" (VBool true) 2 (VFloat (2 # 10000)) "10:00:02.000000")].

(** Three names under one ID, the last record without a duration *)
Definition missing_duration : dict :=
  [("cmd_|-x_|-a_|-run",
    task "x" "s" "a" (VBool false) 3 (VFloat 1.5) "10:00:03.000000");
   ("cmd_|-x_|-b_|-run",
    task "x" "s" "b" (VBool false) 1 (VFloat 2.25) "10:00:01.000000");
   ("cmd_|-x_|-c_|-run",
    VDict [("__id__", VStr "x"); ("__sls__", VStr "s"); ("name", VStr "c");
           ("result", VBool false); ("changes", VDict []);
           ("comment", VStr "One or more requisite failed");
           ("__run_num__", VInt 2)])].

(** The data of an orchestration: one master, and the return code *)
Definition orchestration : value :=
  VDict [("salt_master",
          VDict [("salt_|-deploy_|-deploy_|-state",
                  task "deploy" "orch" "deploy" (VBool true) 0 (VInt 12)
                       "10:00:00.000000")]);
         ("retcode", VInt 0)].

(** A record with warnings *)
Definition warned_name : string := "cmd_|-x_|-x_|-run".
Definition warned_host : dict :=
  [(warned_name,
    VDict [("result", VBool true); ("changes", VDict []); ("comment", VStr "ok");
           ("__run_num__", VInt 0); ("warnings", VList [VStr "deprecated"])])].

End Sample.

(** ** Further measures and predicates *)

(** The run number of an entry as the task loop orders by it, for a marker
    that is an integer *)
Definition run_order (heap : dict) (e : string * nat) : Z :=
  match Render.run_num heap e with VInt n => n | _ => 0 end.

(** The compressed mapping of a report whose hosts have nothing to
    compress: every task under its own name *)
Definition own_views (data : dict) : list (string * Compress.view) :=
  map (fun h => (h.1, match h.2 with
                      | VDict d => Render.own_view d
                      | _ => []
                      end)) data.

(** What a call keeps of its argument, apart from the fields [ks] that it
    may assign: a record every other field, a host mapping its task names
    in their order, a report its hosts in their order. *)
Definition fields_kept_but (ks : list string) (f f' : dict) : Prop :=
  forall k, k ∉ ks -> Py.dget k f' = Py.dget k f.

Definition record_kept_but (ks : list string) (r r' : value) : Prop :=
  match r with
  | VDict f => exists f', r' = VDict f' /\ fields_kept_but ks f f'
  | _ => r' = r
  end.

Definition entries_kept_but (ks : list string) (d d' : dict) : Prop :=
  Forall2 (fun e e' => e.1 = e'.1 /\ record_kept_but ks e.2 e'.2) d d'.

Definition host_kept_but (ks : list string) (v v' : value) : Prop :=
  match v with
  | VDict d => exists d', v' = VDict d' /\ entries_kept_but ks d d'
  | _ => v' = v
  end.

Definition report_kept_but (ks : list string) (d d' : dict) : Prop :=
  Forall2 (fun h h' => h.1 = h'.1 /\ host_kept_but ks h.2 h'.2) d d'.

(** The fields that a merge of compression assigns, the fields that a full
    block assigns, and the fields that a render call may assign in all *)
Definition merged_fields : list string :=
  ["__run_num__"; "duration"; "start_time"; "changes"].

Definition shown_fields : list string := ["comment"; "start_time"; "duration"].

Definition rewritten_fields : list string :=
  ["__run_num__"; "duration"; "start_time"; "changes"; "comment"].

(** Whether a record has changes *)
Definition has_changes (info : value) : bool :=
  match info with
  | VDict f => Py.truthy (default VNone (Py.dget "changes" f))
  | _ => false
  end.

(** A record whose changes are not an embedded report: its name is none of
    the orchestration functions, and its changes carry no [ret] that is
    marked as highstate output *)
Definition flat_record (info : value) : Prop :=
  match info with
  | VDict f =>
      Render.is_orch f = false
      /\ match Py.dget "changes" f with
         | Some (VDict c) =>
             default VNone (Py.dget "ret" c) = VNone
             \/ Py.eq_str (default VNone (Py.dget "out" c)) "highstate" = false
         | _ => True
         end
  | _ => True
  end.

(** The text of changes that are not an embedded report *)
Definition flat_ctext (E : externals) (ch : value) : string :=
  if negb (Py.truthy ch) then ""
  else match ch with
       | VDict _ => Render.nested_changes E ch
       | _ => "Invalid Changes data: " +:+ Py.str (repr E) ch
       end.

(** The result of the record at a position of a host mapping *)
Definition result_at (heap : dict) (i : nat) : option value :=
  match Render.info_at heap i with
  | VDict f => Py.dget "result" f
  | _ => None
  end.

(** The results that colour the host line: [False] and [None] *)
Definition alarming (r : value) : bool := Py.is_false r || Py.is_none r.

(** A text in which the separator of task names does not occur *)
Definition sep_free (s : string) : Prop := Str.contains s "_|-" = false.

Fixpoint all_digits (s : string) : bool :=
  match s with
  | EmptyString => true
  | String c s' => Str.is_digit c && all_digits s'
  end.

(** The options with [state_compress_ids] set to [b] *)
Definition with_compression (b : bool) (opts : options) : options := {|
  state_tabular := state_tabular opts;
  strip_colors := strip_colors opts;
  state_compress_ids := b;
  state_output_diff := state_output_diff opts;
  state_verbose := state_verbose opts;
  state_output := state_output opts;
  arg := arg opts;
  state_output_exclude := state_output_exclude opts;
  state_output_terse := state_output_terse opts;
  state_output_profile := state_output_profile opts;
  state_output_pct := state_output_pct opts
|}.

(** A host that compression leaves as it is: a mapping of records without
    embedded reports, no two of them with the same key, and no task name
    that looks like a compressed one *)
Definition nothing_to_merge (repr : value -> string) (hostdata : value) : Prop :=
  exists d ks,
    hostdata = VDict d /\ NoDup (map fst d)
    /\ Compress.id_keys repr d = Ok ks /\ NoDup ks
    /\ Forall (fun kv => flat_record kv.2
                         /\ Str.contains kv.1 "_|-state_compressed_" = false) d.

(** ** More sample data *)

Module Fixture.

(** Colour codes that can be told apart *)
Definition tagged : externals := {|
  colors := fun name => "<" +:+ name +:+ ">";
  pformat := fun _ => "<pformat>";
  nested_out := fun _ => "<nested>";
  decode := fun v => v;
  strip_esc := fun v => v;
  wrap_fill := fun s => s;
  repr := fun _ => "<repr>";
  parse_float := fun _ => None;
  fmt_3f := fun _ => "<float>";
  format_template := fun _ _ => Uncovered
|}.

(** The terse layout in columns *)
Definition tabular : options := {|
  state_tabular := VBool true;
  strip_colors := true;
  state_compress_ids := false;
  state_output_diff := false;
  state_verbose := true;
  state_output := "terse";
  arg := [];
  state_output_exclude := VList [];
  state_output_terse := VList [];
  state_output_profile := false;
  state_output_pct := false
|}.

(** Two records with different IDs, the second one run first *)
Definition two_ids : dict :=
  [("cmd_|-a_|-echo 1_|-run",
    Sample.task "a" "s" "echo 1" (VBool true) 1 (VFloat 1) "10:00:01.000000");
   ("cmd_|-b_|-echo 2_|-run",
    Sample.task "b" "s" "echo 2" (VBool true) 0 (VFloat 1) "10:00:00.000000")].

(** A record that failed, and after it one that was not run *)
Definition failed_then_not_run : dict :=
  [("cmd_|-a_|-a_|-run",
    Sample.task "a" "s" "a" (VBool false) 0 (VFloat 1) "10:00:00.000000");
   ("cmd_|-b_|-b_|-run",
    Sample.task "b" "s" "b" VNone 1 (VFloat 1) "10:00:01.000000")].

(** A record with changes, and one without *)
Definition one_changed : dict :=
  [("file_|-motd_|-/etc/motd_|-managed",
    VDict [("result", VBool true); ("changes", VDict [("diff", VStr "+hello")]);
           ("comment", VStr "File /etc/motd updated"); ("__run_num__", VInt 0);
           ("duration", VFloat 12)]);
   (Sample.vim_name, VDict Sample.vim_record)].

(** A record of the ID [x] of the file [s], with the given changes *)
Definition changed_task (name : string) (changes : value) (run_num : Z) : value :=
  VDict [("__id__", VStr "x"); ("__sls__", VStr "s"); ("name", VStr name);
         ("result", VBool true); ("changes", changes); ("comment", VStr "");
         ("__run_num__", VInt run_num); ("duration", VFloat 1);
         ("start_time", VStr "10:00:00.000000")].

(** Three names under one ID: the first and the third have changes *)
Definition changed_group : dict :=
  [("cmd_|-x_|-a_|-run", changed_task "a" (VDict [("pid", VInt 1)]) 0);
   ("cmd_|-x_|-b_|-run", changed_task "b" (VDict []) 1);
   ("cmd_|-x_|-c_|-run", changed_task "c" (VDict [("pid", VInt 3)]) 2)].

(** The record of an orchestration step, and a report that is rendered as
    a fixed text *)
Definition orch_host : dict :=
  [("salt_|-deploy_|-state.orch_|-runner",
    VDict [("name", VStr "state.orch"); ("result", VBool true);
           ("changes", VDict [("web", VInt 0)]); ("comment", VStr "");
           ("__run_num__", VInt 0)])].

Definition fixed_output : Z -> value -> res (value * value) :=
  fun _ v => Ok (VStr "<report>", v).

(** Changes that embed the report of two hosts, one of which returned a
    text *)
Definition embedded : dict :=
  [("ret", VDict [("web1", VStr "restarted"); ("web2", VNone)]);
   ("out", VStr "highstate")].

(** The record of a group of three, as compression leaves it when the
    first and the third member have changes *)
Definition keyed_record : dict :=
  [("__id__", VStr "x"); ("__sls__", VStr "s"); ("name", VStr "a");
   ("result", VBool true);
   ("changes",
    VDict [("compressed changes",
            VDict [("a", VDict [("pid", VInt 1)]);
                   ("c", VDict [("pid", VInt 3)])])]);
   ("comment", VStr ""); ("__run_num__", VInt 0); ("duration", VFloat 3);
   ("start_time", VStr "10:00:00.000000")].

Definition keyed_host : dict := [("cmd_|-x_|-a_|-run", VDict keyed_record)].

End Fixture.

(** ** The changes of a group *)

(** What the loop of compression keeps for the name [name] while it runs
    over the host [d], when its first [m] entries are done: the entries
    that follow are as they were; every name of the compressed mapping
    holds an entry that is stored under it; and the record held under
    [name] is related by [P] to the entries stored under [name] so far. *)
Definition group_inv (repr : value -> string) (P : dict -> value -> Prop)
    (d : dict) (ks : list string) (name : string) (m : nat)
    (st : Compress.view * dict) : Prop :=
  length st.2 = length d
  /\ (forall i, (m <= i)%nat -> st.2 !! i = d !! i)
  /\ (forall n j, Py.dget n st.1 = Some j ->
                  (j < m)%nat
                  /\ exists e, d !! j = Some e
                               /\ Compress.stored_name repr ks e = Ok n)
  /\ match Compress.stored_under repr ks name (take m d) with
     | [] => Py.dget name st.1 = None
     | f :: r =>
         exists j acc,
           Py.dget name st.1 = Some j /\ d !! j = Some f
           /\ st.2 !! j = Some (f.1, acc) /\ P (f :: r) acc
     end.

(** [info.get("changes")], and [info["name"]] when it is a string *)
Definition changes_field (info : value) : value :=
  match info with
  | VDict f => default VNone (Py.dget "changes" f)
  | _ => VNone
  end.

Definition str_name (info : value) : option string :=
  match info with
  | VDict f => match Py.dget "name" f with
               | Some (VStr s) => Some s
               | _ => None
               end
  | _ => None
  end.

(** The members of a group that have changes *)
Definition changed_members (members : dict) : dict :=
  List.filter (fun e => has_changes e.2) members.

(** The changes of the members that have some, each under the name of its
    member, a later member replacing an earlier one of the same name *)
Definition keyed_changes (members : dict) : dict :=
  foldl (fun cc e => Py.dset (default "" (str_name e.2)) (changes_field e.2) cc)
        [] (changed_members members).

(** The [changes] of the record of a group whose first member is [first]
    and whose later members are [rest] *)
Definition merged_changes (first : string * value) (rest : dict) : option value :=
  match changed_members rest with
  | [] => match first.2 with
          | VDict f => Py.dget "changes" f
          | _ => None
          end
  | _ :: _ =>
      Some (VDict [("compressed changes", VDict (keyed_changes (first :: rest)))])
  end.

(** Changes that do not hold compressed changes yet *)
Definition not_compressed_yet (info : value) : Prop :=
  forall c, changes_field info = VDict c ->
            Py.truthy (default VNone (Py.dget "compressed changes" c)) = false.

(** What the record of a group holds of its members so far *)
Definition changes_merged_of (members : dict) (acc : value) : Prop :=
  match members with
  | [] => False
  | f :: r =>
      not_compressed_yet f.2 ->
      exists fd accd,
        f.2 = VDict fd /\ acc = VDict accd
        /\ Py.dget "name" accd = Py.dget "name" fd
        /\ Py.dget "changes" accd = merged_changes f r
        /\ (changed_members r <> [] ->
            Forall (fun e => is_Some (str_name e.2)) (changed_members (f :: r)))
  end.

(** * Properties *)

(** ** The outcome monad *)

Lemma rbind_ok {A B} (m : res A) (k : A -> res B) (b : B) :
  rbind m k = Ok b -> exists a, m = Ok a /\ k a = Ok b.
Proof. destruct m; simpl; intros H; try discriminate. eauto. Qed.

Lemma of_option_ok {A} (e : exn) (o : option A) (a : A) :
  of_option e o = Ok a -> o = Some a.
Proof. destruct o; simpl; congruence. Qed.

(** ** Mappings *)

Lemma dget_size (k : string) (d : dict) (v : value) :
  Py.dget k d = Some v -> (vsize v < vsize (VDict d))%nat.
Proof.
  simpl. induction d as [|[k' v'] d IH]; simpl; [discriminate|].
  destruct (String.eqb k k').
  - intros [= ->]. lia.
  - intros H. specialize (IH H). lia.
Qed.

(** ** Envelopes (C7) *)

Lemma strip_return_size (v : value) :
  (vsize (Output.strip_return v).1 <= vsize v)%nat
  /\ (Py.has_key "return" v = true ->
      (vsize (Output.strip_return v).1 < vsize v)%nat).
Proof.
  destruct v; simpl; try (split; [lia | discriminate]).
  unfold Py.dhas. destruct (Py.dget "return" d) eqn:Hd; simpl.
  - apply dget_size in Hd. simpl in Hd. split; intros; lia.
  - split; [lia | discriminate].
Qed.

Lemma strip_data_size (v : value) :
  (vsize (Output.strip_data v).1 <= vsize v)%nat
  /\ (Py.has_key "data" v = true ->
      (vsize (Output.strip_data v).1 < vsize v)%nat).
Proof.
  destruct v; simpl; try (split; [lia | discriminate]).
  unfold Py.dhas. destruct (Py.dget "data" d) eqn:Hd; simpl.
  - apply dget_size in Hd. simpl in Hd. split; intros; lia.
  - split; [lia | discriminate].
Qed.

Lemma strip_jid_size (v w : value) (p : list string) :
  Output.strip_jid v = Ok (w, p) ->
  (vsize w <= vsize v)%nat
  /\ (jid_envelope v = true -> (vsize w < vsize v)%nat).
Proof.
  unfold Output.strip_jid, jid_envelope.
  destruct v as [| | | | | |d]; try (intros [= <- <-]; split; [lia | discriminate]).
  destruct d as [|[k x] d']; [intros [= <- <-]; split; [lia | discriminate] |].
  destruct x as [| | | | | |_data]; destruct d' as [|? ?];
    try (intros [= <- <-]; split; [lia | discriminate]).
  destruct (Py.dhas "jid" _data && Py.dhas "fun" _data);
    [| intros [= <- <-]; split; [lia | discriminate]].
  simpl. destruct (Py.dget "return" _data) as [r|] eqn:Hr; simpl.
  - destruct r as [| | | | | |r]; try discriminate.
    unfold Py.dhas. destruct (Py.dget "data" r) as [x|] eqn:Hx.
    + intros [= <- <-]. apply dget_size in Hx, Hr. simpl in *. split; intros; lia.
    + intros [= <- <-]. split; [simpl; lia | discriminate].
  - intros [= <- <-]. split; [simpl; lia | discriminate].
Qed.

Lemma normalize_plain (v : value) :
  is_envelope v = false -> Output.normalize v = Ok v.
Proof.
  unfold is_envelope. intros H.
  apply orb_false_iff in H as [H Hj]. apply orb_false_iff in H as [Hr Hd].
  unfold Output.normalize, Output.normalize_path.
  assert (Output.strip_return v = (v, [])) as ->.
  { destruct v; try reflexivity. simpl in *. unfold Py.dhas in Hr.
    destruct (Py.dget "return" d); [discriminate | reflexivity]. }
  assert (Output.strip_data v = (v, [])) as ->.
  { destruct v; try reflexivity. simpl in *. unfold Py.dhas in Hd.
    destruct (Py.dget "data" d); [discriminate | reflexivity]. }
  assert (Output.strip_jid v = Ok (v, [])) as ->; [| reflexivity].
  unfold jid_envelope in Hj. unfold Output.strip_jid.
  destruct v as [| | | | | |d]; try reflexivity.
  destruct d as [|[k x] d']; [reflexivity |].
  destruct x as [| | | | | |_data]; destruct d' as [|? ?]; try reflexivity.
  destruct (Py.dhas "jid" _data && Py.dhas "fun" _data); [| reflexivity].
  simpl in Hj.
  destruct (default (VDict []) (Py.dget "return" _data)); try discriminate.
  unfold Py.dhas in Hj. destruct (Py.dget "data" d); [discriminate | reflexivity].
Qed.

Lemma normalize_shrinks (v w : value) :
  is_envelope v = true -> Output.normalize v = Ok w -> (vsize w < vsize v)%nat.
Proof.
  unfold Output.normalize, Output.normalize_path. intros He H.
  destruct (Output.strip_return v) as [d1 p1] eqn:H1.
  destruct (Output.strip_data d1) as [d2 p2] eqn:H2.
  destruct (Output.strip_jid d2) as [[d3 p3]| | |] eqn:H3; simpl in H; try discriminate.
  injection H as <-.
  pose proof (strip_return_size v) as [L1 S1]. rewrite H1 in L1, S1. simpl in *.
  pose proof (strip_data_size d1) as [L2 S2]. rewrite H2 in L2, S2. simpl in *.
  pose proof (strip_jid_size _ _ _ H3) as [L3 S3].
  unfold is_envelope in He.
  destruct (Py.has_key "return" v) eqn:Hr.
  { specialize (S1 eq_refl). lia. }
  assert (d1 = v) as ->.
  { destruct v; simpl in H1; try congruence. simpl in Hr. unfold Py.dhas in Hr.
    destruct (Py.dget "return" d); [discriminate | congruence]. }
  destruct (Py.has_key "data" v) eqn:Hd.
  { specialize (S2 eq_refl). lia. }
  assert (d2 = v) as ->.
  { destruct v; simpl in H2; try congruence. simpl in Hd. unfold Py.dhas in Hd.
    destruct (Py.dget "data" d); [discriminate | congruence]. }
  simpl in He. specialize (S3 He). lia.
Qed.

(** The values that normalization leaves as they are. *)
Lemma normalize_fixed (v : value) :
  Output.normalize v = Ok v <-> is_envelope v = false.
Proof.
  split.
  - intros H. destruct (is_envelope v) eqn:He; [| reflexivity].
    pose proof (normalize_shrinks _ _ He H). lia.
  - apply normalize_plain.
Qed.

(** C7, as stated, fails: a report wrapped twice in [return] loses one
    wrapper with each application of the three steps, so that the second
    application still changes the value. *)
Lemma normalize_twice_differs :
  let x := VDict [("return", VDict [("return", Sample.vim_report)])] in
  Output.normalize x = Ok (VDict [("return", Sample.vim_report)])
  /\ rbind (Output.normalize x) Output.normalize = Ok Sample.vim_report
  /\ rbind (Output.normalize x) Output.normalize <> Output.normalize x.
Proof. repeat split. discriminate. Qed.

(** C7, amended: the three steps remove one layer of each kind of
    envelope, and applying them a second time changes nothing exactly when
    the value they produced is not an envelope again, that is, neither a
    mapping with a [return] or a [data] key nor the single-entry envelope of
    a job lookup. *)
Theorem normalize_idempotent_iff (x y : value) :
  Output.normalize x = Ok y ->
  (rbind (Output.normalize x) Output.normalize = Output.normalize x
   <-> is_envelope y = false).
Proof.
  intros H. rewrite H. simpl. apply normalize_fixed.
Qed.

Lemma normalize_idempotent_iff_witness :
  Output.normalize Sample.vim_report = Ok Sample.vim_report
  /\ (rbind (Output.normalize Sample.vim_report) Output.normalize
        = Output.normalize Sample.vim_report
      <-> is_envelope Sample.vim_report = false).
Proof.
  split; [reflexivity |].
  apply (normalize_idempotent_iff Sample.vim_report Sample.vim_report).
  reflexivity.
Defined.

(** ** One turn of the task loop *)

Section TaskTurn.
Context (E : externals) (opts : options).
Context (ro : Z -> value -> res (value * value)).
Context (rfh : string -> value -> res (string * bool * value)).

Lemma heap_tally key count dur ret st :
  Render.heap (Render.tally key count dur ret st) = Render.heap st.
Proof.
  unfold Render.tally. destruct dur; [destruct (Py.dhas _ _)|]; reflexivity.
Qed.

Lemma hstrs_tally key count dur ret st :
  Render.hstrs (Render.tally key count dur ret st) = Render.hstrs st.
Proof.
  unfold Render.tally. destruct dur; [destruct (Py.dhas _ _)|]; reflexivity.
Qed.

Lemma rcounts_tally key count dur ret st :
  Render.rcounts (Render.tally key count dur ret st)
  = Render.count_add key count (Render.rcounts st).
Proof.
  unfold Render.tally. destruct dur; [destruct (Py.dhas _ _)|]; reflexivity.
Qed.

Lemma render_task_inv indent tname i st st' :
  Render.render_task E opts ro rfh indent tname i st = Ok st' ->
  exists k ret result key count dur schanged ctext n ret1,
    Render.heap st !! i = Some (k, VDict ret)
    /\ Py.dget "result" ret = Some result
    /\ Render.ckey_of result = Ok key
    /\ Render.compressed_count opts tname = Ok count
    /\ Render.duration_of E (default (VInt 0) (Py.dget "duration" ret)) = Ok dur
    /\ Render.changes_of E ro rfh indent count ret = Ok (schanged, ctext, n, ret1)
    /\ let st1 := Render.before_skips k i key count dur ret ret1 n st in
       if Render.skipped opts result schanged then st' = st1
       else
         exists comps act,
           Render.comps_of opts tname = Ok comps
           /\ Render.dispatch E opts result schanged = Ok act
           /\ Render.emit E opts act
                (Render.task_colors E result schanged (Render.hcolor st1)).1
                comps k i ret1 ctext
                (Render.set_hcolor
                   (Render.task_colors E result schanged (Render.hcolor st1)).2 st1)
              = Ok st'.
Proof.
  unfold Render.render_task. intros H.
  destruct (Render.heap st !! i) as [[k [| | | | | |ret]]|] eqn:Hi; try discriminate.
  apply rbind_ok in H as (result & Hres & H). apply of_option_ok in Hres.
  apply rbind_ok in H as (key & Hkey & H).
  apply rbind_ok in H as (count & Hcount & H).
  apply rbind_ok in H as (dur & Hdur & H).
  apply rbind_ok in H as ([[[schanged ctext] n] ret1] & Hch & H).
  exists k, ret, result, key, count, dur, schanged, ctext, n, ret1.
  repeat (split; [assumption || reflexivity |]).
  cbv zeta. unfold Render.before_skips.
  destruct (Render.skipped opts result schanged).
  - congruence.
  - apply rbind_ok in H as (comps & Hcomps & H).
    apply rbind_ok in H as (act & Hact & H).
    exists comps, act. auto.
Qed.

End TaskTurn.

(** ** Terse lines (C4) *)

Section TerseLine.
Context (E : externals) (opts : options).
Context (ro : Z -> value -> res (value * value)).
Context (rfh : string -> value -> res (string * bool * value)).

Lemma outcome_word_spec ret w :
  Render.outcome_word ret = Ok w ->
  exists result changes,
    Py.dget "result" ret = Some result /\ Py.dget "changes" ret = Some changes
    /\ w = terse_word result changes.
Proof.
  unfold Render.outcome_word. intros H.
  apply rbind_ok in H as (ch & Hch & H). apply of_option_ok in Hch.
  apply rbind_ok in H as (r & Hr & H). apply of_option_ok in Hr.
  exists r, ch. repeat split; try assumption.
  injection H as <-. unfold terse_word.
  destruct r as [|[]| | | | |]; reflexivity.
Qed.

(** The layout of [_format_terse] when [state_tabular] is neither [True] nor
    a template. *)
Lemma format_terse_layout tcolor comps ret msg :
  state_tabular opts <> VBool true ->
  Py.is_str (state_tabular opts) = false ->
  Render.format_terse E opts tcolor comps ret = Ok msg ->
  exists result changes name module fn warn prof,
    Py.dget "result" ret = Some result /\ Py.dget "changes" ret = Some changes
    /\ comps !! 2%nat = Some name /\ comps !! 0%nat = Some module
    /\ last comps = Some fn
    /\ (Py.dget "warnings" ret = None -> warn = "")
    /\ (Render.profiled opts ret = false -> prof = "")
    /\ msg = warn +:+ " " +:+ tcolor +:+ " Name: " +:+ name +:+ " - Function: "
               +:+ module +:+ "." +:+ fn +:+ " - Result: "
               +:+ terse_word result changes +:+ prof +:+ colors E "ENDC".
Proof.
  intros Ht Hs. unfold Render.format_terse. intros H.
  apply rbind_ok in H as (w & Hw & H).
  apply outcome_word_spec in Hw as (result & changes & Hr & Hc & ->).
  assert (exists warn c2 c0 cl prof,
    Render.terse_warnings E ret "" = Ok warn
    /\ Py.nth_str comps 2 = Ok c2 /\ Py.nth_str comps 0 = Ok c0
    /\ of_option IndexError (last comps) = Ok cl
    /\ (Render.profiled opts ret = false -> prof = "")
    /\ msg = warn +:+ " " +:+ tcolor +:+ " Name: " +:+ c2 +:+ " - Function: "
               +:+ c0 +:+ "." +:+ cl +:+ " - Result: "
               +:+ terse_word result changes +:+ prof +:+ colors E "ENDC")
    as (warn & c2 & c0 & cl & prof & Hwarn & H2 & H0 & Hl & Hp & ->).
  { destruct (state_tabular opts) as [|[]| | | | |]; try congruence; try discriminate;
      (apply rbind_ok in H as (warn & Hwarn & H);
       apply rbind_ok in H as (c2 & H2 & H);
       apply rbind_ok in H as (c0 & H0 & H);
       apply rbind_ok in H as (cl & Hl & H);
       apply rbind_ok in H as (prof & Hp & H);
       exists warn, c2, c0, cl, prof; repeat (split; [assumption|]);
       split; [| congruence];
       intros Hf; rewrite Hf in Hp; congruence). }
  exists result, changes, c2, c0, cl, warn, prof.
  repeat split; try assumption.
  - unfold Py.nth_str in H2. now apply of_option_ok in H2.
  - unfold Py.nth_str in H0. now apply of_option_ok in H0.
  - now apply of_option_ok in Hl.
  - intros Hn. unfold Render.terse_warnings in Hwarn. rewrite Hn in Hwarn. congruence.
Qed.

Lemma terse_not_filter (s : string) :
  Str.startswith s "terse" = true -> Str.startswith s "filter" = false.
Proof.
  unfold Str.startswith. destruct s as [|a s]; [discriminate|].
  cbn [String.prefix].
  destruct (Ascii.ascii_dec "t"%char a) as [<-|]; [| discriminate].
  intros _. destruct (Ascii.ascii_dec "f"%char "t"%char); [discriminate | reflexivity].
Qed.

Lemma dispatch_terse_mode result schanged :
  Str.startswith (Str.lower (state_output opts)) "terse" = true ->
  Render.dispatch E opts result schanged = Ok Render.Terse.
Proof.
  intros H. unfold Render.dispatch.
  rewrite (terse_not_filter _ H), H. reflexivity.
Qed.

Lemma lookup_insert_same (heap : dict) (i : nat) (x y : string * value) :
  heap !! i = Some x -> <[i := y]> heap !! i = Some y.
Proof.
  intros H. apply list_lookup_insert_eq. eapply lookup_lt_Some; eauto.
Qed.


End TerseLine.



(** ** A host without valid records (C9) *)

Section NoTasks.
Context (E : externals) (opts : options).
Context (ro : Z -> value -> res (value * value)).
Context (rfh : string -> value -> res (string * bool * value)).

Lemma validate_none_valid (heap : dict) (v : Compress.view) hs tmp :
  Forall (fun e => Render.valid (Render.info_at heap e.2) = false) v ->
  (foldl (fun '(hs, tmp) '(tname, i) =>
            let info := Render.info_at heap i in
            (if Render.diagnosed tname info
             then Render.order_error :: pformat E info :: hs else hs,
             if Render.valid info then Py.dset tname i tmp else tmp))
         (hs, tmp) v).2 = tmp.
Proof.
  intros H. revert hs. induction H as [|[t i] v Hx _ IH]; intros hs; [reflexivity|].
  simpl in *. rewrite Hx. apply IH.
Qed.

Lemma own_view_info (d : dict) :
  Forall (fun kv => Render.valid kv.2 = false) d ->
  Forall (fun e => Render.valid (Render.info_at d e.2) = false) (Render.own_view d).
Proof.
  intros H. apply Forall_forall. intros [t i] Hin.
  apply elem_of_lookup_imap in Hin as (j & [k info] & [= -> ->] & Hj).
  simpl. unfold Render.info_at. rewrite Hj.
  rewrite Forall_forall in H. apply (H (k, info)).
  eapply list_elem_of_lookup_2; eauto.
Qed.

Lemma append_empty_r (s : string) : s +:+ "" = s.
Proof.
  induction s as [|c s IH]; [reflexivity|].
  change (String c (s +:+ "") = String c s). now rewrite IH.
Qed.

(** The summary of a host for which nothing was counted *)
Lemma summary_lines_empty hostv st :
  state_output_pct opts = true ->
  Render.rcounts st = [] -> Render.nchanges st = 0 ->
  Render.pct_lines E opts (Render.rcounts st) = []
  /\ Render.summary_lines E opts hostv st
     = [Render.colorfmt E (colors E "CYAN")
          (Str.nl +:+ "Summary for " +:+ Py.str (repr E) hostv
             +:+ Str.nl +:+ "-----------");
        Render.colorfmt E (colors E "GREEN") "Succeeded: 0";
        Render.colorfmt E (colors E "CYAN") "Failed:   0";
        Render.colorfmt E (colors E "CYAN")
          ("-----------" +:+ Str.nl +:+ "Total states run:    0")]
       ++ Render.profile_lines E opts st.
Proof.
  intros Hpct Hrc Hn.
  assert (Hp : Render.pct_lines E opts [] = []).
  { unfold Render.pct_lines. rewrite Hpct. reflexivity. }
  rewrite Hrc. split; [exact Hp |].
  unfold Render.summary_lines. rewrite Hrc, Hn, Hp.
  cbn [Render.count_get Z.ltb Z.compare app].
  rewrite append_empty_r. reflexivity.
Qed.

(** The output of a host without valid records, for any callbacks *)
Lemma format_host_no_tasks indent host (d : dict) :
  state_output_pct opts = true ->
  Forall (fun kv => Render.valid kv.2 = false) d ->
  let hostv := decode E (VStr host) in
  let diag := (Render.validate E d (Render.own_view d)).1 in
  let st := Render.initial E diag d in
  Render.pct_lines E opts (Render.rcounts st) = []
  /\ Render.format_host E opts ro rfh indent host (VDict d)
     = Ok (Str.join Str.nl
             (Render.banner E opts hostv (colors E "GREEN")
                :: diag
                ++ [Render.colorfmt E (colors E "CYAN")
                      (Str.nl +:+ "Summary for " +:+ Py.str (repr E) hostv
                         +:+ Str.nl +:+ "-----------");
                    Render.colorfmt E (colors E "GREEN") "Succeeded: 0";
                    Render.colorfmt E (colors E "CYAN") "Failed:   0";
                    Render.colorfmt E (colors E "CYAN")
                      ("-----------" +:+ Str.nl +:+ "Total states run:    0")]
                ++ Render.profile_lines E opts st),
           false, VDict d).
Proof.
  intros Hpct Hd hostv diag st.
  destruct (summary_lines_empty hostv st Hpct eq_refl eq_refl) as [Hp Hs].
  split; [exact Hp |].
  unfold Render.format_host, Render.format_host_view, Render.render_mapping.
  assert (Hv : (Render.validate E d (Render.own_view d)).2 = []).
  { unfold Render.validate. apply validate_none_valid, own_view_info, Hd. }
  subst st diag.
  destruct (Render.validate E d (Render.own_view d)) as [dg tmp].
  simpl in Hv. subst tmp. cbn [fst] in Hs.
  cbn [Py.sorted_by foldl rbind Render.render_tasks fst].
  unfold Render.mapping_lines. fold hostv. rewrite Hs. reflexivity.
Qed.

End NoTasks.

(** C9: the output of a host whose mapping has no record with a [result]
    is the host line, the diagnostics, and a summary of four entries
    (five under profiling): the percentages divide by zero and their lines
    are left out, and the call returns, with every positive fuel. *)
Theorem no_tasks_no_percent E opts fuel indent host (d : dict) :
  state_output_pct opts = true ->
  Forall (fun kv => Render.valid kv.2 = false) d ->
  let hostv := decode E (VStr host) in
  let diag := (Render.validate E d (Render.own_view d)).1 in
  let st := Render.initial E diag d in
  Render.pct_lines E opts (Render.rcounts st) = []
  /\ Output.format_host E opts (S fuel) indent host (VDict d)
     = Ok (Str.join Str.nl
             (Render.banner E opts hostv (colors E "GREEN")
                :: diag
                ++ [Render.colorfmt E (colors E "CYAN")
                      (Str.nl +:+ "Summary for " +:+ Py.str (repr E) hostv
                         +:+ Str.nl +:+ "-----------");
                    Render.colorfmt E (colors E "GREEN") "Succeeded: 0";
                    Render.colorfmt E (colors E "CYAN") "Failed:   0";
                    Render.colorfmt E (colors E "CYAN")
                      ("-----------" +:+ Str.nl +:+ "Total states run:    0")]
                ++ Render.profile_lines E opts st),
           false, VDict d).
Proof.
  intros Hpct Hd. cbn [Output.format_host].
  exact (format_host_no_tasks E opts _ _ indent host d Hpct Hd).
Qed.

Lemma no_tasks_no_percent_witness :
  let d : dict := [("note", VDict [("comment", VStr "nothing ran")])] in
  state_output_pct Sample.with_pct = true
  /\ Forall (fun kv => Render.valid kv.2 = false) d
  /\ Output.format_host Sample.plain Sample.with_pct 1 1 "minionA" (VDict d)
     = Ok (Str.join Str.nl
             ["minionA:"; Render.order_error; "<pformat>";
              Str.nl +:+ "Summary for minionA" +:+ Str.nl +:+ "-----------";
              "Succeeded: 0"; "Failed:   0";
              "-----------" +:+ Str.nl +:+ "Total states run:    0"],
           false, VDict d).
Proof.
  intros d.
  split; [reflexivity |].
  split; [repeat constructor |].
  apply (no_tasks_no_percent Sample.plain Sample.with_pct 0 1 "minionA" d).
  - reflexivity.
  - repeat constructor.
Defined.

(** ** Diagnostics and excluded entries (C6) *)

Lemma dget_dset_fresh {A} (k : string) (x : A) (d : list (string * A)) :
  k ∉ map fst d -> Py.dset k x d = d ++ [(k, x)].
Proof.
  induction d as [|[k' y] d IH]; simpl; intros H; [reflexivity|].
  apply not_elem_of_cons in H as [Hne Hd].
  destruct (String.eqb_spec k k'); [congruence|].
  now rewrite IH.
Qed.

Lemma insert_by_perm {A} (key : A -> value) (x : A) (l l' : list A) :
  Py.insert_by key x l = Ok l' -> l' ≡ₚ x :: l.
Proof.
  revert l'. induction l as [|y l IH]; simpl; intros l' H.
  - injection H as <-. reflexivity.
  - apply rbind_ok in H as (c & _ & H). destruct c.
    + injection H as <-. reflexivity.
    + apply rbind_ok in H as (l'' & Hl & H). injection H as <-.
      rewrite (IH _ Hl). apply Permutation_swap.
Qed.

Lemma sorted_by_perm_gen {A} (key : A -> value) (l acc sl : list A) :
  foldl (fun acc x => do sl <- acc; Py.insert_by key x sl) (Ok acc) l = Ok sl ->
  sl ≡ₚ acc ++ l.
Proof.
  revert acc. induction l as [|x l IH]; simpl; intros acc H.
  - injection H as <-. now rewrite app_nil_r.
  - destruct (Py.insert_by key x acc) as [acc'| | |] eqn:Hins.
    + apply IH in H. rewrite H. apply insert_by_perm in Hins. rewrite Hins.
      apply Permutation_middle.
    + exfalso. clear -H. induction l; simpl in H; [discriminate | auto].
    + exfalso. clear -H. induction l; simpl in H; [discriminate | auto].
    + exfalso. clear -H. induction l; simpl in H; [discriminate | auto].
Qed.

(** The order of the task loop is a rearrangement of the entries kept. *)
Lemma sorted_by_perm {A} (key : A -> value) (l sl : list A) :
  Py.sorted_by key l = Ok sl -> sl ≡ₚ l.
Proof. intros H. apply sorted_by_perm_gen in H. exact H. Qed.

Section Diagnostics.
Context (E : externals) (opts : options).
Context (ro : Z -> value -> res (value * value)).
Context (rfh : string -> value -> res (string * bool * value)).

Lemma validate_gen (heap : dict) (v : Compress.view) hs (tmp : Compress.view) :
  NoDup (map fst tmp ++ map fst v) ->
  foldl (fun '(hs, tmp) '(tname, i) =>
           let info := Render.info_at heap i in
           (if Render.diagnosed tname info
            then Render.order_error :: pformat E info :: hs else hs,
            if Render.valid info then Py.dset tname i tmp else tmp))
        (hs, tmp) v
  = (concat (map (fun e => [Render.order_error; pformat E (Render.info_at heap e.2)])
               (rev (List.filter
                       (fun e => Render.diagnosed e.1 (Render.info_at heap e.2)) v)))
       ++ hs,
     tmp ++ List.filter (fun e => Render.valid (Render.info_at heap e.2)) v).
Proof.
  revert hs tmp. induction v as [|[t i] v IH]; intros hs tmp Hnd.
  - simpl. now rewrite app_nil_r.
  - cbn [foldl List.filter fst snd].
    assert (Hfresh : t ∉ map fst tmp).
    { apply NoDup_app in Hnd as (_ & Hd & _). intros Hin.
      apply (Hd t Hin). simpl. left. }
    assert (Hnd1 : NoDup (map fst tmp ++ map fst v)).
    { apply NoDup_app in Hnd as (H1 & H2 & H3). apply NoDup_app.
      split; [assumption|]. split.
      - intros x Hx Hv. apply (H2 x Hx). simpl. now right.
      - now apply NoDup_cons in H3 as [_ ?]. }
    assert (Hnd2 : NoDup (map fst (tmp ++ [(t, i)]) ++ map fst v)).
    { rewrite map_app. simpl. rewrite <- app_assoc. simpl. exact Hnd. }
    destruct (Render.valid (Render.info_at heap i)) eqn:Hv;
      destruct (Render.diagnosed t (Render.info_at heap i)) eqn:Hdg; simpl.
    + rewrite (dget_dset_fresh _ _ _ Hfresh), IH by assumption.
      rewrite map_app, concat_app. simpl. rewrite <- !app_assoc. reflexivity.
    + rewrite (dget_dset_fresh _ _ _ Hfresh), IH by assumption.
      rewrite <- !app_assoc. reflexivity.
    + rewrite IH by assumption.
      rewrite map_app, concat_app. simpl. rewrite <- !app_assoc. reflexivity.
    + now rewrite IH.
Qed.

Lemma validate_spec (heap : dict) (v : Compress.view) :
  NoDup (map fst v) ->
  Render.validate E heap v
  = (concat (map (fun e => [Render.order_error; pformat E (Render.info_at heap e.2)])
               (rev (List.filter
                       (fun e => Render.diagnosed e.1 (Render.info_at heap e.2)) v))),
     List.filter (fun e => Render.valid (Render.info_at heap e.2)) v).
Proof.
  intros H. unfold Render.validate. rewrite validate_gen by exact H.
  now rewrite app_nil_r.
Qed.

End Diagnostics.

(** ** What one record adds to the output *)

Section TaskLines.
Context (E : externals) (opts : options).
Context (ro : Z -> value -> res (value * value)).
Context (rfh : string -> value -> res (string * bool * value)).

Lemma full_lines_length tcolor comps ret0 ret ctext block :
  Render.full_lines E opts tcolor comps ret0 ret ctext = Ok block ->
  (6 <= length block)%nat.
Proof.
  unfold Render.full_lines. intros H.
  apply rbind_ok in H as (c1 & _ & H). apply rbind_ok in H as (c2 & _ & H).
  apply rbind_ok in H as (c & _ & H). apply rbind_ok in H as (c0 & _ & H).
  apply rbind_ok in H as (c3 & _ & H). apply rbind_ok in H as (r & _ & H).
  apply rbind_ok in H as (prof & _ & H). injection H as <-.
  cbn [length]. rewrite !length_app. cbn [length]. lia.
Qed.

Lemma emit_hstrs act tcolor comps k i ret ctext st st' :
  Render.emit E opts act tcolor comps k i ret ctext st = Ok st' ->
  exists lines,
    Render.hstrs st' = Render.hstrs st ++ lines
    /\ Render.emitted E opts act tcolor comps ret ctext lines.
Proof.
  destruct act; simpl; intros H.
  - injection H as <-. exists []. now rewrite app_nil_r.
  - apply rbind_ok in H as (msg & Hmsg & H). injection H as <-.
    exists [msg]. split; [reflexivity | eauto].
  - apply rbind_ok in H as (ret' & Hret & H).
    apply rbind_ok in H as (block & Hblock & H).
    apply rbind_ok in H as (wl & Hwl & H). injection H as <-.
    exists (block ++ (if Py.dhas "warnings" ret' then wl else [])). split.
    + destruct (Py.dhas "warnings" ret'); simpl;
        [now rewrite app_assoc | now rewrite app_nil_r].
    + exists ret', block, wl. auto.
Qed.

Lemma emitted_length act tcolor comps ret ctext lines :
  Render.emitted E opts act tcolor comps ret ctext lines ->
  match act with
  | Render.Skip => length lines = 0%nat
  | Render.Terse => length lines = 1%nat
  | Render.Full => (6 <= length lines)%nat
  end.
Proof.
  destruct act; simpl.
  - now intros ->.
  - now intros (msg & _ & ->).
  - intros (ret' & block & wl & _ & Hb & _ & ->).
    apply full_lines_length in Hb. rewrite length_app. lia.
Qed.

End TaskLines.

(** ** Fields that an assignment leaves alone *)

Lemma dget_dset_ne {A} (k k' : string) (x : A) (d : list (string * A)) :
  k <> k' -> Py.dget k (Py.dset k' x d) = Py.dget k d.
Proof.
  intros Hne. induction d as [|[k0 y] d IH]; simpl.
  - destruct (String.eqb_spec k k'); [congruence | reflexivity].
  - destruct (String.eqb_spec k' k0) as [->|Hk0]; simpl.
    + destruct (String.eqb_spec k k0); [congruence | reflexivity].
    + destruct (String.eqb_spec k k0); [reflexivity | exact IH].
Qed.

Lemma dget_dset_eq {A} (k : string) (x : A) (d : list (string * A)) :
  Py.dget k (Py.dset k x d) = Some x.
Proof.
  induction d as [|[k0 y] d IH]; simpl.
  - now rewrite String.eqb_refl.
  - destruct (String.eqb_spec k k0) as [->|Hk0]; simpl.
    + now rewrite String.eqb_refl.
    + destruct (String.eqb_spec k k0); [congruence | exact IH].
Qed.

Lemma dget_setdefault_ne (k k' : string) (x : value) (d : dict) :
  k <> k' -> Py.dget k (Render.setdefault k' x d) = Py.dget k d.
Proof.
  intros H. unfold Render.setdefault. destruct (Py.dhas k' d); [reflexivity|].
  now apply dget_dset_ne.
Qed.

Section TaskFields.
Context (E : externals) (opts : options).
Context (ro : Z -> value -> res (value * value)).
Context (rfh : string -> value -> res (string * bool * value)).

Lemma changes_of_record indent count ret schanged ctext n ret1 :
  Render.changes_of E ro rfh indent count ret = Ok (schanged, ctext, n, ret1) ->
  exists ch', ret1 = Py.dset "changes" ch' ret.
Proof.
  unfold Render.changes_of. intros H.
  apply rbind_ok in H as (ch & _ & H).
  destruct (Render.is_orch ret).
  - apply rbind_ok in H as ([nested ch'] & _ & H).
    destruct nested; try discriminate. injection H as <- <- <- <-. eauto.
  - apply rbind_ok in H as ([[sc ct] ch'] & _ & H).
    apply rbind_ok in H as (m & _ & H). injection H as <- <- <- <-. eauto.
Qed.

(** The fields that a full block rewrites *)
Lemma full_updates_other ret ret' k :
  Render.full_updates E ret = Ok ret' ->
  k <> "comment" -> k <> "start_time" -> k <> "duration" ->
  Py.dget k ret' = Py.dget k ret.
Proof.
  unfold Render.full_updates. intros H Hc Hs Hd.
  apply rbind_ok in H as (c & _ & H).
  apply rbind_ok in H as (d & _ & H). injection H as <-.
  assert (Hbase : Py.dget k
            (Render.setdefault "duration" (VStr "")
               (Render.setdefault "start_time" (VStr "")
                  (if Py.is_str c then ret
                   else Py.dset "comment" (VStr (Py.str (repr E) c)) ret)))
          = Py.dget k ret).
  { rewrite !dget_setdefault_ne by assumption.
    destruct (Py.is_str c); [reflexivity | now apply dget_dset_ne]. }
  destruct (Py.eq_str d ""); [exact Hbase |].
  rewrite dget_dset_ne by assumption. exact Hbase.
Qed.

End TaskFields.

(** ** Counters *)

Lemma count_of_add (k k' : Render.ckey) (n : Z) (rc : Render.counts) :
  Render.count_of k (Render.count_add k' n rc)
  = Render.count_of k rc + (if decide (k = k') then n else 0).
Proof.
  unfold Render.count_of. induction rc as [|[k0 m] rc IH]; simpl.
  - destruct (decide (k = k')); simpl; lia.
  - destruct (decide (k' = k0)) as [->|Hne]; simpl.
    + destruct (decide (k = k0)); simpl; lia.
    + destruct (decide (k = k0)) as [->|Hk].
      * destruct (decide (k0 = k')); [congruence | simpl; lia].
      * exact IH.
Qed.

Lemma count_sum_add (k : Render.ckey) (n : Z) (rc : Render.counts) :
  Render.count_sum (Render.count_add k n rc) = Render.count_sum rc + n.
Proof.
  unfold Render.count_sum. induction rc as [|[k0 m] rc IH]; simpl; [lia|].
  destruct (decide (k = k0)); simpl; lia.
Qed.

Lemma ckey_of_not_warnings (result : value) (key : Render.ckey) :
  Render.ckey_of result = Ok key -> result <> VStr "warnings" ->
  key <> Render.KWarnings.
Proof.
  unfold Render.KWarnings.
  destruct result; simpl; intros H Hne; try discriminate;
    injection H as <-; try discriminate; congruence.
Qed.

(** ** The three outcomes of a record (C8) and the warnings counter (C10) *)

Section Outcomes.
Context (E : externals) (opts : options).
Context (ro : Z -> value -> res (value * value)).
Context (rfh : string -> value -> res (string * bool * value)).

(** One turn of the task loop, with what it read, what it decided and
    what it added. *)
Lemma render_task_outcome indent tname i st st' :
  Render.render_task E opts ro rfh indent tname i st = Ok st' ->
  exists k ret result key count schanged act tcolor comps ret1 ctext lines,
    Render.heap st !! i = Some (k, VDict ret)
    /\ Py.dget "result" ret = Some result
    /\ Render.ckey_of result = Ok key
    /\ Render.compressed_count opts tname = Ok count
    /\ (exists ch', ret1 = Py.dset "changes" ch' ret)
    /\ Render.decide_action E opts result schanged = Ok act
    /\ Render.hstrs st' = Render.hstrs st ++ lines
    /\ Render.emitted E opts act tcolor comps ret1 ctext lines
    /\ Render.rcounts st'
       = (if match act with
             | Render.Full => Py.dhas "warnings" ret
             | _ => false
             end
          then Render.count_add Render.KWarnings 1
          else fun rc => rc)
           (Render.count_add key count (Render.rcounts st)).
Proof.
  intros H.
  apply render_task_inv in H
    as (k & ret & result & key & count & dur & schanged & ctext & n & ret1
        & Hi & Hres & Hkey & Hcount & Hdur & Hch & H).
  cbv zeta in H. unfold Render.decide_action.
  pose proof (changes_of_record _ _ _ _ _ _ _ _ _ _ Hch) as Hret1.
  destruct (Render.skipped opts result schanged) eqn:Hskip.
  - subst st'.
    exists k, ret, result, key, count, schanged, Render.Skip, "", [], ret1, ctext, [].
    rewrite Hskip. repeat (split; [assumption || reflexivity |]).
    split; [| split; [reflexivity |]].
    + unfold Render.before_skips. simpl. now rewrite hstrs_tally, app_nil_r.
    + unfold Render.before_skips. simpl. apply rcounts_tally.
  - destruct H as (comps & act & Hcomps & Hact & H).
    pose proof H as Hemit.
    apply emit_hstrs in H as (lines & Hlines & Hem).
    eexists k, ret, result, key, count, schanged, act, _, comps, ret1, ctext, lines.
    rewrite Hskip. repeat (split; [eassumption || reflexivity |]).
    split; [| split; [exact Hem |]].
    + rewrite Hlines. unfold Render.before_skips. simpl. now rewrite hstrs_tally.
    + destruct act; simpl in Hemit.
      * injection Hemit as <-. unfold Render.before_skips. simpl. apply rcounts_tally.
      * apply rbind_ok in Hemit as (msg & _ & Hemit). injection Hemit as <-.
        unfold Render.before_skips. simpl. apply rcounts_tally.
      * apply rbind_ok in Hemit as (ret' & Hret' & Hemit).
        apply rbind_ok in Hemit as (block & _ & Hemit).
        apply rbind_ok in Hemit as (wl & _ & Hemit). injection Hemit as <-.
        assert (Hw : Py.dhas "warnings" ret' = Py.dhas "warnings" ret).
        { unfold Py.dhas.
          rewrite (full_updates_other E _ _ "warnings" Hret') by discriminate.
          destruct Hret1 as (ch' & ->). now rewrite dget_dset_ne by discriminate. }
        rewrite Hw. unfold Render.before_skips.
        destruct (Py.dhas "warnings" ret); simpl; now rewrite rcounts_tally.
Qed.



End Outcomes.



(** The warnings counter and the sum of the counters depend on the mode:
    the same report counts one warning in full mode and none in terse
    mode, while the total that is displayed is one in both. *)
Lemma warnings_depend_on_mode :
  let d := Sample.warned_host in
  let counts_in mode :=
    match Render.render_mapping Sample.plain (Sample.with_output mode true false)
            Sample.no_output Sample.no_format_host 1 (Render.own_view d) d with
    | Ok st => Some (Render.count_of Render.KWarnings (Render.rcounts st),
                     Render.count_sum (Render.rcounts st),
                     Render.states_run (Render.rcounts st))
    | _ => None
    end in
  counts_in "full" = Some (1, 2, 1) /\ counts_in "terse" = Some (0, 1, 1).
Proof. split; vm_compute; reflexivity. Qed.


(** ** The output of a host mapping (C6) *)

Section HostOutput.
Context (E : externals) (opts : options).
Context (ro : Z -> value -> res (value * value)).
Context (rfh : string -> value -> res (string * bool * value)).

Lemma render_tasks_hstrs indent tasks st st' :
  Render.render_tasks E opts ro rfh indent tasks st = Ok st' ->
  exists body, Render.hstrs st' = Render.hstrs st ++ body.
Proof.
  revert st. induction tasks as [|[tname i] tasks IH]; simpl; intros st H.
  - injection H as <-. exists []. now rewrite app_nil_r.
  - apply rbind_ok in H as (st1 & H1 & H).
    apply render_task_outcome in H1
      as (k & ret & result & key & count & schanged & act & tcolor & comps & ret1
          & ctext & lines & _ & _ & _ & _ & _ & _ & Hlines & _).
    apply IH in H as (body & ->). rewrite Hlines.
    exists (lines ++ body). now rewrite app_assoc.
Qed.

(** The mapping branch: the diagnostics, the tasks in their order, the
    lines. *)
Lemma render_mapping_inv indent hostv (v : Compress.view) (heap : dict) st :
  NoDup (map fst v) ->
  Render.render_mapping E opts ro rfh indent v heap = Ok st ->
  let diag :=
    concat (map (fun e => [Render.order_error; pformat E (Render.info_at heap e.2)])
              (rev (List.filter
                      (fun e => Render.diagnosed e.1 (Render.info_at heap e.2)) v))) in
  exists tasks body,
    tasks ≡ₚ List.filter (fun e => Render.valid (Render.info_at heap e.2)) v
    /\ Render.render_tasks E opts ro rfh indent tasks (Render.initial E diag heap)
       = Ok st
    /\ Render.mapping_lines E opts hostv st
       = Render.banner E opts hostv (Render.hcolor st)
           :: diag ++ body ++ Render.summary_lines E opts hostv st.
Proof.
  intros Hnd H diag. unfold Render.render_mapping in H.
  rewrite (validate_spec E heap v Hnd) in H. fold diag in H.
  apply rbind_ok in H as (tasks & Hsort & H).
  pose proof (render_tasks_hstrs _ _ _ _ H) as (body & Hbody).
  exists tasks, body. split; [now apply sorted_by_perm in Hsort |].
  split; [exact H |].
  unfold Render.mapping_lines. rewrite Hbody. simpl. now rewrite <- app_assoc.
Qed.

(** C6, amended: a diagnostic block (the error text and the dump of the
    entry) is produced for every entry, other than one named [changes],
    whose value is a non-empty mapping without the run-order marker, whether
    or not it has a [result]; the blocks, the last diagnosed entry first,
    come directly after the host line and before every task entry and the
    summary.  Apart from that, the entries that the task loop handles are
    the entries whose value is a mapping with a [result], in some order: the
    others add no count and no task entry. *)
Theorem diagnostics_precede_tasks indent hostv (v : Compress.view) (heap : dict) st :
  NoDup (map fst v) ->
  Render.render_mapping E opts ro rfh indent v heap = Ok st ->
  let diag :=
    concat (map (fun e => [Render.order_error; pformat E (Render.info_at heap e.2)])
              (rev (List.filter
                      (fun e => Render.diagnosed e.1 (Render.info_at heap e.2)) v))) in
  exists tasks body,
    tasks ≡ₚ List.filter (fun e => Render.valid (Render.info_at heap e.2)) v
    /\ Render.render_tasks E opts ro rfh indent tasks (Render.initial E diag heap)
       = Ok st
    /\ Render.mapping_lines E opts hostv st
       = Render.banner E opts hostv (Render.hcolor st)
           :: diag ++ body ++ Render.summary_lines E opts hostv st.
Proof. intros Hnd H. exact (render_mapping_inv indent hostv v heap st Hnd H). Qed.

End HostOutput.

(** C6, as stated, fails: a record with a [result] and without the
    run-order marker gets the diagnostic block and is rendered and counted
    as well; the block follows the host line; and an empty mapping, which
    has neither key, gets no block. *)
Lemma diagnosed_and_counted :
  let info := VDict [("result", VBool true); ("changes", VDict []);
                     ("comment", VStr "already installed")] in
  Py.has_key "result" info = true
  /\ Py.has_key "__run_num__" info = false
  /\ (exists text post,
        Render.format_host Sample.plain (Sample.with_output "full" true false)
          Sample.no_output Sample.no_format_host 1 "minionA"
          (VDict [(Sample.vim_name, info)]) = Ok (text, false, post)
        /\ take 3 (Str.splitlines text)
           = ["minionA:"; Render.order_error; "<pformat>"]
        /\ In "      Result: True" (Str.splitlines text)
        /\ In "Succeeded: 1" (Str.splitlines text))
  /\ Render.validate Sample.plain [("x", VDict [])] [("x", 0%nat)] = ([], []).
Proof.
  intros info. split; [reflexivity |]. split; [reflexivity |]. split.
  - eexists _, _. split; [vm_compute; reflexivity |].
    split; [vm_compute; reflexivity |]. split; vm_compute; tauto.
  - reflexivity.
Qed.

Lemma diagnostics_precede_tasks_witness :
  let info := VDict [("result", VBool true); ("changes", VDict []);
                     ("comment", VStr "already installed")] in
  let heap : dict := [(Sample.vim_name, info); ("note", VDict [("comment", VStr "?")])] in
  let v := Render.own_view heap in
  let opts := Sample.with_output "full" true false in
  let diag :=
    concat (map (fun e => [Render.order_error;
                           pformat Sample.plain (Render.info_at heap e.2)])
              (rev (List.filter
                      (fun e => Render.diagnosed e.1 (Render.info_at heap e.2)) v))) in
  exists st,
    NoDup (map fst v)
    /\ Render.render_mapping Sample.plain opts Sample.no_output
         Sample.no_format_host 1 v heap = Ok st
    /\ exists tasks body,
         tasks ≡ₚ List.filter (fun e => Render.valid (Render.info_at heap e.2)) v
         /\ Render.render_tasks Sample.plain opts Sample.no_output
              Sample.no_format_host 1 tasks (Render.initial Sample.plain diag heap)
            = Ok st
         /\ Render.mapping_lines Sample.plain opts (VStr "minionA") st
            = Render.banner Sample.plain opts (VStr "minionA") (Render.hcolor st)
                :: diag ++ body
                ++ Render.summary_lines Sample.plain opts (VStr "minionA") st.
Proof.
  intros info heap v opts diag.
  assert (Hnd : NoDup (map fst v)).
  { apply (bool_decide_unpack _). vm_compute. exact I. }
  eexists. split; [exact Hnd |]. split; [vm_compute; reflexivity |].
  apply (diagnostics_precede_tasks Sample.plain opts Sample.no_output
           Sample.no_format_host 1 (VStr "minionA") v heap); [exact Hnd |].
  vm_compute. reflexivity.
Defined.

(** ** What rendering keeps of its argument (C3) *)

Lemma fields_kept_refl f : fields_kept f f.
Proof. intros k _ _ _ _. reflexivity. Qed.

Lemma fields_kept_trans f g h :
  fields_kept f g -> fields_kept g h -> fields_kept f h.
Proof. intros H1 H2 k ? ? ? ?. rewrite H2, H1 by assumption. reflexivity. Qed.

Lemma record_kept_refl r : record_kept r r.
Proof. destruct r; simpl; eauto using fields_kept_refl. Qed.

Lemma record_kept_trans r s t :
  record_kept r s -> record_kept s t -> record_kept r t.
Proof.
  destruct r; simpl; try (intros -> ?; assumption).
  intros (f' & -> & H1). simpl. intros (f'' & -> & H2).
  eauto using fields_kept_trans.
Qed.

Lemma entries_kept_refl d : entries_kept d d.
Proof. induction d; constructor; auto using record_kept_refl. Qed.

Lemma entries_kept_trans d1 d2 d3 :
  entries_kept d1 d2 -> entries_kept d2 d3 -> entries_kept d1 d3.
Proof.
  intros H. revert d3. induction H as [|e1 e2 d1 d2 [Hk Hr] _ IH]; intros d3 H'.
  - inversion H'. constructor.
  - inversion H' as [|? e3 ? d3' [Hk' Hr'] Ht]; subst. constructor.
    + split; [congruence | eauto using record_kept_trans].
    + apply IH. exact Ht.
Qed.

Lemma entries_kept_insert (heap : dict) (i : nat) (k : string) (f f' : dict) :
  heap !! i = Some (k, VDict f) -> fields_kept f f' ->
  entries_kept heap (<[i := (k, VDict f')]> heap).
Proof.
  revert i. induction heap as [|e heap IH]; intros i Hi Hf; [discriminate|].
  destruct i as [|i]; simpl in *.
  - injection Hi as ->. constructor; [| apply entries_kept_refl].
    split; [reflexivity |]. simpl. eauto.
  - constructor; [split; [reflexivity | apply record_kept_refl] |].
    now apply IH.
Qed.

Lemma host_kept_refl v : host_kept v v.
Proof. destruct v; simpl; eauto using entries_kept_refl. Qed.

Section Frame.
Context (E : externals) (opts : options).
Context (ro : Z -> value -> res (value * value)).
Context (rfh : string -> value -> res (string * bool * value)).

Lemma render_task_heap indent tname i st st' :
  Render.render_task E opts ro rfh indent tname i st = Ok st' ->
  entries_kept (Render.heap st) (Render.heap st').
Proof.
  intros H.
  apply render_task_inv in H
    as (k & ret & result & key & count & dur & schanged & ctext & n & ret1
        & Hi & Hres & Hkey & Hcount & Hdur & Hch & H).
  cbv zeta in H.
  apply changes_of_record in Hch as (ch' & Hret1).
  assert (H1 : fields_kept ret ret1).
  { subst ret1. intros x Hx _ _ _. now apply dget_dset_ne. }
  assert (Hbase : Render.heap (Render.before_skips k i key count dur ret ret1 n st)
                  = <[i := (k, VDict ret1)]> (Render.heap st)).
  { unfold Render.before_skips. simpl. now rewrite heap_tally. }
  destruct (Render.skipped opts result schanged).
  - subst st'. rewrite Hbase. eapply entries_kept_insert; eauto.
  - destruct H as (comps & act & Hcomps & Hact & H).
    destruct act; simpl in H.
    + injection H as <-. cbn [Render.heap Render.set_hcolor].
      rewrite Hbase. eapply entries_kept_insert; eauto.
    + apply rbind_ok in H as (msg & _ & H). injection H as <-.
      cbn [Render.heap Render.set_hcolor Render.add_hstrs].
      rewrite Hbase. eapply entries_kept_insert; eauto.
    + apply rbind_ok in H as (ret' & Hret' & H).
      apply rbind_ok in H as (block & _ & H).
      apply rbind_ok in H as (wl & _ & H).
      assert (Hheap : Render.heap st' = <[i := (k, VDict ret')]> (Render.heap st)).
      { injection H as <-. destruct (Py.dhas "warnings" ret');
          cbn [Render.heap Render.set_hcolor Render.add_hstrs Render.set_heap
               Render.set_rcounts Render.before_skips Render.add_nchanges];
          rewrite heap_tally; apply list_insert_insert_eq. }
      rewrite Hheap. eapply entries_kept_insert; eauto.
      eapply fields_kept_trans; [exact H1 |].
      intros x _ Hc Hs Hd. eapply full_updates_other; eauto.
Qed.

Lemma render_tasks_heap indent tasks st st' :
  Render.render_tasks E opts ro rfh indent tasks st = Ok st' ->
  entries_kept (Render.heap st) (Render.heap st').
Proof.
  revert st. induction tasks as [|[tname i] tasks IH]; simpl; intros st H.
  - injection H as <-. apply entries_kept_refl.
  - apply rbind_ok in H as (st1 & H1 & H).
    eapply entries_kept_trans; [eapply render_task_heap; eauto | eauto].
Qed.

Lemma format_host_view_heap indent host v heap text c heap' :
  Render.format_host_view E opts ro rfh indent host v heap = Ok (text, c, heap') ->
  entries_kept heap heap'.
Proof.
  unfold Render.format_host_view, Render.render_mapping. intros H.
  apply rbind_ok in H as (st & Hst & H). injection H as _ _ <-.
  destruct (Render.validate E heap v) as [diag tmp].
  apply rbind_ok in Hst as (tasks & _ & Hst).
  apply render_tasks_heap in Hst. exact Hst.
Qed.

Lemma format_host_kept indent host data text c data' :
  Render.format_host E opts ro rfh indent host data = Ok (text, c, data') ->
  host_kept data data'.
Proof.
  unfold Render.format_host. intros H.
  destruct data; try (injection H as _ _ <-; apply host_kept_refl).
  apply rbind_ok in H as ([[t c'] d'] & Hv & H). injection H as _ _ <-.
  apply format_host_view_heap in Hv. simpl. eauto.
Qed.

Lemma format_hosts_kept indent data texts data' :
  Output.format_hosts E opts ro rfh indent data = Ok (texts, data') ->
  report_kept data data'.
Proof.
  revert texts data'. induction data as [|[host hostdata] data IH];
    simpl; intros texts data' H.
  - injection H as _ <-. constructor.
  - apply rbind_ok in H as ([[text c] hostdata'] & Hh & H).
    apply rbind_ok in H as ([texts' rest] & Hr & H). injection H as _ <-.
    constructor; [| eapply IH; exact Hr].
    split; [reflexivity | eapply format_host_kept; exact Hh].
Qed.

End Frame.




(** ** Compression that fails (C2) *)

(** C2 at a failing input: three names under one ID, the third record
    without a duration.  The second record is merged into the first, which
    is the object of the input; the third raises [KeyError] after its run
    number was merged; the exception is caught and [data] is returned, with
    the first record rewritten. *)
Lemma failed_compression_rewrites_input :
  let data : dict := [("minionA", VDict Sample.missing_duration)] in
  let first := Sample.task "x" "s" "a" (VBool false) 1 (VFloat (15 # 4))
                 "10:00:01.000000" in
  Compress.compress_ids (repr Sample.plain) data
  = Ok (Compress.Original,
        [("minionA",
          VDict (<[0%nat := ("cmd_|-x_|-a_|-run", first)]> Sample.missing_duration))])
  /\ Sample.missing_duration !! 0%nat
     = Some ("cmd_|-x_|-a_|-run",
             Sample.task "x" "s" "a" (VBool false) 3 (VFloat 1.5) "10:00:03.000000")
  /\ first <> Sample.task "x" "s" "a" (VBool false) 3 (VFloat 1.5) "10:00:03.000000".
Proof.
  intros data first. split; [vm_compute; reflexivity |].
  split; [reflexivity | discriminate].
Qed.

(** ** Counts under compression (C1) *)

(** C1 at a failing input: two records whose identities differ,
    [(cmd, a_b, c, True)] and [(cmd, a, b_c, True)], have the same joined
    key [cmd_a_b_c_True]; each is stored under its own compressed name with
    the count 2 of the key, and the summary counts four records for the two
    of the report. *)
Lemma colliding_keys_counted_twice :
  let opts := Sample.with_output "full" true true in
  length (List.filter (fun kv => Render.valid kv.2) Sample.colliding) = 2%nat
  /\ (exists heap st,
        Compress.compress_host (repr Sample.plain) Sample.colliding
        = (([("cmd_|-a_b (2)_|-state_compressed_c_a_b_True_|-run", 0%nat);
             ("cmd_|-a (2)_|-state_compressed_b_c_a_True_|-run", 1%nat)], heap),
           Ok tt)
        /\ Render.render_mapping Sample.plain opts Sample.no_output
             Sample.no_format_host 1
             [("cmd_|-a_b (2)_|-state_compressed_c_a_b_True_|-run", 0%nat);
              ("cmd_|-a (2)_|-state_compressed_b_c_a_True_|-run", 1%nat)] heap
           = Ok st
        /\ Render.rcounts st = [(Render.KTrue, 4)])
  /\ (exists text post,
        Output.output Sample.plain opts 2 1 (VDict [("minionA", VDict Sample.colliding)])
        = Ok (VStr text, post)
        /\ In "Succeeded: 4" (Str.splitlines text)
        /\ In "Total states run:     4" (Str.splitlines text)).
Proof.
  intros opts. split; [reflexivity |]. split.
  - eexists _, _. split; [vm_compute; reflexivity |].
    split; vm_compute; reflexivity.
  - eexists _, _. split; [vm_compute; reflexivity |].
    split; vm_compute; tauto.
Qed.

(** ** The aggregate of a group (C5) *)

Lemma assign_all_cons (f : dict -> res dict) fs acc acc' :
  Compress.assign_all (f :: fs) acc = (acc', Ok tt) ->
  exists a1, f acc = Ok a1 /\ Compress.assign_all fs a1 = (acc', Ok tt).
Proof.
  simpl. destruct (f acc) as [a1| | |]; try (intros [= _ ?]; discriminate).
  eauto.
Qed.

Lemma timing_ext (f f' : dict) :
  (forall k, k <> "changes" -> Py.dget k f' = Py.dget k f) ->
  Compress.timing (VDict f') = Compress.timing (VDict f).
Proof.
  intros H. unfold Compress.timing. now rewrite !H by discriminate.
Qed.

Lemma wrap_changes_other acc acc' k :
  Compress.wrap_changes acc = Ok acc' -> k <> "changes" ->
  Py.dget k acc' = Py.dget k acc.
Proof.
  unfold Compress.wrap_changes. intros H Hk.
  apply rbind_ok in H as (ch & _ & H). apply rbind_ok in H as (cc & _ & H).
  destruct (Py.truthy cc); [congruence |].
  apply rbind_ok in H as (n & _ & H). apply rbind_ok in H as (n' & _ & H).
  injection H as <-. now apply dget_dset_ne.
Qed.

Lemma add_changes_other info acc acc' k :
  Compress.add_changes info acc = Ok acc' -> k <> "changes" ->
  Py.dget k acc' = Py.dget k acc.
Proof.
  unfold Compress.add_changes. intros H Hk.
  apply rbind_ok in H as (ch & _ & H). apply rbind_ok in H as (cc & _ & H).
  destruct ch; try discriminate. destruct cc; try discriminate.
  apply rbind_ok in H as (n & _ & H). apply rbind_ok in H as (n' & _ & H).
  apply rbind_ok in H as (ich & _ & H).
  injection H as <-. now apply dget_dset_ne.
Qed.

Lemma replace_changes_other info acc acc' k :
  Compress.replace_changes info acc = Ok acc' -> k <> "changes" ->
  Py.dget k acc' = Py.dget k acc.
Proof.
  unfold Compress.replace_changes. intros H Hk.
  apply rbind_ok in H as (n & _ & H). apply rbind_ok in H as (n' & _ & H).
  apply rbind_ok in H as (ich & _ & H).
  injection H as <-. now apply dget_dset_ne.
Qed.

Lemma Qltb_inject (a b : Z) : Py.Qltb (inject_Z a) (inject_Z b) = (a <? b).
Proof.
  unfold Py.Qltb, Qcompare, Z.ltb. simpl. now rewrite !Z.mul_1_r.
Qed.

(** What one merge does to the three figures *)
Lemma merge_timing info acc acc' ti ta :
  Compress.merge info acc = (acc', Ok tt) ->
  Compress.timing (VDict info) = Some ti ->
  Compress.timing (VDict acc) = Some ta ->
  Compress.timing (VDict acc') = Some (Compress.add_member ta ti).
Proof.
  unfold Compress.merge. intros H Hi Ha.
  unfold Compress.timing in Hi, Ha.
  destruct (Py.dget "__run_num__" info) as [[| |ni| | | |]|] eqn:Hin; try discriminate.
  destruct (Py.dget "duration" info) as [[| | |qi| | |]|] eqn:Hiq; try discriminate.
  destruct (Py.dget "start_time" info) as [[| | | |si| |]|] eqn:His; try discriminate.
  destruct (Py.dget "__run_num__" acc) as [[| |na| | | |]|] eqn:Han; try discriminate.
  destruct (Py.dget "duration" acc) as [[| | |qa| | |]|] eqn:Haq; try discriminate.
  destruct (Py.dget "start_time" acc) as [[| | | |sa| |]|] eqn:Has; try discriminate.
  injection Hi as <-. injection Ha as <-.
  cbn [app] in H.
  apply assign_all_cons in H as (a1 & H1 & H).
  apply assign_all_cons in H as (a2 & H2 & H).
  apply assign_all_cons in H as (a3 & H3 & H).
  unfold Compress.merge_run_num in H1. rewrite Hin, Han in H1. simpl in H1.
  rewrite Qltb_inject in H1. injection H1 as <-.
  unfold Compress.merge_duration in H2.
  rewrite Hiq, dget_dset_ne, Haq in H2 by discriminate. simpl in H2.
  injection H2 as <-.
  unfold Compress.merge_start_time in H3.
  rewrite His, !dget_dset_ne, Has in H3 by discriminate. simpl in H3.
  injection H3 as <-.
  match type of H with
  | Compress.assign_all _ ?a = _ =>
      assert (Hbase : Compress.timing (VDict a)
                      = Some (Compress.add_member (na, qa, sa) (ni, qi, si)))
  end.
  { unfold Compress.timing, Compress.add_member.
    rewrite dget_dset_ne, dget_dset_ne, dget_dset_eq by discriminate.
    rewrite dget_dset_ne, dget_dset_eq by discriminate.
    rewrite dget_dset_eq.
    replace (if na <? ni then VInt na else VInt ni) with (VInt (Z.min ni na)).
    2:{ destruct (Z.ltb_spec na ni); f_equal; lia. }
    destruct (String.ltb sa si); reflexivity. }
  rewrite <- Hbase.
  destruct (Py.truthy (default VNone (Py.dget "changes" acc))
            && Py.truthy (default VNone (Py.dget "changes" info))).
  - apply assign_all_cons in H as (b1 & Hb1 & H).
    apply assign_all_cons in H as (b2 & Hb2 & H).
    injection H as <-. apply timing_ext. intros k Hk.
    rewrite (add_changes_other _ _ _ _ Hb2 Hk).
    now rewrite (wrap_changes_other _ _ _ Hb1 Hk).
  - destruct (Py.truthy (default VNone (Py.dget "changes" info))).
    + apply assign_all_cons in H as (b1 & Hb1 & H). injection H as <-.
      apply timing_ext. intros k Hk.
      now rewrite (replace_changes_other _ _ _ _ Hb1 Hk).
    + injection H as <-. reflexivity.
Qed.

Lemma aggregate_snoc tf ts t :
  Compress.aggregate tf (ts ++ [t]) = Compress.add_member (Compress.aggregate tf ts) t.
Proof. unfold Compress.aggregate. now rewrite foldl_app. Qed.

Section Groups.
Context (repr : value -> string) (d : dict) (ks : list string) (K : string).
Hypothesis HK : K ∉ map fst d.
Hypothesis Htyped :
  Forall (fun e => is_Some (Compress.timing e.2)) (Compress.stored_under repr ks K d).

Lemma stored_under_snoc m e :
  d !! m = Some e ->
  Compress.stored_under repr ks K (take (S m) d)
  = Compress.stored_under repr ks K (take m d)
    ++ match Compress.stored_name repr ks e with
       | Ok n => if String.eqb n K then [e] else []
       | _ => []
       end.
Proof.
  intros H. rewrite (take_S_r _ _ _ H). unfold Compress.stored_under.
  rewrite List.filter_app. simpl.
  destruct (Compress.stored_name repr ks e) as [n| | |]; try reflexivity;
    destruct (String.eqb n K); reflexivity.
Qed.

Lemma member_typed m e :
  d !! m = Some e -> Compress.stored_name repr ks e = Ok K ->
  is_Some (Compress.timing e.2).
Proof.
  intros Hd Hn. rewrite Forall_forall in Htyped. apply Htyped.
  unfold Compress.stored_under. apply list_elem_of_In, filter_In. split.
  - apply list_elem_of_In. eapply list_elem_of_lookup_2; eauto.
  - rewrite Hn. apply String.eqb_refl.
Qed.

Lemma own_name_differs m tname info :
  d !! m = Some (tname, info) -> String.eqb tname K = false.
Proof.
  intros Hd. apply String.eqb_neq. intros ->. apply HK.
  apply list_elem_of_fmap. exists (K, info). split; [reflexivity |].
  eapply list_elem_of_lookup_2; eauto.
Qed.

(** One turn of the inner loop keeps the invariant. *)
Lemma step_inv m st st' :
  Compress.loop_inv repr d ks K m st -> (m < length d)%nat ->
  Compress.step repr ks m st = (st', Ok tt) ->
  Compress.loop_inv repr d ks K (S m) st'.
Proof.
  destruct st as [v heap].
  intros (Hlen & Hrest & Hview & Hgrp) Hm Hstep.
  cbn [fst snd] in Hlen, Hrest, Hview, Hgrp.
  destruct (lookup_lt_is_Some_2 d m Hm) as [[tname info] Hd].
  assert (Hh : heap !! m = Some (tname, info)) by (rewrite Hrest by lia; exact Hd).
  pose proof (stored_under_snoc m _ Hd) as Hsn.
  pose proof (own_name_differs m _ _ Hd) as Hown.
  unfold Compress.step in Hstep. rewrite Hh in Hstep.
  unfold Compress.stored_name in Hsn. cbn [fst snd] in Hsn.
  destruct (Compress.id_key repr tname info) as [_id| | |] eqn:Hid;
    try congruence.
  cbn [rbind] in Hsn.
  assert (Hview' : forall v' : Compress.view, forall name,
            Compress.stored_name repr ks (tname, info) = Ok name ->
            v' = Py.dset name m v ->
            forall n j, Py.dget n v' = Some j ->
              (j < S m)%nat
              /\ exists e, d !! j = Some e /\ Compress.stored_name repr ks e = Ok n).
  { intros v' name Hname -> n j Hj.
    destruct (String.eqb_spec n name) as [->|Hne].
    - rewrite dget_dset_eq in Hj. injection Hj as <-. split; [lia | eauto].
    - rewrite dget_dset_ne in Hj by exact Hne.
      destruct (Hview _ _ Hj) as [Hlt He]. split; [lia | exact He]. }
  assert (Hname : forall name,
            (if Compress.count ks _id =? 1 then Ok tname
             else Compress.compressed_name repr tname info (Compress.count ks _id))
            = Ok name ->
            Compress.stored_name repr ks (tname, info) = Ok name).
  { intros name Hn. unfold Compress.stored_name. cbn [fst snd]. rewrite Hid. exact Hn. }
  destruct (Compress.count ks _id =? 1) eqn:Hc.
  - (* an entry that is alone under its key keeps its name *)
    injection Hstep as <-. rewrite Hown, app_nil_r in Hsn.
    split; [exact Hlen |]. split; [intros i Hi; apply Hrest; lia |].
    split; [eapply Hview'; [apply Hname; reflexivity | reflexivity] |].
    rewrite Hsn. cbn [fst snd].
    assert (Hget : Py.dget K (Py.dset tname m v) = Py.dget K v).
    { apply dget_dset_ne. intros ->. now rewrite String.eqb_refl in Hown. }
    rewrite Hget. exact Hgrp.
  - destruct (Compress.compressed_name repr tname info (Compress.count ks _id))
      as [name| | |] eqn:Hcn; try congruence.
    specialize (Hname name eq_refl).
    destruct (Py.dget name v) as [j|] eqn:Hj.
    + (* a later member of a group is merged into the record of the group *)
      destruct info as [| | | | | |info]; try congruence.
      destruct (heap !! j) as [[tj [| | | | | |acc]]|] eqn:Hhj; try congruence.
      destruct (Compress.merge info acc) as [acc' r] eqn:Hmerge.
      injection Hstep as <- ->.
      destruct (Hview _ _ Hj) as [Hjm (ej & Hdj & Hnj)].
      split; [cbn [snd]; now rewrite length_insert |].
      split.
      { intros i Hi. cbn [snd]. rewrite list_lookup_insert_ne by lia.
        apply Hrest. lia. }
      split.
      { intros n j' Hj'. destruct (Hview _ _ Hj') as [Hlt He].
        split; [lia | exact He]. }
      rewrite Hsn. cbn [fst snd].
      destruct (String.eqb_spec name K) as [->|Hne].
      * destruct (Compress.stored_under repr ks K (take m d)) as [|f r];
          [congruence |].
        destruct Hgrp as (j0 & acc0 & tf & ts & Hj0 & Hdj0 & Hh0 & Htf & Hts & Hagg).
        assert (j0 = j) as -> by congruence.
        assert (tj = f.1 /\ acc0 = acc) as [-> ->] by (split; congruence).
        destruct (member_typed m _ Hd Hname) as [te Hte]. cbn [snd] in Hte.
        exists j, acc', tf, (ts ++ [te]). cbn [app].
        split; [exact Hj0 |]. split; [exact Hdj0 |].
        split; [apply list_lookup_insert_eq; eapply lookup_lt_Some; eauto |].
        split; [exact Htf |].
        split; [apply Forall2_app; [exact Hts | constructor; [exact Hte | constructor]] |].
        rewrite aggregate_snoc. eapply merge_timing; eauto.
      * rewrite app_nil_r.
        destruct (Compress.stored_under repr ks K (take m d)) as [|f r];
          [exact Hgrp |].
        destruct Hgrp as (j0 & acc0 & tf & ts & Hj0 & Hdj0 & Hh0 & Htf & Hts & Hagg).
        exists j0, acc0, tf, ts. repeat (split; [assumption |]).
        split; [| split; [exact Htf | split; [exact Hts | exact Hagg]]].
        rewrite list_lookup_insert_ne; [exact Hh0 |].
        intros ->. destruct (Hview _ _ Hj0) as [_ (e0 & He0 & Hn0)].
        congruence.
    + (* the first member of a group is stored as it is *)
      injection Hstep as <-.
      split; [exact Hlen |]. split; [intros i Hi; apply Hrest; lia |].
      split; [eapply Hview'; [exact Hname | reflexivity] |].
      rewrite Hsn. cbn [fst snd].
      destruct (String.eqb_spec name K) as [->|Hne].
      * destruct (Compress.stored_under repr ks K (take m d)) as [|f r].
        2:{ destruct Hgrp as (j0 & ? & ? & ? & Hj0 & _). congruence. }
        destruct (member_typed m _ Hd Hname) as [te Hte]. cbn [snd] in Hte.
        destruct info as [| | | | | |info]; try discriminate.
        exists m, info, te, []. cbn [app fst snd].
        split; [apply dget_dset_eq |]. split; [exact Hd |].
        split; [exact Hh |]. split; [exact Hte |].
        split; [constructor | exact Hte].
      * rewrite app_nil_r. rewrite dget_dset_ne by congruence. exact Hgrp.
Qed.

End Groups.

(** *** The aggregate is the minimum, the fold of rounded sums, the earliest *)

Lemma leb_refl (s : string) : String.leb s s = true.
Proof. apply Is_true_true. exact (@reflexivity _ String.le _ s). Qed.

Lemma leb_trans (a b c : string) :
  String.leb a b = true -> String.leb b c = true -> String.leb a c = true.
Proof.
  intros H1 H2. apply Is_true_true. apply Is_true_true in H1, H2.
  exact (@transitivity _ String.le _ a b c H1 H2).
Qed.

Lemma earlier_spec (a b : string) :
  let m := if String.ltb a b then a else b in
  String.leb m a = true /\ String.leb m b = true /\ (m = a \/ m = b).
Proof.
  unfold String.ltb. cbv zeta.
  destruct (String.compare a b) eqn:Hc.
  - apply String.compare_eq_iff in Hc as ->. auto using leb_refl.
  - split; [apply leb_refl |]. split; [| auto].
    unfold String.leb. now rewrite Hc.
  - split; [| split; [apply leb_refl | auto]].
    unfold String.leb. rewrite String.compare_antisym, Hc. reflexivity.
Qed.

Lemma aggregate_spec tf ts :
  let '(n, q, s) := Compress.aggregate tf ts in
  (forall t, t ∈ tf :: ts -> n <= t.1.1 /\ String.leb s t.2 = true)
  /\ (exists t, t ∈ tf :: ts /\ n = t.1.1)
  /\ (exists t, t ∈ tf :: ts /\ s = t.2)
  /\ q = foldl (fun a t => Py.round_to 3 (Qred (t.1.2 + a))) tf.1.2 ts.
Proof.
  induction ts as [|t ts IH] using rev_ind.
  - destruct tf as [[n q] s]. simpl. split; [| split; [| split]]; eauto.
    + intros t Ht. apply list_elem_of_singleton in Ht as ->. simpl.
      split; [lia | apply leb_refl].
    + exists (n, q, s). split; [left | reflexivity].
    + exists (n, q, s). split; [left | reflexivity].
  - rewrite aggregate_snoc, foldl_app.
    destruct (Compress.aggregate tf ts) as [[n q] s].
    destruct IH as (Hall & (tn & Htn & Hn) & (ts' & Hts & Hs) & Hq).
    destruct t as [[n' q'] s']. cbn [Compress.add_member foldl fst snd].
    destruct (earlier_spec s s') as (Hl1 & Hl2 & Hor).
    split; [| split; [| split]].
    + intros t Ht. rewrite app_comm_cons in Ht.
      apply elem_of_app in Ht as [Ht|Ht].
      * destruct (Hall t Ht) as [H1 H2]. split; [lia |].
        eapply leb_trans; [exact Hl1 | exact H2].
      * apply list_elem_of_singleton in Ht as ->. simpl. split; [lia | exact Hl2].
    + destruct (Z.min_spec n' n) as [[_ ->]|[_ ->]].
      * exists (n', q', s'). split; [| reflexivity].
        rewrite app_comm_cons. apply elem_of_app. right. left.
      * exists tn. split; [| exact Hn].
        rewrite app_comm_cons. apply elem_of_app. now left.
    + destruct Hor as [->| ->].
      * exists ts'. split; [| exact Hs].
        rewrite app_comm_cons. apply elem_of_app. now left.
      * exists (n', q', s'). split; [| reflexivity].
        rewrite app_comm_cons. apply elem_of_app. right. left.
    + now rewrite Hq.
Qed.

Lemma timings_unique (l : dict) (ts ts' : list (Z * Q * string)) :
  Forall2 (fun e t => Compress.timing e.2 = Some t) l ts ->
  Forall2 (fun e t => Compress.timing e.2 = Some t) l ts' ->
  ts = ts'.
Proof.
  intros H. revert ts'. induction H as [|e t l ts He _ IH]; intros ts' H'.
  - now inversion H'.
  - inversion H' as [|? t' ? ts'' He' Ht']; subst. f_equal; [congruence | auto].
Qed.

Section Loop.
Context (repr : value -> string) (d : dict) (ks : list string) (K : string).
Hypothesis HK : K ∉ map fst d.
Hypothesis Htyped :
  Forall (fun e => is_Some (Compress.timing e.2)) (Compress.stored_under repr ks K d).

Lemma steps_inv k m st st' :
  Compress.loop_inv repr d ks K m st -> (m + k <= length d)%nat ->
  Compress.steps repr ks (seq m k) st = (st', Ok tt) ->
  Compress.loop_inv repr d ks K (m + k) st'.
Proof.
  revert m st. induction k as [|k IH]; intros m st Hinv Hlen H.
  - simpl in H. injection H as <-. now rewrite Nat.add_0_r.
  - simpl in H. destruct (Compress.step repr ks m st) as [st1 r] eqn:Hstep.
    destruct r as [[]| | |]; try congruence.
    replace (m + S k)%nat with (S m + k)%nat by lia.
    apply (IH (S m) st1); [| lia | exact H].
    eapply step_inv; eauto. lia.
Qed.

Lemma loop_inv_start : Compress.loop_inv repr d ks K 0 ([], d).
Proof.
  split; [reflexivity |]. split; [reflexivity |].
  split; [intros n j; discriminate | reflexivity].
Qed.

End Loop.




(** ** Counts without compression (support for C1) *)

Lemma kinds_sum_add (key : Render.ckey) (n : Z) (rc : Render.counts) :
  kinds_sum (Render.count_add key n rc)
  = kinds_sum rc
    + (if decide (key = Render.KTrue \/ key = Render.KFalse \/ key = Render.KNone)
       then n else 0).
Proof.
  unfold kinds_sum. rewrite !count_of_add.
  destruct key as [|k p|str]; try (destruct k as [|[| |]|]); try destruct p;
    repeat case_decide; try discriminate; try lia;
    try (exfalso; intuition congruence); exfalso; intuition discriminate.
Qed.

Lemma ckey_of_tri_state (result : value) (key : Render.ckey) :
  tri_state result = true -> Render.ckey_of result = Ok key ->
  key = Render.KTrue \/ key = Render.KFalse \/ key = Render.KNone.
Proof.
  destruct result as [|[]| | | | |]; try discriminate; intros _ [= <-]; auto.
Qed.

Lemma entries_kept_lookup (d heap : dict) (i : nat) (k : string) (ret : dict) :
  entries_kept d heap -> heap !! i = Some (k, VDict ret) ->
  exists r0, d !! i = Some (k, r0)
             /\ match r0 with
                | VDict f0 => Py.dget "result" ret = Py.dget "result" f0
                | _ => False
                end.
Proof.
  intros H Hi. destruct (Forall2_lookup_r _ _ _ _ _ H Hi) as ([k0 r0] & Hd & Hk & Hr).
  simpl in Hk, Hr. subst k0. exists r0. split; [exact Hd |].
  destruct r0; simpl in Hr; try discriminate.
  destruct Hr as (f' & [= <-] & Hf). apply Hf; discriminate.
Qed.

Lemma filter_length_Forall2 {A B} (p : A -> bool) (q : B -> bool) l1 l2 :
  Forall2 (fun a b => p a = q b) l1 l2 ->
  length (List.filter p l1) = length (List.filter q l2).
Proof.
  induction 1 as [|a b l1 l2 Hab _ IH]; [reflexivity|].
  simpl. rewrite Hab. destruct (q b); simpl; now rewrite IH.
Qed.

Section PlainCounts.
Context (E : externals) (opts : options).
Context (ro : Z -> value -> res (value * value)).
Context (rfh : string -> value -> res (string * bool * value)).
Context (d : dict).
Hypothesis Hoff : state_compress_ids opts = false.
Hypothesis Htyped : Forall (fun kv => has_tri_state_result kv.2) d.

Lemma render_tasks_kinds indent tasks st st' :
  entries_kept d (Render.heap st) ->
  Render.render_tasks E opts ro rfh indent tasks st = Ok st' ->
  kinds_sum (Render.rcounts st')
  = kinds_sum (Render.rcounts st) + Z.of_nat (length tasks).
Proof.
  revert st. induction tasks as [|[tname i] tasks IH]; simpl; intros st Hk H.
  - injection H as <-. lia.
  - apply rbind_ok in H as (st1 & H1 & H).
    pose proof (render_task_heap _ _ _ _ _ _ _ _ _ H1) as Hheap.
    apply render_task_outcome in H1
      as (k & ret & result & key & count & schanged & act & tcolor & comps & ret1
          & ctext & lines & Hi & Hres & Hkey & Hcount & _ & _ & _ & _ & Hrc).
    rewrite (IH st1 (entries_kept_trans _ _ _ Hk Hheap) H), Hrc.
    assert (count = 1) as ->.
    { unfold Render.compressed_count in Hcount. rewrite Hoff in Hcount.
      simpl in Hcount. congruence. }
    assert (Hkind : key = Render.KTrue \/ key = Render.KFalse \/ key = Render.KNone).
    { destruct (entries_kept_lookup _ _ _ _ _ Hk Hi) as (r0 & Hd & Hr0).
      destruct r0 as [| | | | | |f0]; try contradiction.
      rewrite Forall_forall in Htyped.
      pose proof (Htyped _ (list_elem_of_lookup_2 _ _ _ Hd)) as Ht.
      simpl in Ht. rewrite <- Hr0, Hres in Ht.
      eapply ckey_of_tri_state; eauto. }
    assert (Hadd : kinds_sum (Render.count_add key 1 (Render.rcounts st))
                   = kinds_sum (Render.rcounts st) + 1).
    { rewrite kinds_sum_add. destruct (decide _); [lia | contradiction]. }
    destruct (match act with
              | Render.Full => Py.dhas "warnings" ret
              | _ => false
              end).
    + rewrite kinds_sum_add, Hadd.
      destruct (decide _) as [[?|[?|?]]|]; try discriminate. lia.
    + rewrite Hadd. lia.
Qed.

(** X1: without compression, the counts of the three kinds of result add
    up to the number of records of the host that have a [result], in every
    mode and whatever is skipped or rendered terse. *)
Lemma counts_without_compression indent st :
  NoDup (map fst d) ->
  Render.render_mapping E opts ro rfh indent (Render.own_view d) d = Ok st ->
  kinds_sum (Render.rcounts st)
  = Z.of_nat (length (List.filter (fun kv => Render.valid kv.2) d)).
Proof.
  intros Hnd H.
  assert (Hfst : map fst (Render.own_view d) = map fst d).
  { unfold Render.own_view. rewrite fmap_imap. clear.
    generalize 0%nat. induction d as [|kv d' IH]; intros n; [reflexivity|].
    simpl. f_equal. apply (IH (S n)). }
  assert (Hnd' : NoDup (map fst (Render.own_view d))) by (now rewrite Hfst).
  destruct (render_mapping_inv E opts ro rfh indent VNone _ _ _ Hnd' H)
    as (tasks & body & Hperm & Htasks & _).
  rewrite (render_tasks_kinds indent tasks (Render.initial E _ d) st
             (entries_kept_refl d) Htasks).
  change (kinds_sum (Render.rcounts (Render.initial E _ d))) with 0.
  rewrite (Permutation_length Hperm), Z.add_0_l. f_equal.
  apply filter_length_Forall2.
  apply Forall2_same_length_lookup_2; [apply length_imap |].
  intros i [t j] [k x] Hv Hd. unfold Render.own_view in Hv.
  rewrite list_lookup_imap, Hd in Hv. injection Hv as <- <-.
  simpl. unfold Render.info_at. now rewrite Hd.
Qed.

End PlainCounts.

Lemma counts_without_compression_witness :
  let opts := Sample.with_output "mixed" false false in
  let d := Fixture.failed_then_not_run in
  exists st,
    state_compress_ids opts = false
    /\ Forall (fun kv => has_tri_state_result kv.2) d
    /\ NoDup (map fst d)
    /\ Render.render_mapping Sample.plain opts Sample.no_output
         Sample.no_format_host 1 (Render.own_view d) d = Ok st
    /\ kinds_sum (Render.rcounts st)
       = Z.of_nat (length (List.filter (fun kv => Render.valid kv.2) d)).
Proof.
  intros opts d.
  assert (Htyped : Forall (fun kv => has_tri_state_result kv.2) d).
  { repeat (constructor; [reflexivity |]). constructor. }
  assert (Hnd : NoDup (map fst d)).
  { apply (bool_decide_unpack _). vm_compute. exact I. }
  eexists. split; [reflexivity |]. split; [exact Htyped |]. split; [exact Hnd |].
  split; [vm_compute; reflexivity |].
  apply (counts_without_compression Sample.plain opts Sample.no_output
           Sample.no_format_host d eq_refl Htyped 1); [exact Hnd |].
  vm_compute. reflexivity.
Defined.

(** ** The body of the loop returns on plain records *)

Section Returns.
Context (E : externals) (opts : options).
Context (ro : Z -> value -> res (value * value)).
Context (rfh : string -> value -> res (string * bool * value)).

Lemma setdefault_has (k : string) (v : value) (d : dict) :
  exists x, Py.dget k (Render.setdefault k v d) = Some x.
Proof.
  unfold Render.setdefault, Py.dhas.
  destruct (Py.dget k d) eqn:Hd; [eauto |]. rewrite dget_dset_eq. eauto.
Qed.

Lemma full_updates_returns (ret : dict) (c : value) :
  Py.dget "comment" ret = Some c ->
  exists ret', Render.full_updates E ret = Ok ret'
               /\ exists cv, Py.dget "comment" ret' = Some cv.
Proof.
  intros Hc. unfold Render.full_updates. rewrite Hc. cbn [of_option rbind].
  set (r1 := if Py.is_str c then ret
             else Py.dset "comment" (VStr (Py.str (repr E) c)) ret).
  assert (Hc1 : exists cv, Py.dget "comment" r1 = Some cv).
  { subst r1. destruct (Py.is_str c); [eauto |]. rewrite dget_dset_eq. eauto. }
  set (r2 := Render.setdefault "start_time" (VStr "") r1).
  destruct (setdefault_has "duration" (VStr "") r2) as [x Hx].
  rewrite Hx. cbn [of_option rbind]. eexists. split; [reflexivity |].
  destruct Hc1 as [cv Hcv]. exists cv.
  destruct (Py.eq_str x ""); rewrite ?dget_dset_ne by discriminate;
    subst r2; rewrite !dget_setdefault_ne by discriminate; exact Hcv.
Qed.


End Returns.


(** * Further properties *)

(** ** The order of the task loop *)

Section RunOrder.
Context {A : Type} (key : A -> value) (rn : A -> Z).

Lemma filter_none (n : Z) (l : list A) :
  Forall (fun y => n < rn y) l -> List.filter (fun e => rn e =? n) l = [].
Proof.
  induction 1 as [|y l Hy _ IH]; [reflexivity|].
  simpl. destruct (Z.eqb_spec (rn y) n); [lia | exact IH].
Qed.

Lemma insert_by_int (x : A) (l : list A) :
  key x = VInt (rn x) -> Forall (fun y => key y = VInt (rn y)) l ->
  StronglySorted (fun a b => rn a <= rn b) l ->
  exists l', Py.insert_by key x l = Ok l'
    /\ StronglySorted (fun a b => rn a <= rn b) l'
    /\ Forall (fun y => key y = VInt (rn y)) l'
    /\ forall n, List.filter (fun e => rn e =? n) l'
                 = List.filter (fun e => rn e =? n) l
                   ++ (if rn x =? n then [x] else []).
Proof.
  intros Hx Hl Hs. induction l as [|y l IH].
  - exists [x]. repeat split.
    + repeat constructor.
    + repeat constructor. exact Hx.
  - apply Forall_cons in Hl as [Hy Hl].
    apply StronglySorted_inv in Hs as [Hs Hall].
    cbn [Py.insert_by]. rewrite Hx, Hy. unfold Py.lt. cbn [Py.num].
    rewrite Qltb_inject. cbn [rbind].
    destruct (Z.ltb_spec (rn x) (rn y)) as [Hlt|Hge].
    + exists (x :: y :: l). split; [reflexivity |]. split; [| split].
      * constructor; [constructor; assumption |].
        constructor; [lia |]. eapply Forall_impl; [exact Hall |].
        intros z Hz. simpl in Hz. lia.
      * repeat constructor; assumption.
      * intros n. cbn [List.filter].
        destruct (Z.eqb_spec (rn x) n) as [<-|Hne].
        -- destruct (Z.eqb_spec (rn y) (rn x)); [lia |].
           rewrite filter_none; [reflexivity |].
           eapply Forall_impl; [exact Hall |]. intros z Hz. simpl in Hz. lia.
        -- now rewrite app_nil_r.
    + destruct (IH Hl Hs) as (l' & Hins & Hs' & Hk' & Hf).
      rewrite Hins. cbn [rbind]. exists (y :: l').
      split; [reflexivity |]. split; [| split].
      * constructor; [exact Hs' |].
        apply Forall_forall. intros z Hz.
        apply insert_by_perm in Hins. rewrite Hins in Hz.
        apply elem_of_cons in Hz as [->|Hz]; [lia |].
        rewrite Forall_forall in Hall. apply Hall. exact Hz.
      * constructor; assumption.
      * intros n. cbn [List.filter]. rewrite Hf.
        destruct (rn y =? n); reflexivity.
Qed.

Lemma sorted_by_int_gen (l acc : list A) :
  Forall (fun y => key y = VInt (rn y)) l ->
  Forall (fun y => key y = VInt (rn y)) acc ->
  StronglySorted (fun a b => rn a <= rn b) acc ->
  exists sl,
    foldl (fun acc x => do sl <- acc; Py.insert_by key x sl) (Ok acc) l = Ok sl
    /\ StronglySorted (fun a b => rn a <= rn b) sl
    /\ forall n, List.filter (fun e => rn e =? n) sl
                 = List.filter (fun e => rn e =? n) acc
                   ++ List.filter (fun e => rn e =? n) l.
Proof.
  intros Hl. revert acc. induction Hl as [|x l Hx Hl IH]; intros acc Hacc Hs.
  - exists acc. split; [reflexivity |]. split; [exact Hs |].
    intros n. now rewrite app_nil_r.
  - destruct (insert_by_int x acc Hx Hacc Hs) as (acc' & Hins & Hs' & Hk' & Hf).
    destruct (IH acc' Hk' Hs') as (sl & Hsl & Hss & Hfs).
    exists sl. cbn [foldl rbind]. rewrite Hins. split; [exact Hsl |].
    split; [exact Hss |]. intros n. rewrite Hfs, Hf. cbn [List.filter].
    rewrite <- app_assoc. destruct (rn x =? n); reflexivity.
Qed.

End RunOrder.



(** ** Compression with nothing to compress *)

Lemma id_keys_lookup repr (d : dict) ks m t info :
  Compress.id_keys repr d = Ok ks -> d !! m = Some (t, info) ->
  exists k, Compress.id_key repr t info = Ok k /\ ks !! m = Some k.
Proof.
  revert ks m. induction d as [|[t' info'] d IH]; intros ks m H Hm; [discriminate|].
  simpl in H. apply rbind_ok in H as (k & Hk & H).
  apply rbind_ok in H as (ks' & Hks & H). injection H as <-.
  destruct m as [|m]; simpl in Hm.
  - injection Hm as -> ->. eauto.
  - destruct (IH _ _ Hks Hm) as (k' & ? & ?). eauto.
Qed.

Lemma count_alone (ks : list string) (k : string) :
  NoDup ks -> k ∈ ks -> Compress.count ks k = 1.
Proof.
  unfold Compress.count. intros Hnd Hin.
  induction Hnd as [|x ks Hx Hnd IH]; [inversion Hin |].
  rewrite filter_cons. destruct (decide (x = k)) as [->|Hne].
  - assert (filter (fun k' => k' = k) ks = []) as ->; [| reflexivity].
    clear -Hx. induction ks as [|y ks IH]; [reflexivity|].
    apply not_elem_of_cons in Hx as [Hne Hx].
    rewrite filter_cons. destruct (decide (y = k)); [congruence | auto].
  - apply elem_of_cons in Hin as [->|Hin]; [congruence | auto].
Qed.

Lemma own_view_fst (d : dict) : map fst (Render.own_view d) = map fst d.
Proof.
  unfold Render.own_view. rewrite fmap_imap.
  generalize 0%nat. induction d as [|kv d' IH]; intros n; [reflexivity|].
  simpl. f_equal. apply (IH (S n)).
Qed.

Lemma own_view_lookup (d : dict) m t info :
  d !! m = Some (t, info) -> Render.own_view d !! m = Some (t, m).
Proof.
  intros H. unfold Render.own_view, Compress.view.
  now rewrite list_lookup_imap, H.
Qed.

Lemma steps_alone repr (d : dict) ks :
  NoDup (map fst d) -> Compress.id_keys repr d = Ok ks -> NoDup ks ->
  forall k m, (m + k = length d)%nat ->
    Compress.steps repr ks (seq m k) (take m (Render.own_view d), d)
    = ((Render.own_view d, d), Ok tt).
Proof.
  intros Hnd Hks Hndk. induction k as [|k IH]; intros m Hm.
  - simpl. rewrite take_ge; [reflexivity |].
    unfold Render.own_view. rewrite length_imap. lia.
  - cbn [seq Compress.steps].
    destruct (lookup_lt_is_Some_2 d m) as [[t info] Hd]; [lia |].
    destruct (id_keys_lookup _ _ _ _ _ _ Hks Hd) as (key & Hkey & Hkm).
    unfold Compress.step. rewrite Hd, Hkey.
    rewrite (count_alone ks key Hndk (list_elem_of_lookup_2 _ _ _ Hkm)).
    cbn [Z.eqb Pos.eqb].
    assert (Hfresh : t ∉ map fst (take m (Render.own_view d))).
    { rewrite fmap_take, own_view_fst. intros Hin.
      apply list_elem_of_lookup in Hin as (j & Hj).
      pose proof (lookup_lt_Some _ _ _ Hj) as Hlt. rewrite length_take in Hlt.
      rewrite lookup_take_lt in Hj by lia.
      assert (Hm' : map fst d !! m = Some t) by (rewrite list_lookup_fmap, Hd; reflexivity).
      pose proof (NoDup_lookup _ _ _ _ Hnd Hj Hm'). lia. }
    rewrite (dget_dset_fresh _ _ _ Hfresh).
    rewrite <- (take_S_r _ _ _ (own_view_lookup _ _ _ _ Hd)).
    apply IH. lia.
Qed.

(** Compression of a host in which no two records have the same key *)
Lemma compress_host_alone repr (d : dict) ks :
  NoDup (map fst d) -> Compress.id_keys repr d = Ok ks -> NoDup ks ->
  Compress.compress_host repr d = ((Render.own_view d, d), Ok tt).
Proof.
  intros Hnd Hks Hndk. unfold Compress.compress_host. rewrite Hks.
  exact (steps_alone repr d ks Hnd Hks Hndk (length d) 0 eq_refl).
Qed.

Lemma compress_ids_alone repr (data : dict) :
  Forall (fun h => exists d ks,
            h.2 = VDict d /\ NoDup (map fst d)
            /\ Compress.id_keys repr d = Ok ks /\ NoDup ks) data ->
  Compress.compress_ids repr data = Ok (Compress.Views (own_views data), data).
Proof.
  intros H. unfold Compress.compress_ids.
  assert (Hh : Compress.compress_hosts repr data = ((own_views data, data), Ok tt)).
  { induction H as [|[host v] data (d & ks & Hv & Hnd & Hks & Hndk) _ IH];
      [reflexivity |].
    simpl in Hv. subst v. cbn [Compress.compress_hosts].
    rewrite (compress_host_alone repr d ks Hnd Hks Hndk), IH. reflexivity. }
  now rewrite Hh.
Qed.

(** X4: when no two records of a host have the same key (module, ID, sls
    and result, joined), [_compress_ids] returns a mapping that holds every
    record under its own task name, in the order of the input, and does not
    change the input. *)
Theorem nothing_to_compress repr (data : dict) :
  Forall (fun h => exists d ks,
            h.2 = VDict d /\ NoDup (map fst d)
            /\ Compress.id_keys repr d = Ok ks /\ NoDup ks) data ->
  Compress.compress_ids repr data = Ok (Compress.Views (own_views data), data).
Proof. intros H. exact (compress_ids_alone repr data H). Qed.

Lemma nothing_to_compress_witness :
  let data : dict := [("minionA", VDict Fixture.two_ids)] in
  Forall (fun h => exists d ks,
            h.2 = VDict d /\ NoDup (map fst d)
            /\ Compress.id_keys (repr Sample.plain) d = Ok ks /\ NoDup ks) data
  /\ Compress.compress_ids (repr Sample.plain) data
     = Ok (Compress.Views (own_views data), data).
Proof.
  intros data.
  assert (H : Forall (fun h => exists d ks,
                h.2 = VDict d /\ NoDup (map fst d)
                /\ Compress.id_keys (repr Sample.plain) d = Ok ks /\ NoDup ks)
              data).
  { constructor; [| constructor].
    exists Fixture.two_ids, ["cmd_a_s_True"; "cmd_b_s_True"].
    split; [reflexivity |].
    split; [apply (bool_decide_unpack _); vm_compute; exact I |].
    split; [vm_compute; reflexivity |].
    apply (bool_decide_unpack _); vm_compute; exact I. }
  split; [exact H |].
  exact (nothing_to_compress (repr Sample.plain) data H).
Defined.

(** ** What compression keeps of its input *)

Section KeptBut.
Context (ks : list string).

Lemma fields_kept_but_refl f : fields_kept_but ks f f.
Proof. intros k _. reflexivity. Qed.

Lemma fields_kept_but_trans f g h :
  fields_kept_but ks f g -> fields_kept_but ks g h -> fields_kept_but ks f h.
Proof. intros H1 H2 k Hk. rewrite H2, H1 by assumption. reflexivity. Qed.

Lemma record_kept_but_refl r : record_kept_but ks r r.
Proof. destruct r; simpl; eauto using fields_kept_but_refl. Qed.

Lemma record_kept_but_trans r s t :
  record_kept_but ks r s -> record_kept_but ks s t -> record_kept_but ks r t.
Proof.
  destruct r; simpl; try (intros -> ?; assumption).
  intros (f' & -> & H1). simpl. intros (f'' & -> & H2).
  eauto using fields_kept_but_trans.
Qed.

Lemma entries_kept_but_refl d : entries_kept_but ks d d.
Proof. induction d; constructor; auto using record_kept_but_refl. Qed.

Lemma entries_kept_but_trans d1 d2 d3 :
  entries_kept_but ks d1 d2 -> entries_kept_but ks d2 d3 ->
  entries_kept_but ks d1 d3.
Proof.
  intros H. revert d3. induction H as [|e1 e2 d1 d2 [Hk Hr] _ IH]; intros d3 H'.
  - inversion H'. constructor.
  - inversion H' as [|? e3 ? d3' [Hk' Hr'] Ht]; subst. constructor.
    + split; [congruence | eauto using record_kept_but_trans].
    + apply IH. exact Ht.
Qed.

Lemma entries_kept_but_insert (heap : dict) (i : nat) (k : string) (f f' : dict) :
  heap !! i = Some (k, VDict f) -> fields_kept_but ks f f' ->
  entries_kept_but ks heap (<[i := (k, VDict f')]> heap).
Proof.
  revert i. induction heap as [|e heap IH]; intros i Hi Hf; [discriminate|].
  destruct i as [|i]; simpl in *.
  - injection Hi as ->. constructor; [| apply entries_kept_but_refl].
    split; [reflexivity |]. simpl. eauto.
  - constructor; [split; [reflexivity | apply record_kept_but_refl] |].
    now apply IH.
Qed.

Lemma entries_kept_but_lookup (d heap : dict) (i : nat) (k : string) (f' : dict) :
  entries_kept_but ks d heap -> heap !! i = Some (k, VDict f') ->
  exists f, d !! i = Some (k, VDict f) /\ fields_kept_but ks f f'.
Proof.
  intros H Hi. destruct (Forall2_lookup_r _ _ _ _ _ H Hi) as ([k0 r0] & Hd & Hk & Hr).
  simpl in Hk, Hr. subst k0.
  destruct r0 as [| | | | | |f]; simpl in Hr; try discriminate.
  destruct Hr as (f'' & [= <-] & Hf). eauto.
Qed.

Lemma host_kept_but_refl v : host_kept_but ks v v.
Proof. destruct v; simpl; eauto using entries_kept_but_refl. Qed.

Lemma report_kept_but_refl d : report_kept_but ks d d.
Proof. induction d; constructor; auto using host_kept_but_refl. Qed.

End KeptBut.

Lemma dset_kept_but (ks : list string) (k : string) (x : value) (f : dict) :
  k ∈ ks -> fields_kept_but ks f (Py.dset k x f).
Proof.
  intros Hin k' Hk'. apply dget_dset_ne. intros ->. contradiction.
Qed.

Lemma assign_all_kept (steps : list (dict -> res dict)) (acc acc' : dict) r :
  Forall (fun f => forall a a', f a = Ok a' -> fields_kept_but merged_fields a a')
         steps ->
  Compress.assign_all steps acc = (acc', r) ->
  fields_kept_but merged_fields acc acc'.
Proof.
  intros H. revert acc. induction H as [|f steps Hf _ IH]; intros acc Ha.
  - injection Ha as <- _. apply fields_kept_but_refl.
  - simpl in Ha. destruct (f acc) as [a1| | |] eqn:Hfa;
      try (injection Ha as <- _; apply fields_kept_but_refl).
    eapply fields_kept_but_trans; [eapply Hf; exact Hfa | eapply IH; exact Ha].
Qed.

Lemma changes_merged k : k ∉ merged_fields -> k <> "changes".
Proof. intros H ->. apply H. unfold merged_fields. do 3 right. left. Qed.

Lemma merge_kept_fields info acc acc' r :
  Compress.merge info acc = (acc', r) -> fields_kept_but merged_fields acc acc'.
Proof.
  unfold Compress.merge. apply assign_all_kept.
  apply Forall_app. split.
  - repeat constructor; intros a a' H.
    + unfold Compress.merge_run_num in H.
      apply rbind_ok in H as (x & _ & H). apply rbind_ok in H as (y & _ & H).
      apply rbind_ok in H as (m & _ & H). injection H as <-.
      apply dset_kept_but. left.
    + unfold Compress.merge_duration in H.
      apply rbind_ok in H as (x & _ & H). apply rbind_ok in H as (y & _ & H).
      apply rbind_ok in H as (s & _ & H). apply rbind_ok in H as (m & _ & H).
      injection H as <-. apply dset_kept_but. right. left.
    + unfold Compress.merge_start_time in H.
      apply rbind_ok in H as (x & _ & H). apply rbind_ok in H as (y & _ & H).
      apply rbind_ok in H as (m & _ & H). injection H as <-.
      apply dset_kept_but. do 2 right. left.
  - destruct (_ && _); [| destruct (Py.truthy _)]; repeat constructor;
      intros a a' H k Hk; apply changes_merged in Hk.
    + eapply wrap_changes_other; eauto.
    + eapply add_changes_other; eauto.
    + eapply replace_changes_other; eauto.
Qed.

Lemma step_kept repr ks i st st' r :
  Compress.step repr ks i st = (st', r) ->
  entries_kept_but merged_fields st.2 st'.2.
Proof.
  destruct st as [v heap]. unfold Compress.step.
  destruct (heap !! i) as [[tname info]|] eqn:Hi;
    [| intros [= <- _]; apply entries_kept_but_refl].
  destruct (Compress.id_key repr tname info) as [_id| | |];
    try (intros [= <- _]; apply entries_kept_but_refl).
  destruct (Compress.count ks _id =? 1);
    [intros [= <- _]; apply entries_kept_but_refl |].
  destruct (Compress.compressed_name repr tname info (Compress.count ks _id))
    as [name| | |]; try (intros [= <- _]; apply entries_kept_but_refl).
  destruct (Py.dget name v) as [j|];
    [| intros [= <- _]; apply entries_kept_but_refl].
  destruct info as [| | | | | |info];
    try (intros [= <- _]; apply entries_kept_but_refl).
  destruct (heap !! j) as [[tj [| | | | | |acc]]|] eqn:Hj;
    try (intros [= <- _]; apply entries_kept_but_refl).
  destruct (Compress.merge info acc) as [acc' r'] eqn:Hm.
  intros [= <- _]. cbn [snd].
  eapply entries_kept_but_insert; [exact Hj |].
  eapply merge_kept_fields; exact Hm.
Qed.

Lemma steps_kept repr ks idx st st' r :
  Compress.steps repr ks idx st = (st', r) ->
  entries_kept_but merged_fields st.2 st'.2.
Proof.
  revert st. induction idx as [|i idx IH]; intros st H.
  - injection H as <- _. apply entries_kept_but_refl.
  - simpl in H. destruct (Compress.step repr ks i st) as [st1 r1] eqn:Hs.
    pose proof (step_kept _ _ _ _ _ _ Hs) as H1.
    destruct r1 as [[]| | |]; try (injection H as <- _; exact H1).
    eapply entries_kept_but_trans; [exact H1 | eapply IH; exact H].
Qed.

Lemma compress_host_kept repr d v heap r :
  Compress.compress_host repr d = ((v, heap), r) ->
  entries_kept_but merged_fields d heap.
Proof.
  unfold Compress.compress_host.
  destruct (Compress.id_keys repr d) as [ks| | |];
    try (intros [= _ <- _]; apply entries_kept_but_refl).
  intros H. apply steps_kept in H. exact H.
Qed.

Lemma compress_hosts_kept repr data c data' r :
  Compress.compress_hosts repr data = ((c, data'), r) ->
  report_kept_but merged_fields data data'.
Proof.
  revert c data' r. induction data as [|[host v] data IH]; intros c data' r H.
  - injection H as _ <- _. constructor.
  - cbn [Compress.compress_hosts] in H.
    destruct v as [| | | | | |d];
      try (injection H as _ <- _; apply report_kept_but_refl).
    destruct (Compress.compress_host repr d) as [[v heap] r1] eqn:Hh.
    apply compress_host_kept in Hh.
    destruct r1 as [[]| | |].
    + destruct (Compress.compress_hosts repr data) as [[c1 rest] r2] eqn:Hr.
      injection H as _ <- _. constructor; [| eapply IH; reflexivity].
      split; [reflexivity |]. simpl. eauto.
    + injection H as _ <- _. constructor; [| apply report_kept_but_refl].
      split; [reflexivity |]. simpl. eauto.
    + injection H as _ <- _. constructor; [| apply report_kept_but_refl].
      split; [reflexivity |]. simpl. eauto.
    + injection H as _ <- _. constructor; [| apply report_kept_but_refl].
      split; [reflexivity |]. simpl. eauto.
Qed.

Lemma compress_ids_kept repr (data : dict) c data' :
  Compress.compress_ids repr data = Ok (c, data') ->
  report_kept_but merged_fields data data'.
Proof.
  unfold Compress.compress_ids.
  destruct (Compress.compress_hosts repr data) as [[c1 d1] r] eqn:H.
  apply compress_hosts_kept in H.
  destruct r as [[]| | |]; try discriminate; intros [= _ <-]; exact H.
Qed.

(** X5: whatever [_compress_ids] returns, the compressed mapping or the
    input after a failure, it leaves the hosts of the input and the task
    names of every host in place, and every field of every record as it was,
    apart from [__run_num__], [duration], [start_time] and [changes]. *)
Theorem compression_keeps_other_fields repr (data : dict) c data' :
  Compress.compress_ids repr data = Ok (c, data') ->
  report_kept_but merged_fields data data'.
Proof. intros H. exact (compress_ids_kept repr data c data' H). Qed.

Lemma compression_keeps_other_fields_witness :
  let data : dict := [("minionA", VDict Sample.missing_duration)] in
  exists c data',
    Compress.compress_ids (repr Sample.plain) data = Ok (c, data')
    /\ report_kept_but merged_fields data data'.
Proof.
  intros data. eexists _, _. split; [vm_compute; reflexivity |].
  eapply (compression_keeps_other_fields (repr Sample.plain) data).
  vm_compute. reflexivity.
Defined.

(** ** Texts *)

Lemma append_cons (c : Ascii.ascii) (a b : string) :
  String c a +:+ b = String c (a +:+ b).
Proof. reflexivity. Qed.

Lemma length_append (a b : string) :
  String.length (a +:+ b) = (String.length a + String.length b)%nat.
Proof.
  induction a as [|c a IH]; [reflexivity|].
  rewrite append_cons. simpl. now rewrite IH.
Qed.

Lemma append_assoc (a b c : string) : (a +:+ b) +:+ c = a +:+ (b +:+ c).
Proof.
  induction a as [|x a IH]; [reflexivity|].
  rewrite !append_cons. now rewrite IH.
Qed.

Lemma length_repeat_char (c : Ascii.ascii) (n : nat) :
  String.length (Str.repeat (String c "") n) = n.
Proof.
  induction n as [|n IH]; [reflexivity|].
  change (Str.repeat (String c "") (S n))
    with (String c (Str.repeat (String c "") n)).
  simpl. now rewrite IH.
Qed.

Lemma length_rjust (w : Z) (s : string) :
  String.length (Str.rjust w s) = Nat.max (Z.to_nat w) (String.length s).
Proof.
  unfold Str.rjust. rewrite length_append, length_repeat_char. lia.
Qed.

Lemma length_ljust (w : Z) (s : string) :
  String.length (Str.ljust w s) = Nat.max (Z.to_nat w) (String.length s).
Proof.
  unfold Str.ljust. rewrite length_append, length_repeat_char. lia.
Qed.

Lemma length_of_Z (n : Z) : (1 <= String.length (Str.of_Z n))%nat.
Proof.
  unfold Str.of_Z, NilZero.string_of_int.
  assert (Hu : forall d, (1 <= String.length (NilZero.string_of_uint d))%nat).
  { intros d. unfold NilZero.string_of_uint. destruct d; simpl; lia. }
  destruct (Z.to_int n); [apply Hu |]. simpl. lia.
Qed.

(** ** The width of the summary *)

Lemma Zmax_list_ge_gen (l : list Z) (a : Z) :
  a <= foldl Z.max a l /\ Forall (fun x => x <= foldl Z.max a l) l.
Proof.
  revert a. induction l as [|x l IH]; intros a; simpl; [split; [lia | constructor]|].
  destruct (IH (Z.max a x)) as [H1 H2]. split; [lia |].
  constructor; [lia | exact H2].
Qed.

Lemma count_width (rc : Render.counts) (k : Render.ckey) (n : Z) :
  Render.count_get k rc = Some n ->
  Z.of_nat (String.length (Str.of_Z n)) <= Render.line_max_len rc - 11.
Proof.
  intros H. unfold Render.line_max_len, Render.Zmax_list.
  destruct (Zmax_list_ge_gen
              (map (fun kn => Z.of_nat (String.length (Str.of_Z kn.2))) rc) 0)
    as [_ Hall].
  rewrite Forall_forall in Hall.
  assert (Hin : Z.of_nat (String.length (Str.of_Z n))
                ∈ map (fun kn => Z.of_nat (String.length (Str.of_Z kn.2))) rc).
  { apply list_elem_of_fmap. exists (k, n). split; [reflexivity |].
    clear -H. induction rc as [|[k' m] rc IH]; [discriminate|]. simpl in H.
    destruct (decide (k = k')) as [->|Hne].
    - injection H as ->. left.
    - right. auto. }
  specialize (Hall _ Hin). lia.
Qed.

Lemma line_max_len_ge (rc : Render.counts) : 11 <= Render.line_max_len rc.
Proof.
  unfold Render.line_max_len, Render.Zmax_list.
  destruct (Zmax_list_ge_gen
              (map (fun kn => Z.of_nat (String.length (Str.of_Z kn.2))) rc) 0)
    as [H _]. lia.
Qed.

Lemma line_max_len_counted (rc : Render.counts) :
  rc <> [] -> 12 <= Render.line_max_len rc.
Proof.
  destruct rc as [|[k n] rc]; [congruence |]. intros _.
  pose proof (count_width ((k, n) :: rc) k n) as H. simpl in H.
  destruct (decide (k = k)); [| congruence]. specialize (H eq_refl).
  pose proof (length_of_Z n). lia.
Qed.

Lemma counts_line_width (rc : Render.counts) (label count : string) :
  Z.of_nat (String.length label) + 2 + Z.of_nat (String.length count)
    <= Render.line_max_len rc ->
  String.length (Render.counts_line rc label count)
  = Z.to_nat (Render.line_max_len rc).
Proof.
  intros H. unfold Render.counts_line.
  rewrite !length_append, length_rjust. simpl. lia.
Qed.

(** X6: the summary is laid out on the width [line_max_len] of its ruler
    of dashes: the Failed line and the Warnings line always have exactly
    that width; the Succeeded line has it when something was counted and
    nothing is counted under [None], and is one character wider than the
    ruler when nothing was counted at all. *)
Theorem summary_lines_fit_the_ruler (rc : Render.counts) :
  let w := Z.to_nat (Render.line_max_len rc) in
  String.length (Str.repeat "-" w) = w
  /\ String.length
       (Render.counts_line rc "Failed" (Str.of_Z (Render.count_of Render.KFalse rc)))
     = w
  /\ (forall n, Render.count_get Render.KWarnings rc = Some n ->
        String.length (Render.counts_line rc "Warnings" (Str.of_Z n)) = w)
  /\ (rc <> [] -> Render.count_get Render.KNone rc = None ->
        String.length
          (Render.counts_line rc "Succeeded"
             (Str.of_Z (Render.count_of Render.KTrue rc
                        + Render.count_of Render.KNone rc))) = w)
  /\ (rc = [] ->
        String.length
          (Render.counts_line rc "Succeeded"
             (Str.of_Z (Render.count_of Render.KTrue rc
                        + Render.count_of Render.KNone rc))) = S w).
Proof.
  cbv zeta. split; [apply length_repeat_char |]. split; [| split; [| split]].
  - apply counts_line_width. unfold Render.count_of.
    destruct (Render.count_get Render.KFalse rc) as [n|] eqn:Hn; simpl.
    + pose proof (count_width _ _ _ Hn). lia.
    + pose proof (line_max_len_ge rc). lia.
  - intros n Hn. apply counts_line_width.
    pose proof (count_width _ _ _ Hn). simpl. lia.
  - intros Hrc Hnone. apply counts_line_width. unfold Render.count_of.
    rewrite Hnone. simpl. rewrite Z.add_0_r.
    destruct (Render.count_get Render.KTrue rc) as [n|] eqn:Hn; simpl.
    + pose proof (count_width _ _ _ Hn). lia.
    + pose proof (line_max_len_counted rc Hrc). lia.
  - intros ->. reflexivity.
Qed.

(** ** The tabular layout of terse entries *)

Lemma terse_word_width (result changes : value) :
  (String.length (terse_word result changes) <= 7)%nat.
Proof.
  unfold terse_word.
  destruct (Py.is_false result); [simpl; lia |].
  destruct (Py.is_none result); [simpl; lia |].
  destruct (Py.truthy changes); simpl; lia.
Qed.

Section Tabular.
Context (E : externals) (opts : options).

(** X7: with [state_tabular] set to [True], a terse entry without warnings
    and times ends in [Name: <name>] and the end code, and what precedes
    [Name:] is the colour code followed by 32 characters whenever module and
    function have at most ten characters each, so that the names of such
    entries start in the same column. *)
Theorem tabular_entries_align tcolor comps ret msg :
  state_tabular opts = VBool true ->
  Py.dget "warnings" ret = None ->
  Render.profiled opts ret = false ->
  Render.format_terse E opts tcolor comps ret = Ok msg ->
  exists module name fn head,
    comps !! 0%nat = Some module /\ comps !! 2%nat = Some name
    /\ last comps = Some fn
    /\ msg = head +:+ "Name: " +:+ name +:+ colors E "ENDC"
    /\ ((String.length module <= 10)%nat -> (String.length fn <= 10)%nat ->
        String.length head = (String.length tcolor + 32)%nat).
Proof.
  intros Ht Hw Hp. unfold Render.format_terse. rewrite Ht. intros H.
  apply rbind_ok in H as (w & Hword & H).
  apply outcome_word_spec in Hword as (result & changes & _ & _ & ->).
  unfold Render.terse_warnings in H. rewrite Hw, Hp in H. cbn [rbind] in H.
  apply rbind_ok in H as (c2 & H2 & H). apply of_option_ok in H2.
  apply rbind_ok in H as (c0 & H0 & H). apply of_option_ok in H0.
  apply rbind_ok in H as (cl & Hl & H). apply of_option_ok in Hl.
  cbn [rbind] in H. injection H as <-.
  exists c0, c2, cl,
    (tcolor +:+ Str.rjust 10 c0 +:+ "." +:+ Str.ljust 10 cl +:+ " "
       +:+ Str.ljust 7 (terse_word result changes) +:+ "   ").
  repeat (split; [assumption |]). split.
  - change ("" +:+ ?x) with x.
    change "   Name: " with ("   " +:+ "Name: ").
    now rewrite !append_assoc.
  - intros Hm Hf. pose proof (terse_word_width result changes).
    rewrite !length_append, length_rjust, !length_ljust. simpl. lia.
Qed.

End Tabular.

Lemma tabular_entries_align_witness :
  let comps := ["pkg"; "vim"; "vim"; "installed"] in
  exists msg,
    state_tabular Fixture.tabular = VBool true
    /\ Py.dget "warnings" Sample.vim_record = None
    /\ Render.profiled Fixture.tabular Sample.vim_record = false
    /\ Render.format_terse Sample.plain Fixture.tabular "" comps Sample.vim_record
       = Ok msg
    /\ exists module name fn head,
         comps !! 0%nat = Some module /\ comps !! 2%nat = Some name
         /\ last comps = Some fn
         /\ msg = head +:+ "Name: " +:+ name +:+ colors Sample.plain "ENDC"
         /\ ((String.length module <= 10)%nat -> (String.length fn <= 10)%nat ->
             String.length head = (String.length "" + 32)%nat).
Proof.
  intros comps. eexists.
  split; [reflexivity |]. split; [reflexivity |]. split; [reflexivity |].
  split; [vm_compute; reflexivity |].
  apply (tabular_entries_align Sample.plain Fixture.tabular "" comps
           Sample.vim_record).
  - reflexivity.
  - reflexivity.
  - reflexivity.
  - vm_compute. reflexivity.
Defined.

(** ** Records that are counted and not shown *)

Lemma dset_same {A} (k : string) (x : A) (d : list (string * A)) :
  Py.dget k d = Some x -> Py.dset k x d = d.
Proof.
  induction d as [|[k' y] d IH]; simpl; [discriminate|].
  destruct (String.eqb_spec k k') as [->|Hne].
  - now intros [= ->].
  - intros H. now rewrite IH.
Qed.

Section Hidden.
Context (E : externals) (opts : options).
Context (ro : Z -> value -> res (value * value)).
Context (rfh : string -> value -> res (string * bool * value)).

Lemma changes_of_unchanged indent count ret ch :
  Py.dget "changes" ret = Some ch -> Py.truthy ch = false ->
  Render.is_orch ret = false ->
  Render.changes_of E ro rfh indent count ret = Ok (false, "", 0, ret).
Proof.
  intros Hch Ht Ho. unfold Render.changes_of.
  rewrite Hch, Ho. cbn [of_option rbind]. unfold Render.format_changes.
  rewrite Ht. cbn [rbind negb andb].
  now rewrite (dset_same _ _ _ Hch).
Qed.

(** X8: a record with a true result and no changes that is hidden, because
    [state_verbose] is off or [state_output_diff] is on, adds no entry to
    the output and is left as it is, and is still counted under its result
    with its member count; the colour of the host line and the number of
    changes stay as they are. *)
Theorem hidden_success_is_counted indent tname i st k ret result ch key count dur :
  Render.heap st !! i = Some (k, VDict ret) ->
  Py.dget "result" ret = Some result -> Py.truthy result = true ->
  Py.dget "changes" ret = Some ch -> Py.truthy ch = false ->
  Render.is_orch ret = false ->
  Render.ckey_of result = Ok key ->
  Render.compressed_count opts tname = Ok count ->
  Render.duration_of E (default (VInt 0) (Py.dget "duration" ret)) = Ok dur ->
  state_verbose opts = false \/ state_output_diff opts = true ->
  exists st',
    Render.render_task E opts ro rfh indent tname i st = Ok st'
    /\ Render.hstrs st' = Render.hstrs st
    /\ Render.heap st' = Render.heap st
    /\ Render.hcolor st' = Render.hcolor st
    /\ Render.nchanges st' = Render.nchanges st
    /\ Render.rcounts st' = Render.count_add key count (Render.rcounts st).
Proof.
  intros Hi Hr Ht Hch Hcf Ho Hkey Hcount Hdur Hquiet.
  unfold Render.render_task.
  rewrite Hi, Hr. cbn [of_option rbind]. rewrite Hkey. cbn [rbind].
  rewrite Hcount. cbn [rbind]. rewrite Hdur. cbn [rbind].
  rewrite (changes_of_unchanged indent count ret ch Hch Hcf Ho). cbn [rbind].
  assert (Hs : Render.skipped opts result false = true).
  { unfold Render.skipped. rewrite Ht.
    destruct Hquiet as [-> | ->]; simpl; [apply orb_true_r | reflexivity]. }
  rewrite Hs. eexists. split; [reflexivity |].
  cbn [Render.hstrs Render.heap Render.hcolor Render.nchanges Render.rcounts
       Render.set_heap Render.add_nchanges].
  rewrite heap_tally, hstrs_tally, rcounts_tally.
  split; [reflexivity |]. split; [now apply list_insert_id |].
  split; [| split; [| reflexivity]].
  - unfold Render.tally. destruct dur; [destruct (Py.dhas _ _) |]; reflexivity.
  - unfold Render.tally. destruct dur; [destruct (Py.dhas _ _) |]; simpl; lia.
Qed.

End Hidden.

Lemma hidden_success_is_counted_witness :
  let opts := Sample.with_output "full" false false in
  let st := Render.initial Sample.plain [] Sample.vim_host in
  exists key count dur,
    Render.heap st !! 0%nat = Some (Sample.vim_name, VDict Sample.vim_record)
    /\ Py.dget "result" Sample.vim_record = Some (VBool true)
    /\ Py.truthy (VBool true) = true
    /\ Py.dget "changes" Sample.vim_record = Some (VDict [])
    /\ Py.truthy (VDict []) = false
    /\ Render.is_orch Sample.vim_record = false
    /\ Render.ckey_of (VBool true) = Ok key
    /\ Render.compressed_count opts Sample.vim_name = Ok count
    /\ Render.duration_of Sample.plain
         (default (VInt 0) (Py.dget "duration" Sample.vim_record)) = Ok dur
    /\ (state_verbose opts = false \/ state_output_diff opts = true)
    /\ exists st',
         Render.render_task Sample.plain opts Sample.no_output
           Sample.no_format_host 1 Sample.vim_name 0 st = Ok st'
         /\ Render.hstrs st' = Render.hstrs st
         /\ Render.heap st' = Render.heap st
         /\ Render.hcolor st' = Render.hcolor st
         /\ Render.nchanges st' = Render.nchanges st
         /\ Render.rcounts st' = Render.count_add key count (Render.rcounts st).
Proof.
  intros opts st. eexists _, _, _.
  split; [reflexivity |]. split; [reflexivity |]. split; [reflexivity |].
  split; [reflexivity |]. split; [reflexivity |]. split; [reflexivity |].
  split; [reflexivity |]. split; [reflexivity |]. split; [reflexivity |].
  split; [left; reflexivity |].
  eapply (hidden_success_is_counted Sample.plain opts Sample.no_output
            Sample.no_format_host 1 Sample.vim_name 0 st Sample.vim_name
            Sample.vim_record (VBool true) (VDict []));
    try reflexivity.
  left. reflexivity.
Defined.

(** ** The modes *)

Lemma startswith_distinct (s : string) (a b : Ascii.ascii) (p q : string) :
  a <> b -> Str.startswith s (String a p) = true ->
  Str.startswith s (String b q) = false.
Proof.
  unfold Str.startswith. destruct s as [|c s]; [discriminate|].
  cbn [String.prefix].
  destruct (Ascii.ascii_dec a c) as [<-|]; [| discriminate].
  intros Hne _. destruct (Ascii.ascii_dec b a); [congruence | reflexivity].
Qed.

Lemma is_false_not_truthy (v : value) : Py.is_false v = true -> Py.truthy v = false.
Proof. destruct v as [|[]| | | | |]; try discriminate. reflexivity. Qed.

Section Modes.
Context (E : externals) (opts : options).
Context (ro : Z -> value -> res (value * value)).
Context (rfh : string -> value -> res (string * bool * value)).

Lemma not_truthy_not_skipped (result : value) (schanged : bool) :
  Py.truthy result = false -> Render.skipped opts result schanged = false.
Proof.
  intros H. unfold Render.skipped. rewrite H.
  now rewrite !andb_false_r.
Qed.

(** One turn of the task loop: what it read, what it decided, and how many
    entries it added *)
Lemma render_task_lines indent tname i st st' :
  Render.render_task E opts ro rfh indent tname i st = Ok st' ->
  exists k ret result count schanged ctext n ret1 act lines,
    Render.heap st !! i = Some (k, VDict ret)
    /\ Py.dget "result" ret = Some result
    /\ Render.changes_of E ro rfh indent count ret = Ok (schanged, ctext, n, ret1)
    /\ Render.decide_action E opts result schanged = Ok act
    /\ Render.hstrs st' = Render.hstrs st ++ lines
    /\ match act with
       | Render.Skip => lines = []
       | Render.Terse => length lines = 1%nat
       | Render.Full => (6 <= length lines)%nat
       end.
Proof.
  intros H.
  apply render_task_inv in H
    as (k & ret & result & key & count & dur & schanged & ctext & n & ret1
        & Hi & Hres & Hkey & Hcount & Hdur & Hch & H).
  cbv zeta in H. unfold Render.decide_action.
  exists k, ret, result, count, schanged, ctext, n, ret1.
  destruct (Render.skipped opts result schanged) eqn:Hskip.
  - subst st'. exists Render.Skip, [].
    repeat (split; [assumption || reflexivity |]). split; [| reflexivity].
    unfold Render.before_skips. simpl. now rewrite hstrs_tally, app_nil_r.
  - destruct H as (comps & act & Hcomps & Hact & H).
    apply emit_hstrs in H as (lines & Hlines & Hem).
    exists act, lines. repeat (split; [assumption || reflexivity |]). split.
    + rewrite Hlines. unfold Render.before_skips. simpl. now rewrite hstrs_tally.
    + apply emitted_length in Hem. destruct act; try exact Hem.
      now destruct lines.
Qed.

(** X9: in a mode that starts with [mixed], a record whose result is
    [False] always gets a full block of at least six entries, and any other
    record at most one entry (the terse one, or none when it is hidden). *)
Theorem mixed_mode_outcome indent tname i st st' :
  Str.startswith (Str.lower (state_output opts)) "mixed" = true ->
  Render.render_task E opts ro rfh indent tname i st = Ok st' ->
  exists k ret result lines,
    Render.heap st !! i = Some (k, VDict ret)
    /\ Py.dget "result" ret = Some result
    /\ Render.hstrs st' = Render.hstrs st ++ lines
    /\ (if Py.is_false result then (6 <= length lines)%nat
        else (length lines <= 1)%nat).
Proof.
  intros Hmode H.
  apply render_task_lines in H
    as (k & ret & result & count & schanged & ctext & n & ret1 & act & lines
        & Hi & Hres & _ & Hact & Hlines & Hlen).
  exists k, ret, result, lines. repeat (split; [assumption |]).
  unfold Render.decide_action, Render.dispatch in Hact.
  rewrite (startswith_distinct _ "m" "f" _ "ilter") in Hact by (discriminate || exact Hmode).
  rewrite (startswith_distinct _ "m" "t" _ "erse") in Hact by (discriminate || exact Hmode).
  rewrite (startswith_distinct _ "m" "c" _ "hanges") in Hact by (discriminate || exact Hmode).
  rewrite Hmode in Hact. cbn [orb andb] in Hact.
  destruct (Py.is_false result) eqn:Hf.
  - rewrite (not_truthy_not_skipped _ _ (is_false_not_truthy _ Hf)) in Hact.
    cbn [negb orb] in Hact. injection Hact as <-. exact Hlen.
  - destruct (Render.skipped opts result schanged).
    + injection Hact as <-. subst lines. simpl. lia.
    + cbn [negb orb] in Hact. injection Hact as <-. lia.
Qed.

(** X10: in a mode that starts with [changes], a record with a true
    result and no changes gets at most one entry and every other record a
    full block of at least six entries; with [state_verbose] off no record
    gets exactly one entry, so that no terse entry is written at all. *)
Theorem changes_mode_outcome indent tname i st st' :
  Str.startswith (Str.lower (state_output opts)) "changes" = true ->
  Render.render_task E opts ro rfh indent tname i st = Ok st' ->
  exists k ret result count schanged ctext n ret1 lines,
    Render.heap st !! i = Some (k, VDict ret)
    /\ Py.dget "result" ret = Some result
    /\ Render.changes_of E ro rfh indent count ret = Ok (schanged, ctext, n, ret1)
    /\ Render.hstrs st' = Render.hstrs st ++ lines
    /\ (if Py.truthy result && negb schanged then (length lines <= 1)%nat
        else (6 <= length lines)%nat)
    /\ (state_verbose opts = false -> length lines <> 1%nat).
Proof.
  intros Hmode H.
  apply render_task_lines in H
    as (k & ret & result & count & schanged & ctext & n & ret1 & act & lines
        & Hi & Hres & Hch & Hact & Hlines & Hlen).
  exists k, ret, result, count, schanged, ctext, n, ret1, lines.
  repeat (split; [assumption |]).
  unfold Render.decide_action, Render.dispatch in Hact.
  rewrite (startswith_distinct _ "c" "f" _ "ilter") in Hact by (discriminate || exact Hmode).
  rewrite (startswith_distinct _ "c" "t" _ "erse") in Hact by (discriminate || exact Hmode).
  rewrite (startswith_distinct _ "c" "m" _ "ixed") in Hact by (discriminate || exact Hmode).
  rewrite Hmode in Hact. cbn [orb andb] in Hact.
  unfold Render.skipped in Hact.
  destruct (Py.truthy result) eqn:Ht; destruct schanged; cbn [negb andb orb] in *.
  - rewrite !andb_false_r in Hact. cbn [orb] in Hact. injection Hact as <-.
    split; [exact Hlen | lia].
  - rewrite !andb_true_r in Hact.
    destruct (state_output_diff opts || negb (state_verbose opts)) eqn:Hq.
    + injection Hact as <-. subst lines. split; [simpl; lia | simpl; lia].
    + injection Hact as <-. split; [lia |]. intros Hv. rewrite Hv in Hq.
      now rewrite orb_true_r in Hq.
  - rewrite !andb_false_r in Hact. cbn [orb] in Hact. injection Hact as <-.
    split; [exact Hlen | lia].
  - rewrite !andb_false_r in Hact. cbn [orb] in Hact. injection Hact as <-.
    split; [exact Hlen | lia].
Qed.

(** X11: in every mode whose name starts with none of [filter], [terse],
    [mixed] and [changes], and so in the mode [full], a record gets no entry
    when the diff or verbosity rule hides it and a full block of at least
    six entries otherwise. *)
Theorem other_modes_render_in_full indent tname i st st' :
  Str.startswith (Str.lower (state_output opts)) "filter" = false ->
  Str.startswith (Str.lower (state_output opts)) "terse" = false ->
  Str.startswith (Str.lower (state_output opts)) "mixed" = false ->
  Str.startswith (Str.lower (state_output opts)) "changes" = false ->
  Render.render_task E opts ro rfh indent tname i st = Ok st' ->
  exists k ret result count schanged ctext n ret1 lines,
    Render.heap st !! i = Some (k, VDict ret)
    /\ Py.dget "result" ret = Some result
    /\ Render.changes_of E ro rfh indent count ret = Ok (schanged, ctext, n, ret1)
    /\ Render.hstrs st' = Render.hstrs st ++ lines
    /\ (if Render.skipped opts result schanged then lines = []
        else (6 <= length lines)%nat).
Proof.
  intros Hf Ht Hm Hc H.
  apply render_task_lines in H
    as (k & ret & result & count & schanged & ctext & n & ret1 & act & lines
        & Hi & Hres & Hch & Hact & Hlines & Hlen).
  exists k, ret, result, count, schanged, ctext, n, ret1, lines.
  repeat (split; [assumption |]).
  unfold Render.decide_action, Render.dispatch in Hact.
  rewrite Hf, Ht, Hm, Hc in Hact. cbn [orb andb] in Hact.
  destruct (Render.skipped opts result schanged); injection Hact as <-; exact Hlen.
Qed.

End Modes.

Lemma mixed_mode_outcome_witness :
  let opts := Sample.with_output "mixed" true false in
  let st := Render.initial Sample.plain [] Fixture.failed_then_not_run in
  exists st',
    Str.startswith (Str.lower (state_output opts)) "mixed" = true
    /\ Render.render_task Sample.plain opts Sample.no_output Sample.no_format_host
         1 "cmd_|-a_|-a_|-run" 0 st = Ok st'
    /\ exists k ret result lines,
         Render.heap st !! 0%nat = Some (k, VDict ret)
         /\ Py.dget "result" ret = Some result
         /\ Render.hstrs st' = Render.hstrs st ++ lines
         /\ (if Py.is_false result then (6 <= length lines)%nat
             else (length lines <= 1)%nat).
Proof.
  intros opts st. eexists. split; [reflexivity |].
  split; [vm_compute; reflexivity |].
  apply (mixed_mode_outcome Sample.plain opts Sample.no_output
           Sample.no_format_host 1 "cmd_|-a_|-a_|-run" 0 st).
  - reflexivity.
  - vm_compute. reflexivity.
Defined.

Lemma changes_mode_outcome_witness :
  let opts := Sample.with_output "changes" true false in
  let st := Render.initial Sample.plain [] Fixture.one_changed in
  exists st',
    Str.startswith (Str.lower (state_output opts)) "changes" = true
    /\ Render.render_task Sample.plain opts Sample.no_output Sample.no_format_host
         1 "file_|-motd_|-/etc/motd_|-managed" 0 st = Ok st'
    /\ exists k ret result count schanged ctext n ret1 lines,
         Render.heap st !! 0%nat = Some (k, VDict ret)
         /\ Py.dget "result" ret = Some result
         /\ Render.changes_of Sample.plain Sample.no_output Sample.no_format_host
              1 count ret = Ok (schanged, ctext, n, ret1)
         /\ Render.hstrs st' = Render.hstrs st ++ lines
         /\ (if Py.truthy result && negb schanged then (length lines <= 1)%nat
             else (6 <= length lines)%nat)
         /\ (state_verbose opts = false -> length lines <> 1%nat).
Proof.
  intros opts st. eexists. split; [reflexivity |].
  split; [vm_compute; reflexivity |].
  apply (changes_mode_outcome Sample.plain opts Sample.no_output
           Sample.no_format_host 1 "file_|-motd_|-/etc/motd_|-managed" 0 st).
  - reflexivity.
  - vm_compute. reflexivity.
Defined.

Lemma other_modes_render_in_full_witness :
  let opts := Sample.with_output "full" true false in
  let st := Render.initial Sample.plain [] Sample.vim_host in
  exists st',
    Str.startswith (Str.lower (state_output opts)) "filter" = false
    /\ Str.startswith (Str.lower (state_output opts)) "terse" = false
    /\ Str.startswith (Str.lower (state_output opts)) "mixed" = false
    /\ Str.startswith (Str.lower (state_output opts)) "changes" = false
    /\ Render.render_task Sample.plain opts Sample.no_output Sample.no_format_host
         1 Sample.vim_name 0 st = Ok st'
    /\ exists k ret result count schanged ctext n ret1 lines,
         Render.heap st !! 0%nat = Some (k, VDict ret)
         /\ Py.dget "result" ret = Some result
         /\ Render.changes_of Sample.plain Sample.no_output Sample.no_format_host
              1 count ret = Ok (schanged, ctext, n, ret1)
         /\ Render.hstrs st' = Render.hstrs st ++ lines
         /\ (if Render.skipped opts result schanged then lines = []
             else (6 <= length lines)%nat).
Proof.
  intros opts st. eexists.
  split; [reflexivity |]. split; [reflexivity |]. split; [reflexivity |].
  split; [reflexivity |]. split; [vm_compute; reflexivity |].
  apply (other_modes_render_in_full Sample.plain opts Sample.no_output
           Sample.no_format_host 1 Sample.vim_name 0 st);
    [reflexivity | reflexivity | reflexivity | reflexivity |].
  vm_compute. reflexivity.
Defined.

(** ** The duration of a record that is rendered again *)

Lemma eqb_append_ms (s : string) : String.eqb (s +:+ " ms") "" = false.
Proof. destruct s; reflexivity. Qed.

Section Durations.
Context (E : externals).

Lemma full_updates_duration (ret ret' : dict) (d : value) :
  Render.full_updates E ret = Ok ret' ->
  Py.dget "duration" ret = Some d -> Py.eq_str d "" = false ->
  Py.dget "duration" ret' = Some (VStr (Py.str (repr E) d +:+ " ms")).
Proof.
  unfold Render.full_updates. intros H Hd He.
  apply rbind_ok in H as (c & _ & H).
  assert (Hd' : Py.dget "duration"
             (Render.setdefault "duration" (VStr "")
                (Render.setdefault "start_time" (VStr "")
                   (if Py.is_str c then ret
                    else Py.dset "comment" (VStr (Py.str (repr E) c)) ret)))
           = Some d).
  { unfold Render.setdefault at 1. unfold Py.dhas.
    assert (Hin : Py.dget "duration"
               (Render.setdefault "start_time" (VStr "")
                  (if Py.is_str c then ret
                   else Py.dset "comment" (VStr (Py.str (repr E) c)) ret))
             = Some d).
    { rewrite dget_setdefault_ne by discriminate.
      destruct (Py.is_str c); [exact Hd |].
      rewrite dget_dset_ne by discriminate. exact Hd. }
    now rewrite Hin. }
  rewrite Hd' in H. cbn [of_option rbind] in H. rewrite He in H.
  injection H as <-. apply dget_dset_eq.
Qed.


Lemma no_blank_cons (c : Ascii.ascii) (s : string) :
  Str.contains (String c s) " " = false ->
  c <> " "%char /\ Str.contains s " " = false.
Proof.
  cbn [Str.contains String.prefix]. intros H.
  apply orb_false_iff in H as [H1 H2]. split; [| exact H2].
  intros ->. destruct (Ascii.ascii_dec " " " "); [| congruence].
  destruct s; discriminate.
Qed.

Lemma before_unit (s t : string) (fuel : nat) :
  Str.contains s " " = false -> (String.length s < fuel)%nat ->
  Render.before " ms" (s +:+ " ms" +:+ t) fuel = s.
Proof.
  revert fuel. induction s as [|c s IH]; intros fuel Hs Hf.
  - destruct fuel; [simpl in Hf; lia |]. destruct t; reflexivity.
  - apply no_blank_cons in Hs as [Hc Hs].
    destruct fuel as [|fuel]; [simpl in Hf; lia |].
    rewrite append_cons. cbn [Render.before String.prefix].
    destruct (Ascii.ascii_dec " " c) as [<-|_]; [congruence |].
    f_equal. apply IH; [exact Hs | simpl in Hf; lia].
Qed.


End Durations.



(** ** Settings and names on which the loop raises *)

Section Raises.
Context (E : externals) (opts : options).
Context (ro : Z -> value -> res (value * value)).
Context (rfh : string -> value -> res (string * bool * value)).

(** A plain record up to the dispatch on the mode *)
Lemma render_task_plain indent tname i st k ret :
  Render.heap st !! i = Some (k, VDict ret) ->
  plain_record ret ->
  state_compress_ids opts = false ->
  exists r key dur,
    Py.dget "result" ret = Some r /\ tri_state r = true
    /\ Render.render_task E opts ro rfh indent tname i st
       = (let st1 := Render.before_skips k i key 1 dur ret ret 0 st in
          if Render.skipped opts r false then Ok st1
          else
            let colours := Render.task_colors E r false (Render.hcolor st1) in
            do comps <- Render.comps_of opts tname;
            do act <- Render.dispatch E opts r false;
            Render.emit E opts act colours.1 comps k i ret "" 
              (Render.set_hcolor colours.2 st1)).
Proof.
  intros Hi ((r & Hr & Htri) & Hch & Horch & (c & Hc) & Hw & Hdur) Hoff.
  assert (exists key, Render.ckey_of r = Ok key) as [key Hkey].
  { destruct r as [|[]| | | | |]; try discriminate; simpl; eauto. }
  assert (exists dur, Render.duration_of E (default (VInt 0) (Py.dget "duration" ret))
                      = Ok dur) as [dur Hd].
  { destruct (Py.dget "duration" ret) as [[| | | | | |]|]; try contradiction;
      simpl; eauto. }
  exists r, key, dur. split; [exact Hr |]. split; [exact Htri |].
  unfold Render.render_task. rewrite Hi, Hr. cbn [of_option rbind].
  rewrite Hkey. cbn [rbind]. unfold Render.compressed_count. rewrite Hoff.
  cbn [andb rbind]. rewrite Hd. cbn [rbind].
  rewrite (changes_of_unchanged E ro rfh indent 1 ret (VDict []) Hch eq_refl Horch).
  cbn [rbind]. reflexivity.
Qed.



End Raises.



(** ** Task names: [split] after [join] *)

Lemma prefix_empty (s : string) : String.prefix "" s = true.
Proof. destruct s; reflexivity. Qed.

Lemma rev_app_app (x y z : string) :
  String.rev_app (String.rev_app x y) z = String.rev_app y (x +:+ z).
Proof.
  revert y z. induction x as [|c x IH]; intros y z; [reflexivity|].
  cbn [String.rev_app]. rewrite IH. reflexivity.
Qed.

Lemma rev_rev_app (x : string) : String.rev (String.rev_app x "") = x.
Proof.
  unfold String.rev. rewrite rev_app_app. cbn [String.rev_app].
  apply append_empty_r.
Qed.

Lemma rev_app_spec (x y : string) : String.rev_app x y = String.rev x +:+ y.
Proof.
  unfold String.rev. revert y. induction x as [|c x IH]; intros y; [reflexivity|].
  cbn [String.rev_app]. rewrite (IH (String c y)), (IH (String c "")).
  now rewrite append_assoc.
Qed.

Lemma rev_append (x y : string) :
  String.rev (x +:+ y) = String.rev y +:+ String.rev x.
Proof.
  induction x as [|c x IH].
  - change ("" +:+ y) with y. now rewrite append_empty_r.
  - rewrite append_cons. unfold String.rev at 1 3. cbn [String.rev_app].
    rewrite !rev_app_spec, IH. now rewrite append_assoc.
Qed.

Lemma rev_involutive (x : string) : String.rev (String.rev x) = x.
Proof. apply rev_rev_app. Qed.

(** No separator begins inside a text that holds none, also when the
    separator follows the text. *)
Lemma sep_not_inside (c : Ascii.ascii) (x rest : string) :
  sep_free (String c x) ->
  String.prefix "_|-" (String c x +:+ "_|-" +:+ rest) = false.
Proof.
  unfold sep_free. intros H. rewrite append_cons. cbn [String.prefix].
  destruct (Ascii.ascii_dec "_" c) as [<-|]; [| reflexivity].
  destruct x as [|c' x]; [reflexivity |].
  rewrite append_cons. cbn [String.prefix].
  destruct (Ascii.ascii_dec "|" c') as [<-|]; [| reflexivity].
  destruct x as [|c'' x]; [reflexivity |].
  rewrite append_cons. cbn [String.prefix].
  destruct (Ascii.ascii_dec "-" c'') as [<-|]; [| reflexivity].
  exfalso. cbn [Str.contains] in H. apply orb_false_iff in H as [H _].
  cbn [String.prefix] in H.
  destruct (Ascii.ascii_dec "_" "_"); [| congruence].
  destruct (Ascii.ascii_dec "|" "|"); [| congruence].
  destruct (Ascii.ascii_dec "-" "-"); [| congruence].
  rewrite prefix_empty in H. discriminate.
Qed.

Lemma sep_free_tail (c : Ascii.ascii) (x : string) :
  sep_free (String c x) -> sep_free x.
Proof.
  unfold sep_free. cbn [Str.contains]. intros H.
  now apply orb_false_iff in H as [_ H].
Qed.

Lemma sep_free_head (c : Ascii.ascii) (x : string) :
  sep_free (String c x) -> String.prefix "_|-" (String c x) = false.
Proof.
  unfold sep_free. cbn [Str.contains]. intros H.
  now apply orb_false_iff in H as [H _].
Qed.

Lemma drop_sep (rest : string) : Str.drop 3 ("_|-" +:+ rest) = rest.
Proof. reflexivity. Qed.

(** A field that is followed by a separator *)
Lemma split_go_field (x cur rest : string) (fuel : nat) :
  sep_free x -> (String.length x < fuel)%nat ->
  Str.split_go "_|-" cur (x +:+ "_|-" +:+ rest) fuel
  = String.rev (String.rev_app x cur)
      :: Str.split_go "_|-" "" rest (fuel - String.length x - 1).
Proof.
  revert cur fuel. induction x as [|c x IH]; intros cur fuel Hx Hf.
  - destruct fuel as [|fuel]; [simpl in Hf; lia |].
    change ("" +:+ "_|-" +:+ rest) with (String "_" (String "|" (String "-" rest))).
    cbn [Str.split_go String.prefix].
    destruct (Ascii.ascii_dec "_" "_"); [| congruence].
    destruct (Ascii.ascii_dec "|" "|"); [| congruence].
    destruct (Ascii.ascii_dec "-" "-"); [| congruence].
    rewrite prefix_empty. cbn [String.length Str.drop String.rev_app].
    replace (S fuel - 0 - 1)%nat with fuel by lia. reflexivity.
  - destruct fuel as [|fuel]; [simpl in Hf; lia |].
    pose proof (sep_not_inside c x rest Hx) as Hp.
    rewrite append_cons in Hp |- *. cbn [Str.split_go]. rewrite Hp.
    rewrite IH; [| eapply sep_free_tail; exact Hx | simpl in Hf; lia].
    cbn [String.length String.rev_app].
    replace (S fuel - S (String.length x) - 1)%nat
      with (fuel - String.length x - 1)%nat by lia.
    reflexivity.
Qed.

(** The last field *)
Lemma split_go_last (x cur : string) (fuel : nat) :
  sep_free x -> (String.length x <= fuel)%nat ->
  Str.split_go "_|-" cur x fuel = [String.rev (String.rev_app x cur)].
Proof.
  revert cur fuel. induction x as [|c x IH]; intros cur fuel Hx Hf.
  - destruct fuel; reflexivity.
  - destruct fuel as [|fuel]; [simpl in Hf; lia |].
    cbn [Str.split_go]. rewrite (sep_free_head c x Hx).
    rewrite IH; [reflexivity | eapply sep_free_tail; exact Hx | simpl in Hf; lia].
Qed.

Lemma split_join_gen (x : string) (l : list string) (fuel : nat) :
  Forall sep_free (x :: l) ->
  (String.length (Str.join "_|-" (x :: l)) <= fuel)%nat ->
  Str.split_go "_|-" "" (Str.join "_|-" (x :: l)) fuel = x :: l.
Proof.
  revert x fuel. induction l as [|y l IH]; intros x fuel Hall Hf.
  - apply Forall_cons in Hall as [Hx _]. cbn [Str.join] in *.
    rewrite split_go_last by assumption. now rewrite rev_rev_app.
  - apply Forall_cons in Hall as [Hx Hl].
    change (Str.join "_|-" (x :: y :: l))
      with (x +:+ "_|-" +:+ Str.join "_|-" (y :: l)) in *.
    rewrite !length_append in Hf. cbn [String.length] in Hf.
    rewrite split_go_field; [| exact Hx | lia].
    rewrite rev_rev_app. f_equal. apply IH; [exact Hl | lia].
Qed.

Lemma split_join (x : string) (l : list string) :
  Forall sep_free (x :: l) ->
  Str.split "_|-" (Str.join "_|-" (x :: l)) = x :: l.
Proof. intros H. apply split_join_gen; [exact H | lia]. Qed.

(** ** The count in a compressed ID *)

Lemma all_digits_rev_app (x y : string) :
  all_digits (String.rev_app x y) = all_digits x && all_digits y.
Proof.
  revert y. induction x as [|c x IH]; intros y; [reflexivity|].
  cbn [String.rev_app all_digits]. rewrite IH. cbn [all_digits].
  destruct (Str.is_digit c), (all_digits x); reflexivity.
Qed.

Lemma all_digits_uint (d : Decimal.uint) :
  all_digits (NilEmpty.string_of_uint d) = true.
Proof. induction d; simpl; auto. Qed.

Lemma digits_value_acc (d : Decimal.uint) (acc : positive) :
  Str.digits_value (Zpos acc) (NilEmpty.string_of_uint d)
  = Zpos (Pos.of_uint_acc d acc).
Proof.
  revert acc.
  induction d; intros acc;
    cbn [NilEmpty.string_of_uint Str.digits_value Pos.of_uint_acc];
    [reflexivity | ..]; rewrite <- IHd; f_equal;
    try match goal with
        | |- context [Z.of_nat ?n] =>
            let v := eval vm_compute in (Z.of_nat n) in
            change (Z.of_nat n) with v
        end; lia.
Qed.

Lemma digits_value_uint (d : Decimal.uint) :
  Str.digits_value 0 (NilEmpty.string_of_uint d) = Z.of_N (Pos.of_uint d).
Proof.
  induction d; cbn [NilEmpty.string_of_uint Str.digits_value Pos.of_uint];
    [reflexivity | exact IHd | ..];
    cbn [Z.of_N]; rewrite <- digits_value_acc; f_equal.
Qed.

Lemma of_Z_digits (n : Z) :
  0 <= n ->
  all_digits (Str.of_Z n) = true /\ Str.digits_value 0 (Str.of_Z n) = n.
Proof.
  intros Hn. unfold Str.of_Z. destruct n as [|p|p]; [split; reflexivity | | lia].
  cbn [Z.to_int NilZero.string_of_int NilZero.string_of_uint].
  assert (Hs : NilZero.string_of_uint (Pos.to_uint p)
               = NilEmpty.string_of_uint (Pos.to_uint p)).
  { unfold NilZero.string_of_uint. destruct (Pos.to_uint p) eqn:Hp; try reflexivity.
    pose proof (Unsigned.of_to p) as H. rewrite Hp in H. discriminate. }
  rewrite Hs. split; [apply all_digits_uint |].
  rewrite digits_value_uint, Unsigned.of_to. reflexivity.
Qed.

Lemma leading_digits_all (x rest : string) :
  all_digits x = true ->
  Str.leading_digits (x +:+ String "(" rest) = (x, String "(" rest).
Proof.
  induction x as [|c x IH]; intros H; [reflexivity|].
  cbn [all_digits] in H. apply andb_true_iff in H as [Hc Hx].
  rewrite append_cons. cbn [Str.leading_digits]. rewrite Hc, (IH Hx). reflexivity.
Qed.

Lemma count_suffix_written (s : string) (n : Z) :
  0 <= n -> Str.count_suffix (s +:+ " (" +:+ Str.of_Z n +:+ ")") = Some n.
Proof.
  intros Hn. destruct (of_Z_digits n Hn) as [Hd Hv].
  pose proof (length_of_Z n) as Hlen.
  assert (Hrev0 : String.rev (s +:+ " (" +:+ Str.of_Z n +:+ ")")
                  = String ")" (String.rev (Str.of_Z n)
                                  +:+ String "(" (String " " (String.rev s)))).
  { rewrite !rev_append, !append_assoc. reflexivity. }
  assert (Hr : all_digits (String.rev (Str.of_Z n)) = true).
  { unfold String.rev. now rewrite all_digits_rev_app, Hd. }
  unfold Str.count_suffix. rewrite Hrev0. cbv beta iota zeta.
  replace (Ascii.eqb ")" (Ascii.ascii_of_nat 10)) with false by reflexivity.
  rewrite (leading_digits_all _ _ Hr).
  destruct (String.rev (Str.of_Z n)) as [|d ds] eqn:Hrev.
  - exfalso. apply (f_equal String.rev) in Hrev. rewrite rev_involutive in Hrev.
    rewrite Hrev in Hlen. simpl in Hlen. lia.
  - rewrite <- Hrev, rev_involutive, Hv. reflexivity.
Qed.

Lemma contains_append_r (x y sub : string) :
  Str.contains y sub = true -> Str.contains (x +:+ y) sub = true.
Proof.
  intros H. induction x as [|c x IH]; [exact H|].
  rewrite append_cons. cbn [Str.contains]. rewrite IH. apply orb_true_r.
Qed.

Lemma prefix_append (p y : string) : String.prefix p (p +:+ y) = true.
Proof.
  induction p as [|c p IH]; [apply prefix_empty |].
  rewrite append_cons. cbn [String.prefix].
  destruct (Ascii.ascii_dec c c); [exact IH | congruence].
Qed.

Lemma contains_prefix (s sub : string) :
  String.prefix sub s = true -> Str.contains s sub = true.
Proof. destruct s; cbn [Str.contains]; intros ->; reflexivity. Qed.

(** X16: the name that [_compress_ids] writes for a group is read back by
    [_format_host]: for a task name of four segments, and an ID, sls and
    result whose texts bring no separator into the two segments that are
    written, the compressed name splits into the module, the ID followed by
    the count in parentheses, the compressed key and the function, and the
    count that the renderer takes from it is the count that was written. *)
Theorem compressed_count_round_trip repr opts (c0 c1 c2 c3 : string)
    (info id sls r : value) (n : Z) :
  let new_id := Py.str repr id +:+ " (" +:+ Str.of_Z n +:+ ")" in
  let new_name :=
    Str.join "_" ["state_compressed"; Py.str repr sls; Py.str repr id;
                  Py.str repr r] in
  let tname' := Str.join "_|-" [c0; new_id; new_name; c3] in
  Forall sep_free [c0; c1; c2; c3; new_id; new_name] ->
  Py.item info "__id__" = Ok id -> Py.item info "__sls__" = Ok sls ->
  Py.item info "result" = Ok r ->
  0 <= n -> state_compress_ids opts = true ->
  Compress.compressed_name repr (Str.join "_|-" [c0; c1; c2; c3]) info n = Ok tname'
  /\ Str.split "_|-" tname' = [c0; new_id; new_name; c3]
  /\ Render.compressed_count opts tname' = Ok n.
Proof.
  intros new_id new_name tname' Hfree Hid Hsls Hr Hn Hon.
  assert (H0 : sep_free c0 /\ sep_free c1 /\ sep_free c2 /\ sep_free c3
               /\ sep_free new_id /\ sep_free new_name).
  { repeat (apply Forall_cons in Hfree as [? Hfree]). auto 10. }
  destruct H0 as (F0 & F1 & F2 & F3 & Fi & Fn).
  assert (Hsplit : Str.split "_|-" tname' = [c0; new_id; new_name; c3]).
  { apply split_join. repeat constructor; assumption. }
  split; [| split; [exact Hsplit |]].
  - unfold Compress.compressed_name.
    rewrite split_join by (repeat constructor; assumption).
    rewrite Hsls, Hid, Hr. reflexivity.
  - unfold Render.compressed_count. rewrite Hon, Hsplit.
    assert (Hc : Str.contains tname' "_|-state_compressed_" = true).
    { subst tname'. cbn [Str.join]. apply contains_append_r.
      apply contains_append_r with (x := "_|-" +:+ new_id).
      rewrite <- append_assoc. 
      apply contains_prefix. subst new_name. cbn [Str.join].
      change ("_|-" +:+ "state_compressed" +:+ "_" +:+ ?x)
        with ("_|-state_compressed_" +:+ x).
      generalize (Py.str repr sls +:+ "_" +:+ Py.str repr id +:+ "_" +:+ Py.str repr r).
      intros x. rewrite append_assoc. apply prefix_append. }
    rewrite Hc. cbn [andb]. subst new_id.
    rewrite (count_suffix_written _ _ Hn). reflexivity.
Qed.

Lemma compressed_count_round_trip_witness :
  let repr := repr Sample.plain in
  let opts := Sample.with_output "terse_id" true true in
  let info := Sample.task "x" "s" "a" (VBool true) 3 (VFloat 1) "10:00:03.000000" in
  let new_id := Py.str repr (VStr "x") +:+ " (" +:+ Str.of_Z 3 +:+ ")" in
  let new_name :=
    Str.join "_" ["state_compressed"; Py.str repr (VStr "s");
                  Py.str repr (VStr "x"); Py.str repr (VBool true)] in
  let tname' := Str.join "_|-" ["cmd"; new_id; new_name; "run"] in
  Forall sep_free ["cmd"; "x"; "a"; "run"; new_id; new_name]
  /\ Py.item info "__id__" = Ok (VStr "x")
  /\ Py.item info "__sls__" = Ok (VStr "s")
  /\ Py.item info "result" = Ok (VBool true)
  /\ 0 <= 3
  /\ state_compress_ids opts = true
  /\ Compress.compressed_name repr (Str.join "_|-" ["cmd"; "x"; "a"; "run"]) info 3
     = Ok tname'
  /\ Str.split "_|-" tname' = ["cmd"; new_id; new_name; "run"]
  /\ Render.compressed_count opts tname' = Ok 3.
Proof.
  intros repr opts info new_id new_name tname'.
  assert (Hfree : Forall sep_free ["cmd"; "x"; "a"; "run"; new_id; new_name]).
  { repeat (constructor; [vm_compute; reflexivity |]). constructor. }
  split; [exact Hfree |]. split; [reflexivity |]. split; [reflexivity |].
  split; [reflexivity |]. split; [lia |]. split; [reflexivity |].
  apply (compressed_count_round_trip repr opts "cmd" "x" "a" "run" info
           (VStr "x") (VStr "s") (VBool true) 3);
    try reflexivity; [exact Hfree | lia].
Defined.

(** ** The text of a report *)

Lemma length_join (sep x : string) (l : list string) :
  (String.length x <= String.length (Str.join sep (x :: l)))%nat.
Proof.
  destruct l as [|y l]; [simpl; lia |].
  change (Str.join sep (x :: y :: l)) with (x +:+ sep +:+ Str.join sep (y :: l)).
  rewrite length_append. lia.
Qed.

Section Texts.
Context (E : externals) (opts : options).
Context (ro : Z -> value -> res (value * value)).
Context (rfh : string -> value -> res (string * bool * value)).

Lemma length_banner (host : value) (hcolor : string) :
  (0 < String.length (Render.banner E opts host hcolor))%nat.
Proof.
  unfold Render.banner. rewrite !length_append. simpl. lia.
Qed.

Lemma length_host_text (b : string) (l : list string) :
  (0 < String.length b)%nat -> (0 < String.length (Str.join Str.nl (b :: l)))%nat.
Proof. intros H. pose proof (length_join Str.nl b l). lia. Qed.

Lemma format_host_view_text indent host v heap text c heap' :
  Render.format_host_view E opts ro rfh indent host v heap = Ok (text, c, heap') ->
  (0 < String.length text)%nat.
Proof.
  unfold Render.format_host_view. intros H.
  apply rbind_ok in H as (st & _ & H).
  assert (Ht : text = Str.join Str.nl
                        (Render.mapping_lines E opts (decode E (VStr host)) st))
    by congruence.
  rewrite Ht. apply length_host_text, length_banner.
Qed.

Lemma format_host_text indent host data text c data' :
  Render.format_host E opts ro rfh indent host data = Ok (text, c, data') ->
  (0 < String.length text)%nat.
Proof.
  unfold Render.format_host. intros H.
  destruct data as [| | | | | |d];
    [match type of H with
     | Ok (?t, _, _) = _ => assert (Ht : text = t) by congruence
     end; rewrite Ht;
     first [apply length_banner | apply length_host_text, length_banner] .. |].
  apply rbind_ok in H as ([[t c'] d'] & Hv & H). injection H as <- _ _.
  eapply format_host_view_text; exact Hv.
Qed.

Lemma format_hosts_texts indent data texts data' :
  Output.format_hosts E opts ro rfh indent data = Ok (texts, data') ->
  length texts = length data
  /\ Forall (fun t => (0 < String.length t)%nat) texts.
Proof.
  revert texts data'. induction data as [|[host hostdata] data IH];
    simpl; intros texts data' H.
  - injection H as <- _. split; [reflexivity | constructor].
  - apply rbind_ok in H as ([[text c] hostdata'] & Hh & H).
    apply rbind_ok in H as ([texts' rest] & Hr & H). injection H as <- _.
    destruct (IH _ _ Hr) as [Hlen Hall]. split; [simpl; now rewrite Hlen |].
    constructor; [eapply format_host_text; exact Hh | exact Hall].
Qed.

Lemma format_views_texts indent c data texts data' :
  Output.format_views E opts ro rfh indent c data = Ok (texts, data') ->
  length texts = length c
  /\ Forall (fun t => (0 < String.length t)%nat) texts.
Proof.
  revert data texts data'. induction c as [|[host v] c IH];
    simpl; intros data texts data' H.
  - injection H as <- _. split; [reflexivity | constructor].
  - destruct (Py.dget host data) as [[| | | | | |heap]|]; try discriminate.
    apply rbind_ok in H as ([[text ch] heap'] & Hh & H).
    apply rbind_ok in H as ([texts' rest] & Hr & H). injection H as <- _.
    destruct (IH _ _ _ Hr) as [Hlen Hall]. split; [simpl; now rewrite Hlen |].
    constructor; [eapply format_host_view_text; exact Hh | exact Hall].
Qed.

End Texts.

Lemma compress_hosts_length repr data c data' :
  Compress.compress_hosts repr data = ((c, data'), Ok tt) ->
  length c = length data.
Proof.
  revert c data'. induction data as [|[host v] data IH]; intros c data' H.
  - now injection H as <- _.
  - cbn [Compress.compress_hosts] in H.
    destruct v as [| | | | | |d]; try discriminate.
    destruct (Compress.compress_host repr d) as [[v heap] r1].
    destruct r1 as [[]| | |]; try discriminate.
    destruct (Compress.compress_hosts repr data) as [[c1 rest] r2] eqn:Hr.
    injection H as <- _ ->. simpl. f_equal. eapply IH. reflexivity.
Qed.

Lemma ddel_other {A} (k k' : string) (d : list (string * A)) :
  k' <> k -> k' ∈ map fst d -> Py.ddel k d <> [].
Proof.
  intros Hne Hin. destruct d as [|[k0 x] d]; [inversion Hin |].
  simpl. destruct (String.eqb_spec k k0) as [<-|]; [| discriminate].
  simpl in Hin. apply elem_of_cons in Hin as [?|Hin]; [congruence |].
  destruct d; [inversion Hin | discriminate].
Qed.

Lemma discard_retcode_nil (d : dict) : Output.discard_retcode d = [] -> d = [].
Proof.
  unfold Output.discard_retcode, Output.orchestrator_output.
  destruct (Py.dhas "retcode" d); cbn [andb]; [| auto].
  destruct (filter (fun k => Str.endswith k "_master" = true) (map fst d))
    as [|k [|? ?]] eqn:Hf; cbn [length Nat.eqb]; auto.
  intros H. exfalso. eapply (ddel_other "retcode" k); [| | exact H].
  - intros ->. 
    assert (Hin : "retcode" ∈ filter (fun k => Str.endswith k "_master" = true) (map fst d))
      by (rewrite Hf; left).
    apply list_elem_of_filter in Hin as [Hin _]. discriminate.
  - assert (Hin : k ∈ filter (fun k => Str.endswith k "_master" = true) (map fst d))
      by (rewrite Hf; left).
    now apply list_elem_of_filter in Hin as [_ Hin].
Qed.

(** X17: for data that is a mapping once the envelopes are removed,
    [output] returns the empty text exactly when the mapping has no host:
    every host contributes a text that is not empty, with compression on or
    off. *)
Theorem output_empty_iff_no_hosts E opts fuel indent data0 (d : dict) text post :
  Output.normalize data0 = Ok (VDict d) ->
  Output.output E opts fuel indent data0 = Ok (VStr text, post) ->
  (text = "" <-> d = []).
Proof.
  intros Hn H. destruct fuel as [|fuel]; [discriminate |].
  cbn [Output.output] in H. unfold Output.output_body in H.
  unfold Output.normalize in Hn.
  destruct (Output.normalize_path data0) as [[data path]| | |]; try discriminate.
  cbn [rbind] in Hn, H. injection Hn as ->. cbn [Py.is_int Py.is_str orb] in H.
  apply rbind_ok in H as ([texts d'] & Hf & H). injection H as <- _.
  assert (Hlen : length texts = length (Output.discard_retcode d)
                 /\ Forall (fun t => (0 < String.length t)%nat) texts).
  { destruct (state_compress_ids opts).
    - apply rbind_ok in Hf as ([c d1] & Hc & Hf).
      pose proof (compress_ids_kept _ _ _ _ Hc) as Hk.
      apply Forall2_length in Hk.
      unfold Compress.compress_ids in Hc.
      destruct (Compress.compress_hosts (repr E) (Output.discard_retcode d))
        as [[c1 d2] r] eqn:Hh.
      destruct r as [[]| | |]; try discriminate; injection Hc as <- <-.
      + apply compress_hosts_length in Hh.
        apply format_views_texts in Hf as [Hl Ha]. split; [congruence | exact Ha].
      + apply format_hosts_texts in Hf as [Hl Ha]. split; [congruence | exact Ha].
    - now apply format_hosts_texts in Hf. }
  destruct Hlen as [Hlen Hall]. split.
  - intros Ht. apply discard_retcode_nil.
    destruct texts as [|t texts]; [now destruct (Output.discard_retcode d) |].
    apply Forall_cons in Hall as [Hpos _].
    pose proof (length_join Str.nl t texts) as Hj. rewrite Ht in Hj.
    simpl in Hj. lia.
  - intros ->. destruct texts; [reflexivity | discriminate].
Qed.

Lemma output_empty_iff_no_hosts_witness :
  let opts := Sample.with_output "full" true true in
  exists text post,
    Output.normalize Sample.vim_report = Ok (VDict [("minionA", VDict Sample.vim_host)])
    /\ Output.output Sample.plain opts 2 1 Sample.vim_report = Ok (VStr text, post)
    /\ (text = "" <-> [("minionA", VDict Sample.vim_host)] = []).
Proof.
  intros opts. eexists _, _. split; [reflexivity |].
  split; [vm_compute; reflexivity |].
  eapply (output_empty_iff_no_hosts Sample.plain opts 2 1 Sample.vim_report).
  - reflexivity.
  - vm_compute. reflexivity.
Defined.

(** ** The number of changes in the summary *)

Lemma filter_length_perm {A} (p : A -> bool) (l l' : list A) :
  l ≡ₚ l' -> length (List.filter p l) = length (List.filter p l').
Proof.
  induction 1 as [|x l l' _ IH|x y l|l1 l2 l3 _ IH1 _ IH2]; simpl.
  - reflexivity.
  - destruct (p x); simpl; congruence.
  - destruct (p x), (p y); reflexivity.
  - congruence.
Qed.

Lemma filter_filter_length {A} (p q : A -> bool) (l : list A) :
  length (List.filter p (List.filter q l))
  = length (List.filter (fun x => q x && p x) l).
Proof.
  induction l as [|x l IH]; [reflexivity|].
  simpl. destruct (q x); simpl; [destruct (p x); simpl |]; congruence.
Qed.

Section Changed.
Context (E : externals) (opts : options).
Context (ro : Z -> value -> res (value * value)).
Context (rfh : string -> value -> res (string * bool * value)).

Lemma changes_of_flat indent (ret : dict) (ch : value) :
  flat_record (VDict ret) -> Py.dget "changes" ret = Some ch ->
  Render.changes_of E ro rfh indent 1 ret
  = Ok (Py.truthy ch, flat_ctext E ch, if Py.truthy ch then 1 else 0, ret).
Proof.
  intros [Ho Hflat] Hch. rewrite Hch in Hflat.
  unfold Render.changes_of. rewrite Hch, Ho. cbn [of_option rbind].
  unfold Render.format_changes, flat_ctext.
  destruct (Py.truthy ch) eqn:Ht; cbn [negb].
  - destruct ch as [| | | | | |c];
      try (cbn [rbind andb Z.ltb Z.compare Pos.compare Pos.compare_cont];
           rewrite (dset_same _ _ _ Hch); reflexivity).
    destruct Hflat as [Hret | Hout].
    + rewrite Hret. cbn [rbind andb Z.ltb Z.compare Pos.compare Pos.compare_cont].
      rewrite (dset_same _ _ _ Hch). reflexivity.
    + rewrite Hout.
      destruct (default VNone (Py.dget "ret" c));
        cbn [rbind andb Z.ltb Z.compare Pos.compare Pos.compare_cont];
        rewrite (dset_same _ _ _ Hch); reflexivity.
  - cbn [rbind andb]. rewrite (dset_same _ _ _ Hch). reflexivity.
Qed.

Lemma shown_other (k : string) (f f' : dict) :
  fields_kept_but shown_fields f f' ->
  k <> "comment" -> k <> "start_time" -> k <> "duration" ->
  Py.dget k f' = Py.dget k f.
Proof.
  intros H Hc Hs Hd. apply H. unfold shown_fields. intros Hin.
  repeat (apply elem_of_cons in Hin as [Hin|Hin]; [congruence |]).
  inversion Hin.
Qed.

Lemma flat_record_kept (f f' : dict) :
  fields_kept_but shown_fields f f' ->
  flat_record (VDict f) -> flat_record (VDict f').
Proof.
  intros Hk [Ho Hc]. unfold flat_record, Render.is_orch in *.
  rewrite (shown_other "name" _ _ Hk), (shown_other "changes" _ _ Hk)
    by discriminate.
  auto.
Qed.

Lemma full_updates_shown (ret ret' : dict) :
  Render.full_updates E ret = Ok ret' -> fields_kept_but shown_fields ret ret'.
Proof.
  intros H k Hk.
  assert (Hn : k <> "comment" /\ k <> "start_time" /\ k <> "duration").
  { unfold shown_fields in Hk. repeat split; intros ->; apply Hk.
    - left.
    - right. left.
    - do 2 right. left. }
  destruct Hn as (? & ? & ?). eapply full_updates_other; eauto.
Qed.

(** One turn of the loop on a record without an embedded report, with
    compression off: the record keeps every field but the three of a full
    block, and the number of changes grows by one when it has changes. *)
Lemma render_task_changed (d : dict) indent tname i st st' :
  state_compress_ids opts = false ->
  Forall (fun kv => flat_record kv.2) d ->
  entries_kept_but shown_fields d (Render.heap st) ->
  Render.render_task E opts ro rfh indent tname i st = Ok st' ->
  entries_kept_but shown_fields d (Render.heap st')
  /\ Render.nchanges st'
     = Render.nchanges st
       + (if has_changes (Render.info_at d i) then 1 else 0).
Proof.
  intros Hoff Hflat Hk H.
  apply render_task_inv in H
    as (k & ret & result & key & count & dur & schanged & ctext & n & ret1
        & Hi & Hres & Hkey & Hcount & Hdur & Hch & H).
  cbv zeta in H.
  assert (count = 1) as ->.
  { unfold Render.compressed_count in Hcount. rewrite Hoff in Hcount.
    simpl in Hcount. congruence. }
  destruct (entries_kept_but_lookup _ _ _ _ _ _ Hk Hi) as (f0 & Hd & Hf0).
  assert (Hfl : flat_record (VDict ret)).
  { eapply flat_record_kept; [exact Hf0 |].
    rewrite Forall_forall in Hflat.
    exact (Hflat _ (list_elem_of_lookup_2 _ _ _ Hd)). }
  assert (exists ch, Py.dget "changes" ret = Some ch) as [ch Hc].
  { unfold Render.changes_of in Hch. apply rbind_ok in Hch as (ch & Hc & _).
    apply of_option_ok in Hc. eauto. }
  rewrite (changes_of_flat indent ret ch Hfl Hc) in Hch. injection Hch as <- <- <- <-.
  assert (Hhas : has_changes (Render.info_at d i) = Py.truthy ch).
  { unfold Render.info_at. rewrite Hd. cbn [has_changes].
    rewrite <- (shown_other "changes" _ _ Hf0) by discriminate.
    now rewrite Hc. }
  rewrite Hhas.
  assert (Hbase : Render.heap (Render.before_skips k i key 1 dur ret ret
                                 (if Py.truthy ch then 1 else 0) st)
                  = Render.heap st).
  { unfold Render.before_skips. simpl. rewrite heap_tally.
    now apply list_insert_id. }
  assert (Hn : Render.nchanges (Render.before_skips k i key 1 dur ret ret
                                  (if Py.truthy ch then 1 else 0) st)
               = Render.nchanges st + (if Py.truthy ch then 1 else 0)).
  { unfold Render.before_skips, Render.tally. simpl.
    destruct dur; [destruct (Py.dhas _ _) |]; reflexivity. }
  destruct (Render.skipped opts result (Py.truthy ch)).
  - subst st'. rewrite Hbase, Hn. auto.
  - destruct H as (comps & act & Hcomps & Hact & H).
    destruct act; simpl in H.
    + injection H as <-. cbn [Render.heap Render.nchanges Render.set_hcolor].
      rewrite Hbase, Hn. auto.
    + apply rbind_ok in H as (msg & _ & H). injection H as <-.
      cbn [Render.heap Render.nchanges Render.set_hcolor Render.add_hstrs].
      rewrite Hbase, Hn. auto.
    + apply rbind_ok in H as (ret' & Hret' & H).
      apply rbind_ok in H as (block & _ & H).
      apply rbind_ok in H as (wl & _ & H).
      assert (Hheap : Render.heap st' = <[i := (k, VDict ret')]> (Render.heap st)
                      /\ Render.nchanges st'
                         = Render.nchanges st + (if Py.truthy ch then 1 else 0)).
      { injection H as <-. destruct (Py.dhas "warnings" ret');
          cbn [Render.heap Render.nchanges Render.set_hcolor Render.add_hstrs
               Render.set_heap Render.set_rcounts];
          rewrite heap_tally, list_insert_insert_eq;
          (split; [reflexivity | exact Hn]). }
      destruct Hheap as [-> ->]. split; [| reflexivity].
      eapply entries_kept_but_trans; [exact Hk |].
      eapply entries_kept_but_insert; [exact Hi |].
      eapply full_updates_shown; exact Hret'.
Qed.

Lemma render_tasks_changed (d : dict) indent tasks st st' :
  state_compress_ids opts = false ->
  Forall (fun kv => flat_record kv.2) d ->
  entries_kept_but shown_fields d (Render.heap st) ->
  Render.render_tasks E opts ro rfh indent tasks st = Ok st' ->
  Render.nchanges st'
  = Render.nchanges st
    + Z.of_nat (length (List.filter
                          (fun e => has_changes (Render.info_at d e.2)) tasks)).
Proof.
  intros Hoff Hflat. revert st.
  induction tasks as [|[tname i] tasks IH]; simpl; intros st Hk H.
  - injection H as <-. lia.
  - apply rbind_ok in H as (st1 & H1 & H).
    destruct (render_task_changed d _ _ _ _ _ Hoff Hflat Hk H1) as [Hk1 Hn1].
    rewrite (IH st1 Hk1 H), Hn1.
    destruct (has_changes (Render.info_at d i)); simpl length; lia.
Qed.

(** X18: with compression off, for a host whose records hold no embedded
    report, the number of changes that the summary shows is the number of
    records that have a [result] and changes that are not empty, in every
    mode and whatever is hidden or rendered terse. *)
Theorem changed_counts_records_with_changes (d : dict) indent st :
  state_compress_ids opts = false ->
  Forall (fun kv => flat_record kv.2) d ->
  NoDup (map fst d) ->
  Render.render_mapping E opts ro rfh indent (Render.own_view d) d = Ok st ->
  Render.nchanges st
  = Z.of_nat (length (List.filter
                        (fun kv => Render.valid kv.2 && has_changes kv.2) d)).
Proof.
  intros Hoff Hflat Hnd H.
  assert (Hnd' : NoDup (map fst (Render.own_view d)))
    by (now rewrite own_view_fst).
  destruct (render_mapping_inv E opts ro rfh indent VNone _ _ _ Hnd' H)
    as (tasks & body & Hperm & Htasks & _).
  rewrite (render_tasks_changed d indent tasks (Render.initial E _ d) st
             Hoff Hflat (entries_kept_but_refl _ d) Htasks).
  change (Render.nchanges (Render.initial E _ d)) with 0.
  rewrite (filter_length_perm _ _ _ Hperm), filter_filter_length, Z.add_0_l.
  f_equal. apply filter_length_Forall2.
  apply Forall2_same_length_lookup_2; [apply length_imap |].
  intros i [t j] [k x] Hv Hd. unfold Render.own_view, Compress.view in Hv.
  rewrite list_lookup_imap, Hd in Hv. injection Hv as <- <-.
  simpl. unfold Render.info_at. now rewrite Hd.
Qed.

End Changed.

Lemma changed_counts_records_with_changes_witness :
  let opts := Sample.with_output "terse" false false in
  let d := Fixture.one_changed in
  exists st,
    state_compress_ids opts = false
    /\ Forall (fun kv => flat_record kv.2) d
    /\ NoDup (map fst d)
    /\ Render.render_mapping Sample.plain opts Sample.no_output
         Sample.no_format_host 1 (Render.own_view d) d = Ok st
    /\ Render.nchanges st
       = Z.of_nat (length (List.filter
                             (fun kv => Render.valid kv.2 && has_changes kv.2) d)).
Proof.
  intros opts d.
  assert (Hflat : Forall (fun kv => flat_record kv.2) d).
  { repeat (constructor; [split; [reflexivity | left; reflexivity] |]).
    constructor. }
  assert (Hnd : NoDup (map fst d)).
  { apply (bool_decide_unpack _). vm_compute. exact I. }
  eexists. split; [reflexivity |]. split; [exact Hflat |]. split; [exact Hnd |].
  split; [vm_compute; reflexivity |].
  apply (changed_counts_records_with_changes Sample.plain opts Sample.no_output
           Sample.no_format_host d 1); [reflexivity | exact Hflat | exact Hnd |].
  vm_compute. reflexivity.
Defined.

(** ** The colour of the host line *)

Lemma result_at_kept (heap heap' : dict) (i : nat) :
  entries_kept heap heap' -> result_at heap' i = result_at heap i.
Proof.
  intros H. unfold result_at, Render.info_at.
  destruct (heap !! i) as [[k r]|] eqn:Hi.
  - destruct (Forall2_lookup_l _ _ _ _ _ H Hi) as ([k' r'] & Hi' & Hk & Hr).
    rewrite Hi'. simpl in Hr.
    destruct r; simpl in Hr; try (now subst r').
    destruct Hr as (f' & -> & Hf). apply Hf; discriminate.
  - assert (Hn : heap' !! i = None).
    { apply lookup_ge_None. apply lookup_ge_None in Hi.
      apply Forall2_length in H. lia. }
    now rewrite Hn.
Qed.

Section HostColour.
Context (E : externals) (opts : options).
Context (ro : Z -> value -> res (value * value)).
Context (rfh : string -> value -> res (string * bool * value)).

Lemma emit_hcolor act tcolor comps k i ret ctext st st' :
  Render.emit E opts act tcolor comps k i ret ctext st = Ok st' ->
  Render.hcolor st' = Render.hcolor st.
Proof.
  destruct act; simpl; intros H.
  - now injection H as <-.
  - apply rbind_ok in H as (msg & _ & H). now injection H as <-.
  - apply rbind_ok in H as (ret' & _ & H).
    apply rbind_ok in H as (block & _ & H).
    apply rbind_ok in H as (wl & _ & H). injection H as <-.
    now destruct (Py.dhas "warnings" ret').
Qed.

Lemma skipped_not_alarming (r : value) (schanged : bool) :
  Render.skipped opts r schanged = true -> alarming r = false.
Proof.
  unfold Render.skipped, alarming. intros H.
  destruct r as [|[]| | | | |]; try reflexivity; simpl in H;
    rewrite ?andb_false_r in H; discriminate.
Qed.

(** One turn of the loop sets the colour of the host line by the result
    alone. *)
Lemma render_task_hcolor indent tname i st st' :
  Render.render_task E opts ro rfh indent tname i st = Ok st' ->
  exists r,
    result_at (Render.heap st) i = Some r
    /\ Render.hcolor st'
       = (if Py.is_false r then colors E "RED"
          else if Py.is_none r then colors E "LIGHT_YELLOW"
          else Render.hcolor st).
Proof.
  intros H.
  apply render_task_inv in H
    as (k & ret & result & key & count & dur & schanged & ctext & n & ret1
        & Hi & Hres & Hkey & Hcount & Hdur & Hch & H).
  cbv zeta in H. exists result. split.
  { unfold result_at, Render.info_at. now rewrite Hi. }
  assert (Hb : Render.hcolor (Render.before_skips k i key count dur ret ret1 n st)
               = Render.hcolor st).
  { unfold Render.before_skips, Render.tally. simpl.
    destruct dur; [destruct (Py.dhas _ _) |]; reflexivity. }
  destruct (Render.skipped opts result schanged) eqn:Hs.
  - subst st'. rewrite Hb. apply skipped_not_alarming in Hs.
    unfold alarming in Hs. apply orb_false_iff in Hs as [-> ->]. reflexivity.
  - destruct H as (comps & act & _ & _ & H). apply emit_hcolor in H.
    rewrite H. cbn [Render.hcolor Render.set_hcolor]. rewrite Hb.
    destruct result as [|[]| | | | |]; reflexivity.
Qed.

Lemma render_tasks_app indent pre post st st' :
  Render.render_tasks E opts ro rfh indent (pre ++ post) st = Ok st' ->
  exists st1,
    Render.render_tasks E opts ro rfh indent pre st = Ok st1
    /\ Render.render_tasks E opts ro rfh indent post st1 = Ok st'.
Proof.
  revert st. induction pre as [|[t i] pre IH]; simpl; intros st H; [eauto |].
  apply rbind_ok in H as (st0 & H0 & H). rewrite H0. simpl. eauto.
Qed.

Lemma render_tasks_calm indent tasks st st' :
  Render.render_tasks E opts ro rfh indent tasks st = Ok st' ->
  Forall (fun e => forall r, result_at (Render.heap st) e.2 = Some r ->
                             alarming r = false) tasks ->
  Render.hcolor st' = Render.hcolor st.
Proof.
  revert st. induction tasks as [|[t i] tasks IH]; simpl; intros st H Hall.
  - now injection H as <-.
  - apply rbind_ok in H as (st1 & H1 & H).
    apply Forall_cons in Hall as [Hi Hall].
    pose proof (render_task_heap _ _ _ _ _ _ _ _ _ H1) as Hk.
    apply render_task_hcolor in H1 as (r & Hr & Hc).
    specialize (Hi r Hr). unfold alarming in Hi.
    apply orb_false_iff in Hi as [Hf Hn]. rewrite Hf, Hn in Hc.
    rewrite (IH st1 H), Hc; [reflexivity |].
    eapply Forall_impl; [exact Hall |]. intros e He r' Hr'.
    apply He. now rewrite <- (result_at_kept _ _ _ Hk).
Qed.

(** X19: the colour of the host line is set by the results alone, whatever
    the mode shows of the records: it stays as it was when no record has the
    result [False] or [None], and otherwise it is the colour of the last
    such record in the order of the loop, red for [False] and yellow for
    [None], so that a failure that is followed by a record that was not run
    leaves the host line yellow. *)
Theorem host_colour_is_last_alarm indent tasks st st' :
  Render.render_tasks E opts ro rfh indent tasks st = Ok st' ->
  (Forall (fun e => forall r, result_at (Render.heap st) e.2 = Some r ->
                              alarming r = false) tasks ->
   Render.hcolor st' = Render.hcolor st)
  /\ (forall pre t i post r,
        tasks = pre ++ (t, i) :: post ->
        result_at (Render.heap st) i = Some r -> alarming r = true ->
        Forall (fun e => forall r', result_at (Render.heap st) e.2 = Some r' ->
                                    alarming r' = false) post ->
        Render.hcolor st'
        = colors E (if Py.is_false r then "RED" else "LIGHT_YELLOW")).
Proof.
  intros H. split; [intros Hall; eapply render_tasks_calm; eauto |].
  intros pre t i post r -> Hr Ha Hpost.
  apply render_tasks_app in H as (st1 & Hpre & H).
  pose proof (render_tasks_heap _ _ _ _ _ _ _ _ Hpre) as Hk1.
  simpl in H. apply rbind_ok in H as (st2 & H2 & H).
  pose proof (render_task_heap _ _ _ _ _ _ _ _ _ H2) as Hk2.
  apply render_task_hcolor in H2 as (r1 & Hr1 & Hc).
  rewrite (result_at_kept _ _ _ Hk1), Hr in Hr1. injection Hr1 as <-.
  rewrite (render_tasks_calm _ _ _ _ H), Hc.
  - unfold alarming in Ha. destruct (Py.is_false r); [reflexivity |].
    simpl in Ha. now rewrite Ha.
  - eapply Forall_impl; [exact Hpost |]. intros e He r' Hr'. apply He.
    rewrite <- (result_at_kept _ _ _ Hk1), <- (result_at_kept _ _ _ Hk2).
    exact Hr'.
Qed.

(** ** The modes that show the ID *)

(** X20: in a mode whose name ends in [_id] the ID of the record takes the
    place of its name; the task name needs three segments for that, and a
    full block then has no [Name] entry: six entries, eight with the times
    of profiling. *)
Theorem id_modes_show_the_id tname comps :
  Str.endswith (Str.lower (state_output opts)) "_id" = true ->
  Render.comps_of opts tname = Ok comps ->
  exists id,
    Str.split "_|-" tname !! 1%nat = Some id
    /\ comps = <[2%nat := id]> (Str.split "_|-" tname)
    /\ comps !! 1%nat = Some id /\ comps !! 2%nat = Some id
    /\ forall tcolor ret0 ret ctext block,
         Render.full_lines E opts tcolor comps ret0 ret ctext = Ok block ->
         length block = if Render.profiled opts ret0 then 8%nat else 6%nat.
Proof.
  intros Hmode H. unfold Render.comps_of in H. rewrite Hmode in H.
  apply rbind_ok in H as (id & Hid & H). apply of_option_ok in Hid.
  unfold Py.set_nth_str in H.
  destruct (Nat.ltb_spec 2 (length (Str.split "_|-" tname))) as [Hlt|];
    [| discriminate].
  injection H as <-. exists id.
  assert (H1 : <[2%nat := id]> (Str.split "_|-" tname) !! 1%nat = Some id).
  { rewrite list_lookup_insert_ne by lia. exact Hid. }
  assert (H2 : <[2%nat := id]> (Str.split "_|-" tname) !! 2%nat = Some id).
  { now apply list_lookup_insert_eq. }
  repeat (split; [assumption || reflexivity |]).
  intros tcolor ret0 ret ctext block Hb. unfold Render.full_lines in Hb.
  unfold Py.nth_str in Hb. rewrite H1, H2 in Hb. cbn [of_option rbind] in Hb.
  apply rbind_ok in Hb as (c & _ & Hb). apply rbind_ok in Hb as (c0 & _ & Hb).
  apply rbind_ok in Hb as (c3 & _ & Hb). apply rbind_ok in Hb as (r & _ & Hb).
  apply rbind_ok in Hb as (prof & Hp & Hb). injection Hb as <-.
  rewrite String.eqb_refl.
  destruct (Render.profiled opts ret0).
  - apply rbind_ok in Hp as (s & _ & Hp). apply rbind_ok in Hp as (du & _ & Hp).
    injection Hp as <-. reflexivity.
  - injection Hp as <-. reflexivity.
Qed.

End HostColour.

Lemma host_colour_is_last_alarm_witness :
  let E := Fixture.tagged in
  let opts := Sample.with_output "terse" true false in
  let heap := Fixture.failed_then_not_run in
  let tasks := Render.own_view heap in
  let st := Render.initial E [] heap in
  exists st',
    Render.render_tasks E opts Sample.no_output Sample.no_format_host 1 tasks st
    = Ok st'
    /\ Render.hcolor st' = "<LIGHT_YELLOW>"
    /\ (Forall (fun e => forall r, result_at (Render.heap st) e.2 = Some r ->
                                   alarming r = false) tasks ->
        Render.hcolor st' = Render.hcolor st)
    /\ (forall pre t i post r,
          tasks = pre ++ (t, i) :: post ->
          result_at (Render.heap st) i = Some r -> alarming r = true ->
          Forall (fun e => forall r', result_at (Render.heap st) e.2 = Some r' ->
                                      alarming r' = false) post ->
          Render.hcolor st'
          = colors E (if Py.is_false r then "RED" else "LIGHT_YELLOW")).
Proof.
  intros E opts heap tasks st. eexists. split; [vm_compute; reflexivity |].
  split; [reflexivity |].
  apply (host_colour_is_last_alarm E opts Sample.no_output Sample.no_format_host
           1 tasks st).
  vm_compute. reflexivity.
Defined.

Lemma id_modes_show_the_id_witness :
  let opts := Sample.with_output "terse_id" true false in
  let comps := ["pkg"; "vim"; "vim"; "installed"] in
  Str.endswith (Str.lower (state_output opts)) "_id" = true
  /\ Render.comps_of opts Sample.vim_name = Ok comps
  /\ exists id,
       Str.split "_|-" Sample.vim_name !! 1%nat = Some id
       /\ comps = <[2%nat := id]> (Str.split "_|-" Sample.vim_name)
       /\ comps !! 1%nat = Some id /\ comps !! 2%nat = Some id
       /\ forall tcolor ret0 ret ctext block,
            Render.full_lines Sample.plain opts tcolor comps ret0 ret ctext
            = Ok block ->
            length block = if Render.profiled opts ret0 then 8%nat else 6%nat.
Proof.
  intros opts comps. split; [reflexivity |]. split; [vm_compute; reflexivity |].
  apply (id_modes_show_the_id Sample.plain opts Sample.vim_name comps).
  - reflexivity.
  - vm_compute. reflexivity.
Defined.

(** ** Data that is not a mapping *)

(** X21: for data that is not a mapping, [output] with any fuel that is
    not zero hands back an integer, a boolean or a text as it is and the
    text [None] for [None], without rendering anything, and raises
    [AttributeError] for a float or a list, which have no keys. *)
Theorem output_of_a_scalar E opts fuel indent (data : value) :
  Py.is_dict data = false ->
  Output.output E opts (S fuel) indent data
  = match data with
    | VNone => Ok (VStr "None", data)
    | VBool _ | VInt _ | VStr _ => Ok (data, data)
    | _ => Raise AttributeError
    end.
Proof. destruct data; try discriminate; reflexivity. Qed.

Lemma output_of_a_scalar_witness :
  let data := VList [VStr "Rendering SLS failed"] in
  Py.is_dict data = false
  /\ Output.output Sample.plain (Sample.with_output "full" true false) 1 1 data
     = Raise AttributeError.
Proof.
  intros data. split; [reflexivity |].
  apply (output_of_a_scalar Sample.plain (Sample.with_output "full" true false)
           0 1 data).
  reflexivity.
Defined.

(** ** What a render call keeps of its argument, with compression *)

Section Wider.
Context (ks ks' : list string).
Hypothesis Hsub : forall k, k ∈ ks -> k ∈ ks'.

Lemma fields_kept_but_wider f f' :
  fields_kept_but ks f f' -> fields_kept_but ks' f f'.
Proof. intros H k Hk. apply H. intros Hin. apply Hk, Hsub, Hin. Qed.

Lemma record_kept_but_wider r r' :
  record_kept_but ks r r' -> record_kept_but ks' r r'.
Proof.
  destruct r; simpl; auto.
  intros (f' & -> & H). eauto using fields_kept_but_wider.
Qed.

Lemma entries_kept_but_wider d d' :
  entries_kept_but ks d d' -> entries_kept_but ks' d d'.
Proof.
  induction 1 as [|e e' d d' [Hk Hr] _ IH]; constructor; [| exact IH].
  split; [exact Hk | now apply record_kept_but_wider].
Qed.

Lemma host_kept_but_wider v v' :
  host_kept_but ks v v' -> host_kept_but ks' v v'.
Proof.
  destruct v; simpl; auto.
  intros (d' & -> & H). eauto using entries_kept_but_wider.
Qed.

Lemma report_kept_but_wider d d' :
  report_kept_but ks d d' -> report_kept_but ks' d d'.
Proof.
  induction 1 as [|h h' d d' [Hk Hr] _ IH]; constructor; [| exact IH].
  split; [exact Hk | now apply host_kept_but_wider].
Qed.

End Wider.

Lemma host_kept_but_trans ks v1 v2 v3 :
  host_kept_but ks v1 v2 -> host_kept_but ks v2 v3 -> host_kept_but ks v1 v3.
Proof.
  destruct v1; simpl; try (intros -> ?; assumption).
  intros (d' & -> & H1). simpl. intros (d'' & -> & H2).
  eauto using entries_kept_but_trans.
Qed.

Lemma report_kept_but_trans ks d1 d2 d3 :
  report_kept_but ks d1 d2 -> report_kept_but ks d2 d3 ->
  report_kept_but ks d1 d3.
Proof.
  intros H. revert d3. induction H as [|e1 e2 d1 d2 [Hk Hr] _ IH]; intros d3 H'.
  - inversion H'. constructor.
  - inversion H' as [|? e3 ? d3' [Hk' Hr'] Ht]; subst. constructor.
    + split; [congruence | eauto using host_kept_but_trans].
    + apply IH. exact Ht.
Qed.

Lemma fields_kept_rewritten f f' :
  fields_kept f f' -> fields_kept_but rewritten_fields f f'.
Proof.
  intros H k Hk. unfold rewritten_fields in Hk.
  apply H; intros ->; apply Hk.
  - do 3 right. left.
  - do 4 right. left.
  - do 2 right. left.
  - right. left.
Qed.

Lemma entries_kept_rewritten d d' :
  entries_kept d d' -> entries_kept_but rewritten_fields d d'.
Proof.
  induction 1 as [|e e' d d' [Hk Hr] _ IH]; constructor; [| exact IH].
  split; [exact Hk |]. destruct e as [k r]. simpl in *.
  destruct r; simpl in *; auto.
  destruct Hr as (f' & -> & Hf). eauto using fields_kept_rewritten.
Qed.

Lemma report_kept_rewritten d d' :
  report_kept d d' -> report_kept_but rewritten_fields d d'.
Proof.
  induction 1 as [|h h' d d' [Hk Hr] _ IH]; constructor; [| exact IH].
  split; [exact Hk |]. destruct h as [k v]. simpl in *.
  destruct v; simpl in *; auto.
  destruct Hr as (dd & -> & Hd). eauto using entries_kept_rewritten.
Qed.

Lemma merged_rewritten k : k ∈ merged_fields -> k ∈ rewritten_fields.
Proof.
  unfold merged_fields, rewritten_fields. intros H.
  repeat (apply elem_of_cons in H as [->|H];
          [repeat ((left; fail) || right); left |]).
  inversion H.
Qed.

Lemma dset_host_kept (host : string) (heap heap' : dict) (data : dict) :
  Py.dget host data = Some (VDict heap) ->
  entries_kept_but rewritten_fields heap heap' ->
  report_kept_but rewritten_fields data (Py.dset host (VDict heap') data).
Proof.
  intros Hg Hk. induction data as [|[k0 x] data IH]; [discriminate |].
  simpl in Hg |- *. destruct (String.eqb_spec host k0) as [->|Hne].
  - injection Hg as ->. constructor; [| apply report_kept_but_refl].
    split; [reflexivity |]. simpl. eauto.
  - constructor; [| exact (IH Hg)].
    split; [reflexivity | apply host_kept_but_refl].
Qed.

Section WithCompression.
Context (E : externals) (opts : options).
Context (ro : Z -> value -> res (value * value)).
Context (rfh : string -> value -> res (string * bool * value)).

Lemma format_views_kept indent c data texts data' :
  Output.format_views E opts ro rfh indent c data = Ok (texts, data') ->
  report_kept_but rewritten_fields data data'.
Proof.
  revert data texts data'. induction c as [|[host v] c IH];
    simpl; intros data texts data' H.
  - injection H as _ <-. apply report_kept_but_refl.
  - destruct (Py.dget host data) as [[| | | | | |heap]|] eqn:Hg; try discriminate.
    apply rbind_ok in H as ([[text ch] heap'] & Hh & H).
    apply rbind_ok in H as ([texts' rest] & Hr & H). injection H as _ <-.
    apply format_host_view_heap in Hh. apply entries_kept_rewritten in Hh.
    eapply report_kept_but_trans; [eapply dset_host_kept; eauto |].
    eapply IH; exact Hr.
Qed.

End WithCompression.

(** X22: with compression on or off, [output] leaves the hosts of its
    data and the task names of every host in place, after the [retcode] of
    an orchestration is discarded, and every field of every record as it
    was, apart from [__run_num__], [duration], [start_time], [changes] and
    [comment]; data that is not a mapping is not changed. *)
Theorem output_keeps_fields_with_compression E opts fuel indent data0 r post :
  Output.output E opts fuel indent data0 = Ok (r, post) ->
  exists data path,
    Output.normalize_path data0 = Ok (data, path)
    /\ match data with
       | VDict d =>
           exists d', report_kept_but rewritten_fields (Output.discard_retcode d) d'
                      /\ post = Output.put_path path (VDict d') data0
       | _ => post = data0
       end.
Proof.
  intros H. destruct fuel as [|fuel]; [discriminate|].
  simpl in H. unfold Output.output_body in H.
  apply rbind_ok in H as ([data path] & Hn & H).
  exists data, path. split; [exact Hn |].
  destruct data; simpl in H; try (injection H as _ <-; reflexivity);
    try discriminate.
  apply rbind_ok in H as ([texts d'] & Hf & H). injection H as _ <-.
  exists d'. split; [| reflexivity].
  destruct (state_compress_ids opts).
  - apply rbind_ok in Hf as ([c d1] & Hc & Hf).
    apply compress_ids_kept in Hc.
    apply (report_kept_but_wider _ _ merged_rewritten) in Hc.
    eapply report_kept_but_trans; [exact Hc |].
    destruct c.
    + eapply format_views_kept; exact Hf.
    + apply report_kept_rewritten. eapply format_hosts_kept; exact Hf.
  - apply report_kept_rewritten. eapply format_hosts_kept; exact Hf.
Qed.

Lemma output_keeps_fields_with_compression_witness :
  let opts := Sample.with_output "full" true true in
  let data0 := VDict [("minionA", VDict Sample.three_names)] in
  exists r post,
    Output.output Sample.plain opts 2 1 data0 = Ok (r, post)
    /\ exists data path,
         Output.normalize_path data0 = Ok (data, path)
         /\ match data with
            | VDict d =>
                exists d',
                  report_kept_but rewritten_fields (Output.discard_retcode d) d'
                  /\ post = Output.put_path path (VDict d') data0
            | _ => post = data0
            end.
Proof.
  intros opts data0. eexists _, _. split; [vm_compute; reflexivity |].
  eapply (output_keeps_fields_with_compression Sample.plain opts 2 1 data0).
  vm_compute. reflexivity.
Defined.

(** ** Compression that finds nothing to merge *)

Lemma own_views_cons (host : string) (d : dict) (rest : dict) :
  own_views ((host, VDict d) :: rest) = (host, Render.own_view d) :: own_views rest.
Proof. reflexivity. Qed.

Lemma dget_app_fresh {A} (k : string) (x : A) (done rest : list (string * A)) :
  k ∉ map fst done -> Py.dget k (done ++ (k, x) :: rest) = Some x.
Proof.
  induction done as [|[k' y] done IH]; simpl; intros H.
  - now rewrite String.eqb_refl.
  - apply not_elem_of_cons in H as [Hne H].
    destruct (String.eqb_spec k k'); [congruence | auto].
Qed.

Lemma dset_app_fresh {A} (k : string) (x y : A) (done rest : list (string * A)) :
  k ∉ map fst done ->
  Py.dset k y (done ++ (k, x) :: rest) = done ++ (k, y) :: rest.
Proof.
  induction done as [|[k' z] done IH]; simpl; intros H.
  - now rewrite String.eqb_refl.
  - apply not_elem_of_cons in H as [Hne H].
    destruct (String.eqb_spec k k'); [congruence |]. now rewrite IH.
Qed.

Section Idle.
Context (E : externals) (opts : options).
Context (ro ro' : Z -> value -> res (value * value)).
Context (rfh rfh' : string -> value -> res (string * bool * value)).

Local Abbreviation on := (with_compression true opts).
Local Abbreviation off := (with_compression false opts).

Lemma changes_of_indep indent (ret : dict) :
  flat_record (VDict ret) ->
  Render.changes_of E ro rfh indent 1 ret
  = Render.changes_of E ro' rfh' indent 1 ret.
Proof.
  intros Hfl. destruct (Py.dget "changes" ret) as [ch|] eqn:Hch.
  - now rewrite !(changes_of_flat _ _ _ _ _ _ Hfl Hch).
  - unfold Render.changes_of. now rewrite Hch.
Qed.

(** One turn of the loop is the same with compression on and off, for a
    record without an embedded report under a name that is not a
    compressed one. *)
Lemma render_task_idle indent tname i st :
  (forall k ret, Render.heap st !! i = Some (k, VDict ret) ->
                 flat_record (VDict ret)) ->
  Str.contains tname "_|-state_compressed_" = false ->
  Render.render_task E on ro rfh indent tname i st
  = Render.render_task E off ro' rfh' indent tname i st.
Proof.
  intros Hfl Hname. unfold Render.render_task.
  destruct (Render.heap st !! i) as [[k [| | | | | |ret]]|] eqn:Hi; try reflexivity.
  specialize (Hfl k ret eq_refl).
  destruct (Py.dget "result" ret) as [result|]; [| reflexivity].
  cbn [of_option rbind].
  destruct (Render.ckey_of result) as [key| | |]; try reflexivity.
  cbn [rbind]. unfold Render.compressed_count. rewrite Hname.
  cbn [state_compress_ids with_compression andb rbind].
  destruct (Render.duration_of E (default (VInt 0) (Py.dget "duration" ret)))
    as [dur| | |]; try reflexivity.
  cbn [rbind]. rewrite (changes_of_indep indent ret Hfl).
  reflexivity.
Qed.

Lemma render_tasks_idle (d : dict) indent tasks st :
  Forall (fun kv => flat_record kv.2) d ->
  entries_kept_but shown_fields d (Render.heap st) ->
  Forall (fun e => Str.contains e.1 "_|-state_compressed_" = false) tasks ->
  Render.render_tasks E on ro rfh indent tasks st
  = Render.render_tasks E off ro' rfh' indent tasks st.
Proof.
  intros Hflat. revert st.
  induction tasks as [|[tname i] tasks IH]; intros st Hk Hnames; [reflexivity |].
  apply Forall_cons in Hnames as [Hname Hnames]. cbn [Render.render_tasks].
  rewrite (render_task_idle indent tname i st); [| | exact Hname].
  - destruct (Render.render_task E off ro' rfh' indent tname i st)
      as [st1| | |] eqn:H1; try reflexivity.
    cbn [rbind]. apply IH; [| exact Hnames].
    exact (proj1 (render_task_changed E off ro' rfh' d indent tname i st st1
                    eq_refl Hflat Hk H1)).
  - intros k ret Hi.
    destruct (entries_kept_but_lookup _ _ _ _ _ _ Hk Hi) as (f0 & Hd & Hf0).
    eapply flat_record_kept; [exact Hf0 |].
    rewrite Forall_forall in Hflat.
    exact (Hflat _ (list_elem_of_lookup_2 _ _ _ Hd)).
Qed.

Lemma format_host_view_idle (d : dict) indent host :
  NoDup (map fst d) ->
  Forall (fun kv => flat_record kv.2
                    /\ Str.contains kv.1 "_|-state_compressed_" = false) d ->
  Render.format_host_view E on ro rfh indent host (Render.own_view d) d
  = Render.format_host_view E off ro' rfh' indent host (Render.own_view d) d.
Proof.
  intros Hnd Hd. unfold Render.format_host_view, Render.render_mapping.
  rewrite (validate_spec E d (Render.own_view d)) by (now rewrite own_view_fst).
  match goal with
  | |- context [Py.sorted_by ?key ?l] =>
      destruct (Py.sorted_by key l) as [tasks| | |] eqn:Hs; try reflexivity
  end.
  cbn [rbind].
  match goal with
  | |- context [Render.render_tasks E on ro rfh indent tasks ?st] =>
      rewrite (render_tasks_idle d indent tasks st)
  end.
  - reflexivity.
  - eapply Forall_impl; [exact Hd |]. now intros kv [? _].
  - apply entries_kept_but_refl.
  - apply sorted_by_perm in Hs. rewrite Hs.
    apply Forall_forall. intros [t i] Hin.
    apply list_elem_of_In, filter_In in Hin as [Hin _].
    apply list_elem_of_In in Hin.
    apply elem_of_lookup_imap in Hin as (j & [k info] & [= -> ->] & Hj).
    rewrite Forall_forall in Hd.
    exact (proj2 (Hd _ (list_elem_of_lookup_2 _ _ _ Hj))).
Qed.

Lemma format_views_idle indent (rest done : dict) :
  NoDup (map fst (done ++ rest)) ->
  Forall (fun h => nothing_to_merge (repr E) h.2) rest ->
  Output.format_views E on ro rfh indent (own_views rest) (done ++ rest)
  = do '(texts, rest') <- Output.format_hosts E off ro' rfh' indent rest;
    Ok (texts, done ++ rest').
Proof.
  revert done. induction rest as [|[host v] rest IH]; intros done Hnd Hall.
  - reflexivity.
  - apply Forall_cons in Hall as [(d & ks & Hv & Hndd & _ & _ & Hd) Hall].
    simpl in Hv. subst v. rewrite own_views_cons.
    assert (Hfresh : host ∉ map fst done).
    { rewrite map_app in Hnd. apply NoDup_app in Hnd as (_ & Hd1 & _).
      intros Hin. apply (Hd1 host Hin). simpl. left. }
    cbn [Output.format_views Output.format_hosts Render.format_host].
    rewrite (dget_app_fresh _ _ _ _ Hfresh).
    rewrite (format_host_view_idle d indent host Hndd Hd).
    destruct (Render.format_host_view E off ro' rfh' indent host
                (Render.own_view d) d) as [[[text c] heap']| | |];
      try reflexivity.
    cbn [rbind]. rewrite (dset_app_fresh _ _ _ _ _ Hfresh).
    change (done ++ (host, VDict heap') :: rest)
      with (done ++ [(host, VDict heap')] ++ rest).
    rewrite app_assoc, IH; [| | exact Hall].
    + destruct (Output.format_hosts E off ro' rfh' indent rest)
        as [[texts rest']| | |]; try reflexivity.
      cbn [rbind]. now rewrite <- app_assoc.
    + rewrite <- app_assoc. cbn [app].
      rewrite map_app in Hnd |- *. exact Hnd.
Qed.

End Idle.

(** X23: for data whose hosts have different names and hold records
    without embedded reports, no two records of a host with the same key and
    no task name with the mark of a compressed one, [output] returns the
    same text and leaves the same data behind with [state_compress_ids] on
    as with the option off. *)
Theorem compression_is_idle_without_groups E opts fuel indent data0 (d : dict) path :
  Output.normalize_path data0 = Ok (VDict d, path) ->
  NoDup (map fst (Output.discard_retcode d)) ->
  Forall (fun h => nothing_to_merge (repr E) h.2) (Output.discard_retcode d) ->
  Output.output E (with_compression true opts) (S fuel) indent data0
  = Output.output E (with_compression false opts) (S fuel) indent data0.
Proof.
  intros Hn Hnd Hall. cbn [Output.output]. unfold Output.output_body.
  rewrite Hn. cbn [rbind Py.is_int Py.is_str orb state_compress_ids with_compression].
  assert (Hc : Compress.compress_ids (repr E) (Output.discard_retcode d)
               = Ok (Compress.Views (own_views (Output.discard_retcode d)),
                     Output.discard_retcode d)).
  { apply compress_ids_alone. eapply Forall_impl; [exact Hall |].
    intros h (d1 & ks & ? & ? & ? & ? & _). eauto 10. }
  rewrite Hc. cbn [rbind].
  pose proof (format_views_idle E opts
                (Output.output E (with_compression true opts) fuel)
                (Output.output E (with_compression false opts) fuel)
                (fun h x => Output.format_host E (with_compression true opts) fuel 1 h x)
                (fun h x => Output.format_host E (with_compression false opts) fuel 1 h x)
                indent (Output.discard_retcode d) [] Hnd Hall) as Hv.
  cbn [app] in Hv. rewrite Hv.
  destruct (Output.format_hosts E (with_compression false opts) _ _ indent
              (Output.discard_retcode d)) as [[texts rest']| | |]; reflexivity.
Qed.

Lemma compression_is_idle_without_groups_witness :
  let opts := Sample.with_output "full" true false in
  let d : dict := [("minionA", VDict Fixture.two_ids)] in
  Output.normalize_path (VDict d) = Ok (VDict d, [])
  /\ NoDup (map fst (Output.discard_retcode d))
  /\ Forall (fun h => nothing_to_merge (repr Sample.plain) h.2)
        (Output.discard_retcode d)
  /\ Output.output Sample.plain (with_compression true opts) 1 1 (VDict d)
     = Output.output Sample.plain (with_compression false opts) 1 1 (VDict d).
Proof.
  intros opts d.
  assert (Hnd : NoDup (map fst (Output.discard_retcode d))).
  { apply (bool_decide_unpack _). vm_compute. exact I. }
  assert (Hall : Forall (fun h => nothing_to_merge (repr Sample.plain) h.2)
                   (Output.discard_retcode d)).
  { constructor; [| constructor].
    exists Fixture.two_ids, ["cmd_a_s_True"; "cmd_b_s_True"].
    split; [reflexivity |].
    split; [apply (bool_decide_unpack _); vm_compute; exact I |].
    split; [vm_compute; reflexivity |].
    split; [apply (bool_decide_unpack _); vm_compute; exact I |].
    repeat (constructor;
            [split; [split; [reflexivity | left; reflexivity] | reflexivity] |]).
    constructor. }
  split; [reflexivity |]. split; [exact Hnd |]. split; [exact Hall |].
  apply (compression_is_idle_without_groups Sample.plain opts 0 1 (VDict d) d []).
  - reflexivity.
  - exact Hnd.
  - exact Hall.
Defined.

(** ** The changes of a compressed record *)

Lemma id_key_mapping repr tname info k :
  Compress.id_key repr tname info = Ok k -> exists f, info = VDict f.
Proof.
  unfold Compress.id_key. intros H.
  apply rbind_ok in H as (c0 & _ & H). apply rbind_ok in H as (i & Hi & _).
  destruct info; try discriminate. eauto.
Qed.

Lemma stored_name_mapping repr ks e n :
  Compress.stored_name repr ks e = Ok n -> exists f, e.2 = VDict f.
Proof.
  unfold Compress.stored_name. intros H.
  apply rbind_ok in H as (k & Hk & _). eapply id_key_mapping; eauto.
Qed.

Lemma changed_members_cons (f : string * value) (l : dict) :
  changed_members (f :: l)
  = if has_changes f.2 then f :: changed_members l else changed_members l.
Proof. reflexivity. Qed.

Lemma changed_members_snoc (l : dict) (e : string * value) :
  changed_members (l ++ [e])
  = changed_members l ++ (if has_changes e.2 then [e] else []).
Proof.
  unfold changed_members. rewrite List.filter_app. simpl.
  now destruct (has_changes e.2).
Qed.

Lemma keyed_changes_snoc (l : dict) (e : string * value) :
  has_changes e.2 = true ->
  keyed_changes (l ++ [e])
  = Py.dset (default "" (str_name e.2)) (changes_field e.2) (keyed_changes l).
Proof.
  intros He. unfold keyed_changes. rewrite changed_members_snoc, He.
  now rewrite foldl_app.
Qed.

Lemma dset_not_nil {A} (k : string) (x : A) (d : list (string * A)) :
  Py.dset k x d <> [].
Proof. destruct d as [|[k' y] d]; simpl; [| destruct (String.eqb k k')]; discriminate. Qed.

Lemma keyed_changes_not_nil (l : dict) :
  changed_members l <> [] -> keyed_changes l <> [].
Proof.
  unfold keyed_changes.
  destruct (changed_members l) as [|e t] using rev_ind; [congruence |].
  intros _. rewrite foldl_app. apply dset_not_nil.
Qed.

Lemma truthy_mapping (d : dict) : d <> [] -> Py.truthy (VDict d) = true.
Proof. destruct d; [congruence | reflexivity]. Qed.

(** The first three assignments of a merge leave the other fields. *)
Lemma merge_timing_steps info acc acc' steps :
  Compress.assign_all
    ([Compress.merge_run_num info; Compress.merge_duration info;
      Compress.merge_start_time info] ++ steps) acc = (acc', Ok tt) ->
  exists a3,
    Compress.assign_all steps a3 = (acc', Ok tt)
    /\ Py.dget "name" a3 = Py.dget "name" acc
    /\ Py.dget "changes" a3 = Py.dget "changes" acc.
Proof.
  cbn [app]. intros H.
  apply assign_all_cons in H as (a1 & H1 & H).
  apply assign_all_cons in H as (a2 & H2 & H).
  apply assign_all_cons in H as (a3 & H3 & H).
  exists a3. split; [exact H |].
  unfold Compress.merge_run_num in H1.
  apply rbind_ok in H1 as (x1 & _ & H1). apply rbind_ok in H1 as (y1 & _ & H1).
  apply rbind_ok in H1 as (m1 & _ & H1). injection H1 as <-.
  unfold Compress.merge_duration in H2.
  apply rbind_ok in H2 as (x2 & _ & H2). apply rbind_ok in H2 as (y2 & _ & H2).
  apply rbind_ok in H2 as (s2 & _ & H2). apply rbind_ok in H2 as (m2 & _ & H2).
  injection H2 as <-.
  unfold Compress.merge_start_time in H3.
  apply rbind_ok in H3 as (x3 & _ & H3). apply rbind_ok in H3 as (y3 & _ & H3).
  apply rbind_ok in H3 as (m3 & _ & H3). injection H3 as <-.
  split; now rewrite !dget_dset_ne by discriminate.
Qed.

Lemma as_key_ok (v : value) (s : string) :
  Compress.as_key v = Ok s -> v = VStr s.
Proof. destruct v; try discriminate. now intros [= ->]. Qed.

(** What one merge does to the changes *)
Lemma merge_changes f r tname info acc acc' :
  changes_merged_of (f :: r) (VDict acc) ->
  Compress.merge info acc = (acc', Ok tt) ->
  changes_merged_of (f :: r ++ [(tname, VDict info)]) (VDict acc').
Proof.
  intros HP Hm Hfresh. destruct (HP Hfresh) as (fd & accd & Hf & Ha & Hn & Hc & Hnamed).
  injection Ha as <-. exists fd, acc'. split; [exact Hf |]. split; [reflexivity |].
  set (e := (tname, VDict info)).
  unfold Compress.merge in Hm.
  apply merge_timing_steps in Hm as (a3 & Hm & Hn3 & Hc3).
  assert (Hhe : has_changes e.2
                = Py.truthy (default VNone (Py.dget "changes" info))) by reflexivity.
  assert (Hhf : has_changes f.2
                = Py.truthy (default VNone (Py.dget "changes" fd))).
  { now rewrite Hf. }
  destruct (Py.truthy (default VNone (Py.dget "changes" info))) eqn:Hti.
  - (* the member has changes *)
    assert (Hsn : changed_members (r ++ [e]) = changed_members r ++ [e]).
    { now rewrite changed_members_snoc, Hhe. }
    assert (Hne : changed_members (r ++ [e]) <> []).
    { rewrite Hsn. now destruct (changed_members r). }
    assert (Hmc : merged_changes f (r ++ [e])
                  = Some (VDict [("compressed changes",
                                  VDict (keyed_changes (f :: r ++ [e])))])).
    { unfold merged_changes. now destruct (changed_members (r ++ [e])). }
    rewrite Hmc.
    destruct (Py.truthy (default VNone (Py.dget "changes" acc))) eqn:Hta;
      cbn [andb] in Hm.
    + apply assign_all_cons in Hm as (b1 & Hb1 & Hm).
      apply assign_all_cons in Hm as (b2 & Hb2 & Hm). injection Hm as <-.
      unfold Compress.wrap_changes in Hb1.
      apply rbind_ok in Hb1 as (ch & Hch & Hb1).
      apply rbind_ok in Hb1 as (cc & Hcc & Hb1).
      rewrite Hc3 in Hch.
      destruct (Py.dget "changes" acc) as [ch'|] eqn:Hca; [| discriminate].
      injection Hch as ->. cbn [default] in Hta.
      destruct ch as [| | | | | |c]; try discriminate. injection Hcc as <-.
      unfold Compress.add_changes in Hb2.
      apply rbind_ok in Hb2 as (ch2 & Hch2 & Hb2).
      apply rbind_ok in Hb2 as (cc2 & Hcc2 & Hb2).
      destruct ch2 as [| | | | | |chd]; try discriminate.
      destruct cc2 as [| | | | | |ccd]; try discriminate.
      apply rbind_ok in Hb2 as (n2 & Hn2 & Hb2).
      apply rbind_ok in Hb2 as (s2 & Hs2 & Hb2).
      apply rbind_ok in Hb2 as (ich & Hich & Hb2).
      apply as_key_ok in Hs2 as ->. injection Hb2 as <-.
      destruct (Py.dget "name" info) as [n2'|] eqn:Hni; [| discriminate].
      injection Hn2 as ->.
      destruct (Py.dget "changes" info) as [ich'|] eqn:Hci; [| discriminate].
      injection Hich as ->.
      assert (Hse : str_name e.2 = Some s2).
      { unfold e. cbn [snd str_name]. now rewrite Hni. }
      assert (Hce : changes_field e.2 = ich).
      { unfold e. cbn [snd changes_field]. now rewrite Hci. }
      assert (Hkey : keyed_changes (f :: r ++ [e])
                     = Py.dset s2 ich (keyed_changes (f :: r))).
      { rewrite app_comm_cons, keyed_changes_snoc by now rewrite Hhe.
        now rewrite Hse, Hce. }
      destruct (changed_members r) as [|x xs] eqn:Hr.
      * (* the first member is the only one with changes so far *)
        unfold merged_changes in Hc. rewrite Hr, Hf in Hc. cbn [snd] in Hc.
        assert (Hcf : changes_field f.2 = VDict c).
        { rewrite Hf. cbn [changes_field]. now rewrite <- Hc. }
        rewrite (Hfresh c Hcf) in Hb1.
        apply rbind_ok in Hb1 as (n1 & Hn1 & Hb1).
        apply rbind_ok in Hb1 as (s1 & Hs1 & Hb1).
        apply as_key_ok in Hs1 as ->. injection Hb1 as <-.
        rewrite Hn3, Hn in Hn1.
        destruct (Py.dget "name" fd) as [n1'|] eqn:Hnf; [| discriminate].
        injection Hn1 as ->.
        rewrite dget_dset_eq in Hch2. injection Hch2 as <-.
        injection Hcc2 as <-.
        assert (Hsf : str_name f.2 = Some s1).
        { rewrite Hf. cbn [str_name]. now rewrite Hnf. }
        assert (Hff : has_changes f.2 = true).
        { rewrite Hhf, <- Hc. exact Hta. }
        assert (Hk1 : keyed_changes (f :: r) = [(s1, VDict c)]).
        { unfold keyed_changes. rewrite changed_members_cons, Hff, Hr.
          cbn [foldl]. now rewrite Hsf, Hcf. }
        split; [now rewrite !dget_dset_ne, Hn3, Hn by discriminate |].
        split.
        { rewrite dget_dset_eq, Hkey, Hk1. reflexivity. }
        intros _. change (f :: r ++ [e]) with ((f :: r) ++ [e]).
        rewrite changed_members_snoc, changed_members_cons, Hff, Hr, Hhe.
        repeat constructor; [now rewrite Hsf | now rewrite Hse].
      * (* the changes are keyed by name already *)
        unfold merged_changes in Hc. rewrite Hr in Hc.
        injection Hc as ->.
        assert (Hnn : keyed_changes (f :: r) <> []).
        { apply keyed_changes_not_nil. rewrite changed_members_cons, Hr.
          now destruct (has_changes f.2). }
        cbn [Py.dget String.eqb Ascii.eqb Bool.eqb default id] in Hb1.
        rewrite (truthy_mapping _ Hnn) in Hb1. injection Hb1 as <-.
        rewrite Hc3 in Hch2. injection Hch2 as <-.
        cbn [Py.item Py.dget String.eqb Ascii.eqb Bool.eqb of_option] in Hcc2.
        injection Hcc2 as <-.
        split; [now rewrite dget_dset_ne, Hn3, Hn by discriminate |].
        split.
        { rewrite dget_dset_eq, Hkey. reflexivity. }
        intros _. change (f :: r ++ [e]) with ((f :: r) ++ [e]).
        rewrite changed_members_snoc, Hhe. apply Forall_app. split.
        -- apply Hnamed. discriminate.
        -- repeat constructor. now rewrite Hse.
    + (* the record of the group has no changes yet *)
      apply assign_all_cons in Hm as (b1 & Hb1 & Hm). injection Hm as <-.
      unfold Compress.replace_changes in Hb1.
      apply rbind_ok in Hb1 as (n2 & Hn2 & Hb1).
      apply rbind_ok in Hb1 as (s2 & Hs2 & Hb1).
      apply rbind_ok in Hb1 as (ich & Hich & Hb1).
      apply as_key_ok in Hs2 as ->. injection Hb1 as <-.
      destruct (Py.dget "name" info) as [n2'|] eqn:Hni; [| discriminate].
      injection Hn2 as ->.
      destruct (Py.dget "changes" info) as [ich'|] eqn:Hci; [| discriminate].
      injection Hich as ->.
      assert (Hse : str_name e.2 = Some s2).
      { unfold e. cbn [snd str_name]. now rewrite Hni. }
      assert (Hce : changes_field e.2 = ich).
      { unfold e. cbn [snd changes_field]. now rewrite Hci. }
      assert (Hr : changed_members r = []).
      { destruct (changed_members r) as [|x xs] eqn:Hr; [reflexivity |].
        unfold merged_changes in Hc. rewrite Hr in Hc. rewrite Hc in Hta.
        cbn [default id] in Hta.
        rewrite truthy_mapping in Hta; discriminate. }
      assert (Hff : has_changes f.2 = false).
      { unfold merged_changes in Hc. rewrite Hr, Hf in Hc. cbn [snd] in Hc.
        rewrite Hhf, <- Hc. exact Hta. }
      assert (Hall : changed_members (f :: r ++ [e]) = [e]).
      { change (f :: r ++ [e]) with ((f :: r) ++ [e]).
        now rewrite changed_members_snoc, changed_members_cons, Hff, Hr, Hhe. }
      split; [now rewrite dget_dset_ne, Hn3, Hn by discriminate |].
      split.
      { rewrite dget_dset_eq. unfold keyed_changes. rewrite Hall.
        cbn [foldl]. now rewrite Hse, Hce. }
      intros _. rewrite Hall. repeat constructor. now rewrite Hse.
  - (* the member has no changes *)
    assert (Hsn : changed_members (r ++ [e]) = changed_members r).
    { now rewrite changed_members_snoc, Hhe, app_nil_r. }
    assert (Hsn' : changed_members (f :: r ++ [e]) = changed_members (f :: r)).
    { now rewrite !changed_members_cons, Hsn. }
    rewrite andb_false_r in Hm. injection Hm as <-.
    split; [now rewrite Hn3 |].
    split.
    + rewrite Hc3, Hc. unfold merged_changes, keyed_changes.
      now rewrite Hsn, Hsn'.
    + rewrite Hsn, Hsn'. exact Hnamed.
Qed.

Lemma first_changes (e : string * value) (f : dict) :
  e.2 = VDict f -> changes_merged_of [e] e.2.
Proof.
  intros He _. exists f, f. split; [exact He |]. split; [exact He |].
  split; [reflexivity |]. split.
  - unfold merged_changes. cbn [changed_members List.filter]. now rewrite He.
  - intros H. now contradiction H.
Qed.

Lemma keyed_changes_distinct (members : dict) :
  NoDup (map (fun e => default "" (str_name e.2)) (changed_members members)) ->
  keyed_changes members
  = map (fun e => (default "" (str_name e.2), changes_field e.2))
        (changed_members members).
Proof.
  unfold keyed_changes.
  induction (changed_members members) as [|e l IH] using rev_ind; [reflexivity |].
  rewrite map_app, foldl_app, map_app. cbn [map foldl]. intros Hnd.
  apply NoDup_app in Hnd as (Hl & Hd & _). rewrite (IH Hl).
  apply dget_dset_fresh. rewrite List.map_map. cbn [fst].
  intros Hin. apply (Hd _ Hin). left.
Qed.

Section GroupLoop.
Context (repr : value -> string) (P : dict -> value -> Prop).
Context (d : dict) (ks : list string) (K : string).
Hypothesis HK : K ∉ map fst d.
Hypothesis Hfirst : forall e f, e.2 = VDict f -> P [e] e.2.
Hypothesis Hlater : forall f r tname info acc acc',
  P (f :: r) (VDict acc) ->
  Compress.merge info acc = (acc', Ok tt) ->
  P (f :: r ++ [(tname, VDict info)]) (VDict acc').

Lemma step_group m st st' :
  group_inv repr P d ks K m st -> (m < length d)%nat ->
  Compress.step repr ks m st = (st', Ok tt) ->
  group_inv repr P d ks K (S m) st'.
Proof.
  destruct st as [v heap].
  intros (Hlen & Hrest & Hview & Hgrp) Hm Hstep.
  cbn [fst snd] in Hlen, Hrest, Hview, Hgrp.
  destruct (lookup_lt_is_Some_2 d m Hm) as [[tname info] Hd].
  assert (Hh : heap !! m = Some (tname, info)) by (rewrite Hrest by lia; exact Hd).
  pose proof (stored_under_snoc repr d ks K m _ Hd) as Hsn.
  pose proof (own_name_differs d K HK m _ _ Hd) as Hown.
  unfold Compress.step in Hstep. rewrite Hh in Hstep.
  unfold Compress.stored_name in Hsn. cbn [fst snd] in Hsn.
  destruct (Compress.id_key repr tname info) as [_id| | |] eqn:Hid;
    try congruence.
  cbn [rbind] in Hsn.
  assert (Hview' : forall v' : Compress.view, forall name,
            Compress.stored_name repr ks (tname, info) = Ok name ->
            v' = Py.dset name m v ->
            forall n j, Py.dget n v' = Some j ->
              (j < S m)%nat
              /\ exists e, d !! j = Some e /\ Compress.stored_name repr ks e = Ok n).
  { intros v' name Hname -> n j Hj.
    destruct (String.eqb_spec n name) as [->|Hne].
    - rewrite dget_dset_eq in Hj. injection Hj as <-. split; [lia | eauto].
    - rewrite dget_dset_ne in Hj by exact Hne.
      destruct (Hview _ _ Hj) as [Hlt He]. split; [lia | exact He]. }
  assert (Hname : forall name,
            (if Compress.count ks _id =? 1 then Ok tname
             else Compress.compressed_name repr tname info (Compress.count ks _id))
            = Ok name ->
            Compress.stored_name repr ks (tname, info) = Ok name).
  { intros name Hn. unfold Compress.stored_name. cbn [fst snd]. rewrite Hid. exact Hn. }
  destruct (id_key_mapping _ _ _ _ Hid) as [fields ->].
  destruct (Compress.count ks _id =? 1) eqn:Hc.
  - injection Hstep as <-. rewrite Hown, app_nil_r in Hsn.
    split; [exact Hlen |]. split; [intros i Hi; apply Hrest; lia |].
    split; [eapply Hview'; [apply Hname; reflexivity | reflexivity] |].
    rewrite Hsn. cbn [fst snd].
    assert (Hget : Py.dget K (Py.dset tname m v) = Py.dget K v).
    { apply dget_dset_ne. intros ->. now rewrite String.eqb_refl in Hown. }
    rewrite Hget. exact Hgrp.
  - destruct (Compress.compressed_name repr tname (VDict fields) (Compress.count ks _id))
      as [name| | |] eqn:Hcn; try congruence.
    specialize (Hname name eq_refl).
    destruct (Py.dget name v) as [j|] eqn:Hj.
    + destruct (heap !! j) as [[tj [| | | | | |acc]]|] eqn:Hhj; try congruence.
      destruct (Compress.merge fields acc) as [acc' r] eqn:Hmerge.
      injection Hstep as <- ->.
      destruct (Hview _ _ Hj) as [Hjm (ej & Hdj & Hnj)].
      split; [cbn [snd]; now rewrite length_insert |].
      split.
      { intros i Hi. cbn [snd]. rewrite list_lookup_insert_ne by lia.
        apply Hrest. lia. }
      split.
      { intros n j' Hj'. destruct (Hview _ _ Hj') as [Hlt He].
        split; [lia | exact He]. }
      rewrite Hsn. cbn [fst snd].
      destruct (String.eqb_spec name K) as [->|Hne].
      * destruct (Compress.stored_under repr ks K (take m d)) as [|f r];
          [congruence |].
        destruct Hgrp as (j0 & acc0 & Hj0 & Hdj0 & Hh0 & HP).
        assert (j0 = j) as -> by congruence.
        assert (tj = f.1 /\ acc0 = VDict acc) as [-> ->] by (split; congruence).
        exists j, (VDict acc'). cbn [app].
        split; [exact Hj0 |]. split; [exact Hdj0 |].
        split; [apply list_lookup_insert_eq; eapply lookup_lt_Some; eauto |].
        eapply Hlater; eauto.
      * rewrite app_nil_r.
        destruct (Compress.stored_under repr ks K (take m d)) as [|f r];
          [exact Hgrp |].
        destruct Hgrp as (j0 & acc0 & Hj0 & Hdj0 & Hh0 & HP).
        exists j0, acc0. repeat (split; [assumption |]).
        split; [| exact HP].
        rewrite list_lookup_insert_ne; [exact Hh0 |].
        intros ->. destruct (Hview _ _ Hj0) as [_ (e0 & He0 & Hn0)].
        congruence.
    + injection Hstep as <-.
      split; [exact Hlen |]. split; [intros i Hi; apply Hrest; lia |].
      split; [eapply Hview'; [exact Hname | reflexivity] |].
      rewrite Hsn. cbn [fst snd].
      destruct (String.eqb_spec name K) as [->|Hne].
      * destruct (Compress.stored_under repr ks K (take m d)) as [|f r].
        2:{ destruct Hgrp as (j0 & ? & Hj0 & _). congruence. }
        exists m, (VDict fields). cbn [app fst snd].
        split; [apply dget_dset_eq |]. split; [exact Hd |].
        split; [exact Hh |].
        exact (Hfirst (tname, VDict fields) fields eq_refl).
      * rewrite app_nil_r. rewrite dget_dset_ne by congruence. exact Hgrp.
Qed.

Lemma steps_group k m st st' :
  group_inv repr P d ks K m st -> (m + k <= length d)%nat ->
  Compress.steps repr ks (seq m k) st = (st', Ok tt) ->
  group_inv repr P d ks K (m + k) st'.
Proof.
  revert m st. induction k as [|k IH]; intros m st Hinv Hlen H.
  - simpl in H. injection H as <-. now rewrite Nat.add_0_r.
  - simpl in H. destruct (Compress.step repr ks m st) as [st1 r] eqn:Hstep.
    destruct r as [[]| | |]; try congruence.
    replace (m + S k)%nat with (S m + k)%nat by lia.
    apply (IH (S m) st1); [| lia | exact H].
    eapply step_group; eauto. lia.
Qed.

Lemma group_inv_start : group_inv repr P d ks K 0 ([], d).
Proof.
  split; [reflexivity |]. split; [reflexivity |].
  split; [intros n j; discriminate | reflexivity].
Qed.

Lemma compress_host_group v heap first rest :
  Compress.id_keys repr d = Ok ks ->
  Compress.stored_under repr ks K d = first :: rest ->
  Compress.compress_host repr d = ((v, heap), Ok tt) ->
  exists j acc,
    Py.dget K v = Some j /\ d !! j = Some first
    /\ heap !! j = Some (first.1, acc) /\ P (first :: rest) acc.
Proof.
  intros Hks Hmem H.
  unfold Compress.compress_host in H. rewrite Hks in H.
  pose proof (steps_group (length d) 0 ([], d) (v, heap)
                group_inv_start (le_n _) H) as (_ & _ & _ & Hgrp).
  cbn [Nat.add fst snd] in Hgrp. now rewrite firstn_all, Hmem in Hgrp.
Qed.

End GroupLoop.

(** X27: the record that compression stores under a compressed name keeps
    the changes of the first member of its group when no later member has
    changes; otherwise its changes hold, under [compressed changes], the
    changes of the members that have some, each under the [name] of its
    member, which is then a string: a later member replaces an earlier one
    of the same name, and when the names differ there is one entry for each
    such member, in the order of the mapping.  The first member is assumed
    not to hold compressed changes already. *)
Theorem compressed_changes_keyed_by_name repr (d : dict) ks K v heap first rest :
  Compress.id_keys repr d = Ok ks ->
  K ∉ map fst d ->
  Compress.stored_under repr ks K d = first :: rest ->
  not_compressed_yet first.2 ->
  Compress.compress_host repr d = ((v, heap), Ok tt) ->
  exists j acc,
    Py.dget K v = Some j /\ d !! j = Some first
    /\ heap !! j = Some (first.1, VDict acc)
    /\ Py.dget "changes" acc = merged_changes first rest
    /\ (changed_members rest <> [] ->
        let changed := changed_members (first :: rest) in
        Forall (fun e => is_Some (str_name e.2)) changed
        /\ (NoDup (map (fun e => default "" (str_name e.2)) changed) ->
            keyed_changes (first :: rest)
            = map (fun e => (default "" (str_name e.2), changes_field e.2))
                  changed)).
Proof.
  intros Hks HK Hmem Hfresh H.
  destruct (compress_host_group repr changes_merged_of d ks K HK
              first_changes merge_changes v heap first rest Hks Hmem H)
    as (j & acc & Hj & Hdj & Hhj & HP).
  destruct (HP Hfresh) as (fd & accd & Hf & -> & Hn & Hc & Hnamed).
  exists j, accd. repeat (split; [assumption |]).
  intros Hne. split; [exact (Hnamed Hne) |].
  apply keyed_changes_distinct.
Qed.

Lemma compressed_changes_keyed_by_name_witness :
  let K := "cmd_|-x (3)_|-state_compressed_s_x_True_|-run" in
  let d := Fixture.changed_group in
  exists ks v heap first rest,
    Compress.id_keys (repr Sample.plain) d = Ok ks
    /\ (K ∉ map fst d)
    /\ Compress.stored_under (repr Sample.plain) ks K d = first :: rest
    /\ not_compressed_yet first.2
    /\ Compress.compress_host (repr Sample.plain) d = ((v, heap), Ok tt)
    /\ exists j acc,
         Py.dget K v = Some j /\ d !! j = Some first
         /\ heap !! j = Some (first.1, VDict acc)
         /\ Py.dget "changes" acc = merged_changes first rest
         /\ (changed_members rest <> [] ->
             let changed := changed_members (first :: rest) in
             Forall (fun e => is_Some (str_name e.2)) changed
             /\ (NoDup (map (fun e => default "" (str_name e.2)) changed) ->
                 keyed_changes (first :: rest)
                 = map (fun e => (default "" (str_name e.2), changes_field e.2))
                       changed)).
Proof.
  intros K d.
  assert (HK : K ∉ map fst d).
  { apply (bool_decide_unpack _). vm_compute. exact I. }
  assert (Hfresh : not_compressed_yet
                     (Fixture.changed_task "a" (VDict [("pid", VInt 1)]) 0)).
  { intros c Hc. injection Hc as <-. reflexivity. }
  eexists _, _, _, _, _.
  split; [vm_compute; reflexivity |]. split; [exact HK |].
  split; [vm_compute; reflexivity |]. split; [exact Hfresh |].
  split; [vm_compute; reflexivity |].
  eapply (compressed_changes_keyed_by_name (repr Sample.plain) d _ K).
  - vm_compute. reflexivity.
  - exact HK.
  - vm_compute. reflexivity.
  - exact Hfresh.
  - vm_compute. reflexivity.
Defined.

(** ** Payloads that are not mappings *)



(** ** Records of an orchestration *)

Section Orchestration.
Context (E : externals) (opts : options).
Context (ro : Z -> value -> res (value * value)).
Context (rfh : string -> value -> res (string * bool * value)).

Lemma emit_nchanges act tcolor comps k i ret ctext st st' :
  Render.emit E opts act tcolor comps k i ret ctext st = Ok st' ->
  Render.nchanges st' = Render.nchanges st.
Proof.
  destruct act; simpl; intros H.
  - now injection H as <-.
  - apply rbind_ok in H as (msg & _ & H). now injection H as <-.
  - apply rbind_ok in H as (ret' & _ & H).
    apply rbind_ok in H as (block & _ & H).
    apply rbind_ok in H as (wl & _ & H). injection H as <-.
    now destruct (Py.dhas "warnings" ret').
Qed.

(** What a record adds to the number of changes is what its changes give. *)
Lemma render_task_adds indent tname i st st' :
  Render.render_task E opts ro rfh indent tname i st = Ok st' ->
  exists k ret count schanged ctext n ret1,
    Render.heap st !! i = Some (k, VDict ret)
    /\ Render.compressed_count opts tname = Ok count
    /\ Render.changes_of E ro rfh indent count ret = Ok (schanged, ctext, n, ret1)
    /\ Render.nchanges st' = Render.nchanges st + n.
Proof.
  intros H.
  apply render_task_inv in H
    as (k & ret & result & key & count & dur & schanged & ctext & n & ret1
        & Hi & Hres & Hkey & Hcount & Hdur & Hch & H).
  exists k, ret, count, schanged, ctext, n, ret1.
  repeat (split; [assumption |]). cbv zeta in H.
  assert (Hn : Render.nchanges (Render.before_skips k i key count dur ret ret1 n st)
               = Render.nchanges st + n).
  { unfold Render.before_skips, Render.tally. simpl.
    destruct dur; [destruct (Py.dhas _ _) |]; reflexivity. }
  destruct (Render.skipped opts result schanged).
  - now subst st'.
  - destruct H as (comps & act & _ & _ & H).
    apply emit_nchanges in H. now rewrite H.
Qed.


(** X25: a record whose [name] is [state.orch], [state.orchestrate] or
    [state.sls] adds one to the number of changes whatever its changes
    hold, and outside the filter mode it is never hidden: it adds at least
    one line to the host. *)
Theorem orchestration_counts_as_a_change indent tname i st st' k ret :
  Render.heap st !! i = Some (k, VDict ret) ->
  Render.is_orch ret = true ->
  Render.render_task E opts ro rfh indent tname i st = Ok st' ->
  Render.nchanges st' = Render.nchanges st + 1
  /\ exists lines,
       Render.hstrs st' = Render.hstrs st ++ lines
       /\ (Str.startswith (Str.lower (state_output opts)) "filter" = false ->
           (1 <= length lines)%nat).
Proof.
  intros Hi Ho H.
  assert (Horch : forall count schanged ctext n ret1,
            Render.changes_of E ro rfh indent count ret
            = Ok (schanged, ctext, n, ret1) -> schanged = true /\ n = 1).
  { intros count schanged ctext n ret1 Hch.
    unfold Render.changes_of in Hch. rewrite Ho in Hch.
    apply rbind_ok in Hch as (ch & _ & Hch).
    apply rbind_ok in Hch as ([nested ch'] & _ & Hch).
    destruct nested; try discriminate. now injection Hch as <- _ <- _. }
  split.
  - apply render_task_adds in H
      as (k' & ret' & count & schanged & ctext & n & ret1 & Hi' & _ & Hch & ->).
    rewrite Hi in Hi'. injection Hi' as <- <-.
    now destruct (Horch _ _ _ _ _ Hch) as [_ ->].
  - apply render_task_inv in H
      as (k' & ret' & result & key & count & dur & schanged & ctext & n & ret1
          & Hi' & Hres & Hkey & Hcount & Hdur & Hch & H).
    rewrite Hi in Hi'. injection Hi' as <- <-. cbv zeta in H.
    destruct (Horch _ _ _ _ _ Hch) as [-> ->].
    assert (Hs : Render.skipped opts result true = false).
    { unfold Render.skipped. cbn [negb]. now rewrite !andb_false_r. }
    rewrite Hs in H. destruct H as (comps & act & Hcomps & Hact & H).
    apply emit_hstrs in H as (lines & Hlines & Hem).
    exists lines. split.
    + rewrite Hlines. unfold Render.before_skips. simpl. now rewrite hstrs_tally.
    + intros Hf. apply emitted_length in Hem.
      unfold Render.dispatch in Hact. rewrite Hf in Hact.
      destruct (_ || _); injection Hact as <-; lia.
Qed.

(** ** Changes that are keyed by name *)

(** X28: a record that stands for more than one (its name carries a count
    above 1) and whose changes hold a mapping under [compressed changes]
    adds to the number of changes the number of names in that mapping, and
    one when the mapping is empty; its changes are not an embedded
    report. *)
Theorem keyed_changes_counted indent tname i st st' k ret (c cc : dict) count :
  Render.heap st !! i = Some (k, VDict ret) ->
  flat_record (VDict ret) ->
  Py.dget "changes" ret = Some (VDict c) ->
  Py.dget "compressed changes" c = Some (VDict cc) ->
  Render.compressed_count opts tname = Ok count -> 1 < count ->
  Render.render_task E opts ro rfh indent tname i st = Ok st' ->
  Render.nchanges st' = Render.nchanges st + Z.max 1 (Z.of_nat (length cc)).
Proof.
  intros Hi [Ho Hflat] Hc Hcc Hcount Hgt H.
  apply render_task_adds in H
    as (k' & ret' & count' & schanged & ctext & n & ret1 & Hi' & Hcount' & Hch & ->).
  rewrite Hi in Hi'. injection Hi' as <- <-.
  rewrite Hcount in Hcount'. injection Hcount' as <-.
  f_equal. rewrite Hc in Hflat.
  unfold Render.changes_of in Hch. rewrite Hc, Ho in Hch. cbn [of_option rbind] in Hch.
  assert (Hfc : Render.format_changes E rfh (VDict c)
                = Ok (true, Render.nested_changes E (VDict c), VDict c)).
  { unfold Render.format_changes.
    assert (Ht : Py.truthy (VDict c) = true) by (destruct c; [discriminate | reflexivity]).
    rewrite Ht. cbn [negb]. cbv zeta.
    destruct Hflat as [Hret | Hout].
    - now rewrite Hret.
    - rewrite Hout. now destruct (default VNone (Py.dget "ret" c)). }
  rewrite Hfc in Hch. cbn [rbind andb] in Hch.
  apply Z.ltb_lt in Hgt. rewrite Hgt in Hch.
  cbn [Py.get rbind] in Hch. rewrite Hcc in Hch.
  cbn [default id Py.len rbind] in Hch.
  injection Hch as _ _ <- _.
  destruct (Z.eqb_spec (Z.of_nat (length cc)) 0); lia.
Qed.

(** ** Reports embedded in the changes of a record *)

Lemma format_embedded_changed (hosts : dict) (rs : list (string * bool * value)) :
  Forall2 (fun h r => rfh h.1 h.2 = Ok r) hosts rs ->
  exists ctext,
    Render.format_embedded rfh hosts
    = Ok (existsb (fun r => r.1.2) rs, ctext,
          zip_with (fun h r => (h.1, r.2)) hosts rs).
Proof.
  induction 1 as [|[host hostdata] [[s c] hd'] hosts rs Hr _ IH].
  - eexists. reflexivity.
  - destruct IH as (ctext & IH). simpl in Hr.
    cbn [Render.format_embedded]. rewrite Hr. cbn [rbind]. rewrite IH.
    cbn [rbind existsb zip_with fst snd]. eexists. reflexivity.
Qed.

(** X26: changes that embed a highstate report ([out] is [highstate] and
    [ret] maps hosts to their data) count as changed exactly when one of the
    embedded hosts is rendered as changed; every embedded host is rendered,
    and the changes keep their other keys. *)
Theorem embedded_report_changed (d hosts : dict) (rs : list (string * bool * value)) :
  Py.dget "ret" d = Some (VDict hosts) ->
  Py.eq_str (default VNone (Py.dget "out" d)) "highstate" = true ->
  Forall2 (fun h r => rfh h.1 h.2 = Ok r) hosts rs ->
  exists ctext,
    Render.format_changes E rfh (VDict d)
    = Ok (existsb (fun r => r.1.2) rs, ctext,
          VDict (Py.dset "ret"
                   (VDict (zip_with (fun h r => (h.1, r.2)) hosts rs)) d)).
Proof.
  intros Hret Hout Hrs.
  destruct (format_embedded_changed hosts rs Hrs) as (ctext & He).
  exists ctext. unfold Render.format_changes.
  assert (Ht : Py.truthy (VDict d) = true).
  { destruct d; [discriminate | reflexivity]. }
  rewrite Ht. cbn [negb]. cbv zeta. rewrite Hret, Hout. cbn [default id].
  rewrite He. reflexivity.
Qed.

End Orchestration.

Lemma keyed_changes_counted_witness :
  let opts := Sample.with_output "full" true true in
  let st := Render.initial Sample.plain [] Fixture.keyed_host in
  exists st',
    Render.render_task Sample.plain opts Sample.no_output Sample.no_format_host
      1 "cmd_|-x (3)_|-state_compressed_s_x_True_|-run" 0 st = Ok st'
    /\ Render.nchanges st' = Render.nchanges st + 2.
Proof.
  intros opts st. eexists. split; [vm_compute; reflexivity |].
  eapply (keyed_changes_counted Sample.plain opts Sample.no_output
            Sample.no_format_host 1
            "cmd_|-x (3)_|-state_compressed_s_x_True_|-run" 0 st _ _
            Fixture.keyed_record _
            [("a", VDict [("pid", VInt 1)]); ("c", VDict [("pid", VInt 3)])] 3).
  - reflexivity.
  - split; [reflexivity | left; reflexivity].
  - reflexivity.
  - reflexivity.
  - vm_compute. reflexivity.
  - lia.
  - vm_compute. reflexivity.
Defined.

Lemma orchestration_counts_as_a_change_witness :
  let opts := Sample.with_output "changes" false false in
  let st := Render.initial Sample.plain [] Fixture.orch_host in
  exists st',
    Render.render_task Sample.plain opts Fixture.fixed_output
      Sample.no_format_host 1 "salt_|-deploy_|-state.orch_|-runner" 0 st = Ok st'
    /\ Render.nchanges st' = Render.nchanges st + 1
    /\ exists lines,
         Render.hstrs st' = Render.hstrs st ++ lines
         /\ (Str.startswith (Str.lower (state_output opts)) "filter" = false ->
             (1 <= length lines)%nat).
Proof.
  intros opts st. eexists. split; [vm_compute; reflexivity |].
  eapply (orchestration_counts_as_a_change Sample.plain opts Fixture.fixed_output
            Sample.no_format_host 1 "salt_|-deploy_|-state.orch_|-runner" 0 st).
  - reflexivity.
  - reflexivity.
  - vm_compute. reflexivity.
Defined.

Lemma embedded_report_changed_witness :
  let rfh := Output.format_host Fixture.tagged Fixture.tabular 1 1 in
  exists rs,
    Forall2 (fun h r => rfh h.1 h.2 = Ok r)
      [("web1", VStr "restarted"); ("web2", VNone)] rs
    /\ exists ctext,
         Render.format_changes Fixture.tagged rfh (VDict Fixture.embedded)
         = Ok (true, ctext, VDict Fixture.embedded).
Proof.
  intros rfh. eexists [(_, true, VStr "restarted"); (_, false, VNone)]. split.
  - repeat (constructor; [reflexivity |]). constructor.
  - eapply (embedded_report_changed Fixture.tagged rfh Fixture.embedded
              [("web1", VStr "restarted"); ("web2", VNone)]
              [(_, true, VStr "restarted"); (_, false, VNone)]).
    + reflexivity.
    + reflexivity.
    + repeat (constructor; [reflexivity |]). constructor.
Defined.
